(** * Sotrian fraud detection: decision-fusion workflow

    A shallow embedding of the decision logic in
    [Models/langgraph_fraud_detector.py], [Models/fraud_advisor.py],
    [Models/QR-Spam/qr_detector.py] and the text branch of [/api/detect] in
    [Models/main.py], followed by the properties the specification states
    about it.

    Conventions of the embedding.
    - A Python [float] is an IEEE binary64 number: Rocq's primitive [float].
      Literals such as [0.7] denote the nearest binary64 value on both sides.
    - A Python [str] is a [string], read as the UTF-8 bytes of the text.
      Where the code counts or classifies the characters of a text it was
      sent (the advisor's validator, the length of a key, a slice), the text
      is read as its code points ([Str.of_string]) and [str.isalpha],
      [str.isdigit], [str.isspace] and [str.lower] are those of the Unicode
      database, the class [Unicode].  Elsewhere trimming and case folding
      ([Py.strip], [Py.lower]) use the ASCII classes.
    - The reasoning service, [json.loads], the number formatter and the
      scikit-learn pipelines are collaborators outside the repository; they
      are the fields of the class [World].  A JSON answer that parses is read
      as an object whose fields have the types the prompt asks for.
    - A prompt is a fixed template with holes; the embedding keeps the name of
      the template and the values put in the holes.
    - A node that calls the reasoning service runs in the monad [M], which
      threads the log of calls made so far and propagates a raised exception. *)

From Stdlib Require Import Floats ZArith NArith String Ascii List Bool Arith Lia.
Import ListNotations.
Set Warnings "-inexact-float".
Open Scope string_scope.
Open Scope list_scope.
Open Scope nat_scope.

Infix "+++" := String.append (right associativity, at level 60).

(** ** Python primitives *)

Module Py.

Definition code (c : ascii) : nat := nat_of_ascii c.

Definition between (lo hi : nat) (c : ascii) : bool :=
  (lo <=? code c) && (code c <=? hi).

(** [str.isspace] on ASCII: tab, LF, VT, FF, CR, FS, GS, RS, US and space. *)
Definition isspace (c : ascii) : bool :=
  between 9 13 c || between 28 32 c.

Definition isupper (c : ascii) : bool := between 65 90 c.
Definition islower (c : ascii) : bool := between 97 122 c.
Definition isalpha (c : ascii) : bool := isupper c || islower c.
Definition isdigit (c : ascii) : bool := between 48 57 c.

Definition lower_char (c : ascii) : ascii :=
  if isupper c then ascii_of_nat (code c + 32) else c.
Definition upper_char (c : ascii) : ascii :=
  if islower c then ascii_of_nat (code c - 32) else c.

Fixpoint map_str (f : ascii -> ascii) (s : string) : string :=
  match s with
  | EmptyString => EmptyString
  | String c r => String (f c) (map_str f r)
  end.

Definition lower : string -> string := map_str lower_char.
Definition upper : string -> string := map_str upper_char.

Definition len : string -> nat := String.length.

(** [sum(p(c) for c in s)] *)
Fixpoint count_if (p : ascii -> bool) (s : string) : nat :=
  match s with
  | EmptyString => 0
  | String c r => (if p c then 1 else 0) + count_if p r
  end.

(** [s.count(ch)] for a one-character [ch] *)
Definition count_char (ch : ascii) (s : string) : nat :=
  count_if (Ascii.eqb ch) s.

(** [any(p(c) for c in s)] *)
Fixpoint exists_char (p : ascii -> bool) (s : string) : bool :=
  match s with
  | EmptyString => false
  | String c r => p c || exists_char p r
  end.

Fixpoint forall_char (p : ascii -> bool) (s : string) : bool :=
  match s with
  | EmptyString => true
  | String c r => p c && forall_char p r
  end.

Definition startswith (s p : string) : bool := String.prefix p s.

(** [needle in haystack] *)
Fixpoint contains (needle haystack : string) : bool :=
  String.prefix needle haystack ||
  match haystack with
  | EmptyString => false
  | String _ r => contains needle r
  end.

(** [any(word in s for word in words)] *)
Definition any_in (words : list string) (s : string) : bool :=
  existsb (fun word => contains word s) words.

Fixpoint lstrip (s : string) : string :=
  match s with
  | EmptyString => EmptyString
  | String c r => if isspace c then lstrip r else s
  end.

Fixpoint rstrip (s : string) : string :=
  match s with
  | EmptyString => EmptyString
  | String c r =>
      match rstrip r with
      | EmptyString => if isspace c then EmptyString else String c EmptyString
      | r' => String c r'
      end
  end.

Definition strip (s : string) : string := rstrip (lstrip s).

(** [s[n:]] *)
Fixpoint drop (n : nat) (s : string) : string :=
  match n, s with
  | S k, String _ r => drop k r
  | _, _ => s
  end.

Fixpoint drop_while (p : ascii -> bool) (s : string) : string :=
  match s with
  | EmptyString => EmptyString
  | String c r => if p c then drop_while p r else s
  end.

(** [s.replace(old, new)], every call site passing a non-empty [old]:
    occurrences are replaced from the left and do not overlap. [skip] counts
    the characters of a matched occurrence still to be dropped. *)
Fixpoint replace_from (old new s : string) (skip : nat) : string :=
  match s with
  | EmptyString => EmptyString
  | String c r =>
      match skip with
      | S k => replace_from old new r k
      | O =>
          if String.prefix old s
          then new +++ replace_from old new r (len old - 1)
          else String c (replace_from old new r 0)
      end
  end.

Definition replace (s old new : string) : string := replace_from old new s 0.

(** [s.split(sep)] for a one-character separator: empty fields are kept and
    the empty string has one (empty) field. *)
Fixpoint split (sep : ascii) (s : string) : list string :=
  match s with
  | EmptyString => [EmptyString]
  | String c r =>
      if Ascii.eqb c sep then EmptyString :: split sep r
      else match split sep r with
           | w :: ws => String c w :: ws
           | [] => [String c EmptyString]
           end
  end.

(** [sep.join(parts)] *)
Definition join (sep : string) (parts : list string) : string :=
  String.concat sep parts.

(** ASCII line boundaries of [str.splitlines]: LF, VT, FF, CR, FS, GS, RS. *)
Definition islinebreak (c : ascii) : bool :=
  between 10 13 c || between 28 30 c.

Fixpoint splitlines (s : string) : list string :=
  match s with
  | EmptyString => []
  | String c r =>
      if islinebreak c then
        match r with
        | String c' r' =>
            if (code c =? 13) && (code c' =? 10)
            then EmptyString :: splitlines r'
            else EmptyString :: splitlines r
        | EmptyString => [EmptyString]
        end
      else match splitlines r with
           | ln :: lns => String c ln :: lns
           | [] => [String c EmptyString]
           end
  end.

(** [words[i:j]] *)
Definition slice {A} (l : list A) (i j : nat) : list A :=
  firstn (j - i) (skipn i l).

(** [range(start, stop, step)] for a positive step; at most [fuel] items. *)
Fixpoint range_from (fuel start stop step : nat) : list nat :=
  match fuel with
  | O => []
  | S f => if start <? stop then start :: range_from f (start + step) stop step
           else []
  end.

Definition range (start stop step : nat) : list nat :=
  range_from (stop - start) start stop step.

(** Floats. [float(n)] for an integer [n]; exact for [0 <= n < 2^53]. *)
Definition float_of_Z (z : Z) : float := PrimFloat.of_uint63 (Uint63.of_Z z).

Definition of_nat (n : nat) : float := float_of_Z (Z.of_nat n).

Definition ge (a b : float) : bool := PrimFloat.leb b a.
Definition gt (a b : float) : bool := PrimFloat.ltb b a.
Definition lt (a b : float) : bool := PrimFloat.ltb a b.

(** [max(a, b)] and [min(a, b)]: the first argument wins unless the second
    is strictly larger (smaller). *)
Definition max (a b : float) : float := if gt b a then b else a.
Definition min (a b : float) : float := if lt b a then b else a.

End Py.

(** ** Python [str] as code points *)

(** The Unicode database behind the [str] methods, on code points, with what
    the proofs use of it.  On ASCII the classes are the ones of [Py].  A
    letter ([str.isalpha]: general category L) is never a digit
    ([str.isdigit]: numeric type Digit or Decimal, general categories Nd and
    No).  [str.lower] is the full case mapping of the whole text (a capital
    sigma is final or not by its context; U+0130 becomes two code points),
    and a code point maps to at most three. *)
Class Unicode := {
  str_isalpha : N -> bool;
  str_isdigit : N -> bool;
  str_isspace : N -> bool;
  str_lower : list N -> list N;
  isalpha_ascii :
    forall c, (c < 128)%N -> str_isalpha c = Py.isalpha (ascii_of_N c);
  isdigit_ascii :
    forall c, (c < 128)%N -> str_isdigit c = Py.isdigit (ascii_of_N c);
  isspace_ascii :
    forall c, (c < 128)%N -> str_isspace c = Py.isspace (ascii_of_N c);
  lower_ascii :
    forall s, forallb (fun c => (c <? 128)%N) s = true ->
      str_lower s = map (fun c => N_of_ascii (Py.lower_char (ascii_of_N c))) s;
  letter_is_no_digit :
    forall c, str_isalpha c = true -> str_isdigit c = false;
  lower_length : forall s, length (str_lower s) <= 3 * length s
}.

Module Str.

(** UTF-8 decoding: [pending] continuation bytes are still to come for the
    code point whose high bits are [acc].  A [string] that is not the
    encoding of a text stands for no [str]. *)
Fixpoint decode (pending : nat) (acc : N) (bytes : string) : list N :=
  match bytes with
  | EmptyString => []
  | String b rest =>
      let n := N_of_ascii b in
      match pending with
      | S k =>
          let acc := (acc * 64 + n mod 64)%N in
          match k with
          | O => acc :: decode 0 0%N rest
          | S _ => decode k acc rest
          end
      | O =>
          if (n <? 128)%N then n :: decode 0 0%N rest
          else if (n <? 224)%N then decode 1 (n mod 32)%N rest
          else if (n <? 240)%N then decode 2 (n mod 16)%N rest
          else decode 3 (n mod 8)%N rest
      end
  end.

(** The code points of a text. *)
Definition of_string (s : string) : list N := decode 0 0%N s.

(** [len(s)] *)
Definition len (s : list N) : nat := length s.

(** [sum(p(c) for c in s)] *)
Fixpoint count_if (p : N -> bool) (s : list N) : nat :=
  match s with
  | [] => 0
  | c :: r => (if p c then 1 else 0) + count_if p r
  end.

(** [s.count(ch)] for a one-character [ch] *)
Definition count_char (ch : N) (s : list N) : nat := count_if (N.eqb ch) s.

(** [s.replace(ch, '')] for a one-character [ch] *)
Definition remove (ch : N) (s : list N) : list N :=
  filter (fun c => negb (N.eqb c ch)) s.

Section Strip.

Context `{Unicode}.

Fixpoint lstrip (s : list N) : list N :=
  match s with
  | [] => []
  | c :: r => if str_isspace c then lstrip r else s
  end.

Fixpoint rstrip (s : list N) : list N :=
  match s with
  | [] => []
  | c :: r =>
      match rstrip r with
      | [] => if str_isspace c then [] else [c]
      | r' => c :: r'
      end
  end.

(** [s.strip()] *)
Definition strip (s : list N) : list N := rstrip (lstrip s).

End Strip.

(** Whether a byte starts a character in UTF-8. *)
Definition starts_char (b : ascii) : bool :=
  (N_of_ascii b <? 128)%N || (192 <=? N_of_ascii b)%N.

(** [s[:n]] on the encoded text: the bytes of its first [n] characters. *)
Fixpoint take (n : nat) (s : string) : string :=
  match s with
  | EmptyString => EmptyString
  | String b rest =>
      if starts_char b then
        match n with
        | O => EmptyString
        | S k => String b (take k rest)
        end
      else String b (take n rest)
  end.

End Str.

(** ** Data model *)

Definition nl : string := String (ascii_of_nat 10) EmptyString.

(** An exception, carrying [str(e)]. *)
Inductive Exception := Error (msg : string).

Definition str_of_exception (e : Exception) : string :=
  match e with Error msg => msg end.

(** The outcome of a call that may raise. *)
Inductive Res (A : Type) : Type :=
| Ok (a : A)
| Raise (e : Exception).
Arguments Ok {A} a.
Arguments Raise {A} e.

(** [parsed_data]: the empty dict of the initial state, the object
    [json.loads] read from a text (kept as that text), or the
    [{"raw_input": user_input}] of the parsing fallback. *)
Inductive ParsedData :=
| EmptyData
| Parsed (json_text : string)
| RawInput (user_input : string).

(** The [ml_prediction] dict. [probability_fraud] is stored under the key
    [probability_spam] by the spam predictor. *)
Module ML.
Record t := mk {
  model_available : bool;
  prediction : option Z;
  confidence : float;
  probability_fraud : option float;
  probability_legitimate : option float;
  method : string;
  error : option string
}.
Definition set_method (m : string) (p : t) : t :=
  mk (model_available p) (prediction p) (confidence p) (probability_fraud p)
     (probability_legitimate p) m (error p).
Definition set_error (e : string) (p : t) : t :=
  mk (model_available p) (prediction p) (confidence p) (probability_fraud p)
     (probability_legitimate p) (method p) (Some e).
End ML.

(** The [llm_analysis] dict; [None] is an absent key. *)
Module LLM.
Record t := mk {
  is_fraud : option bool;
  confidence : option float;
  risk_level : option string;
  reasoning : option string;
  red_flags : option (list string);
  recommendations : option string;
  method : option string;
  used : option bool;
  reason : option string
}.
Definition empty : t := mk None None None None None None None None None.
Definition set_reasoning (x : option string) (a : t) : t :=
  mk (is_fraud a) (confidence a) (risk_level a) x (red_flags a)
     (recommendations a) (method a) (used a) (reason a).
Definition set_recommendations (x : option string) (a : t) : t :=
  mk (is_fraud a) (confidence a) (risk_level a) (reasoning a) (red_flags a)
     x (method a) (used a) (reason a).
Definition set_red_flags (x : option (list string)) (a : t) : t :=
  mk (is_fraud a) (confidence a) (risk_level a) (reasoning a) x
     (recommendations a) (method a) (used a) (reason a).
End LLM.

(** The JSON object the validation prompt asks for. *)
Module Validation.
Record t := mk {
  category : option string;
  is_fraud_request : option bool;
  conversational_response : option string;
  reasoning : option string
}.
End Validation.

(** What the sklearn pipeline of a predictor yields: [model.predict(X)[0]]
    and [model.predict_proba(X)[0]] as (legitimate, fraud). *)
Record Inference := {
  predicted : Z;
  probability : float * float
}.

(** An entry of [state['messages']]; the f-string around the value is left
    out. *)
Inductive Message :=
| MsgProcessing (reasoning : string)
| MsgDetected (fraud_type : string)
| MsgParsed (parsed_data : ParsedData)
| MsgML (ml_result : ML.t)
| MsgLLM (llm_result : LLM.t).

(** The [details] dict of a result, by the place that builds it. *)
Inductive Details :=
| FusionDetails (input_data : ParsedData) (ml_prediction : option ML.t)
    (llm_analysis : option LLM.t) (processing_steps : list Message)
    (red_flags : list string)
| ConversationalDetails (query_type original_query : string)
    (is_conversational : bool)
| OriginalQueryDetails (original_query : string)
| ErrorDetails (error : string).

(** [final_result]: the fields of [FraudDetectionResult] and, when the fuser
    built it, [formatted_message]. *)
Module Verdict.
Record t := mk {
  fraud_type : string;
  is_fraud : bool;
  confidence : float;
  risk_level : string;
  detection_method : string;
  reasoning : string;
  recommendation : string;
  details : Details;
  formatted_message : option string
}.
End Verdict.

(** [FraudDetectionState]; an empty [ml_prediction] or [final_result] dict is
    [None], an empty [llm_analysis] dict is [LLM.empty]. *)
Module State.
Record t := mk {
  user_input : string;
  fraud_type : string;
  parsed_data : ParsedData;
  ml_prediction : option ML.t;
  llm_analysis : LLM.t;
  final_result : option Verdict.t;
  messages : list Message
}.
End State.

(** An item of a stream. *)
Record Chunk (R : Type) := {
  type : string;
  content : string;
  is_complete : bool;
  result : option R
}.
Arguments type {R} _.
Arguments content {R} _.
Arguments is_complete {R} _.
Arguments result {R} _.

(** The prompts sent to the reasoning service. *)
Inductive Prompt :=
| ValidationPrompt (user_input : string)
| ClassificationPrompt (user_input : string)
| ParsingPrompt (fraud_type user_input : string)
| AnalysisPrompt (fraud_type : string) (data : ParsedData) (ml_pred : ML.t)
| CategorizationPrompt (query : string)
| GenerationPrompt (query query_type context : string).

(** The collaborators outside the repository. *)
Class World := {
  (** [self.llm.invoke(prompt).content], or the exception the call raises *)
  llm_invoke : Prompt -> Res string;
  (** whether [json.loads] accepts the text *)
  json_valid : string -> bool;
  (** [json.loads] of an answer to the validation prompt; [None] when the
      text is not JSON *)
  loads_validation : string -> option Validation.t;
  (** [json.loads] of an answer to the analysis prompt *)
  loads_analysis : string -> option LLM.t;
  (** [json.loads] of an answer to the categorization prompt, as
      ([query_type], [topic]) *)
  loads_categorization : string -> option (option string * option string);
  (** the format spec [.1f] *)
  format_1f : float -> string;
  (** keys of [model_loader.models] *)
  models : list string;
  (** feature extraction, scaling and the sklearn calls of the predictor
      registered under a key *)
  infer : string -> ParsedData -> Res Inference
}.

(** ** Effects: the log of reasoning-service calls *)

Definition Log := list Prompt.
Definition M (A : Type) : Type := Log -> Res A * Log.

Definition ret {A} (a : A) : M A := fun log => (Ok a, log).

Definition bind {A B} (m : M A) (k : A -> M B) : M B :=
  fun log =>
    match m log with
    | (Ok a, log') => k a log'
    | (Raise e, log') => (Raise e, log')
    end.

Notation "x <- m ;; k" := (bind m (fun x => k))
  (at level 100, m at next level, right associativity).

Definition invoke `{World} (p : Prompt) : M string :=
  fun log => (llm_invoke p, log ++ [p]).

(** Run from an empty log. *)
Definition run {A} (m : M A) : Res A * Log := m [].

Definition default {A} (d : A) (o : option A) : A :=
  match o with Some a => a | None => d end.

Definition present {A} (o : option A) : bool :=
  match o with Some _ => true | None => false end.

Definition mem (s : string) (l : list string) : bool :=
  existsb (String.eqb s) l.

(** ** [langgraph_fraud_detector.py]: class [FraudDetectionGraph] *)

Section FraudDetectionGraph.

Context `{W : World}.

(** [re.fullmatch(r"\s*(?:[A-Z]{1,3}|AI|K)\s*", ln)]: one to three capital
    letters between optional whitespace. *)
Definition is_marker_line (ln : string) : bool :=
  let t := Py.strip ln in
  (1 <=? Py.len t) && (Py.len t <=? 3) && Py.forall_char Py.isupper t.

(** The class [[:\-\s]] *)
Definition label_separator (c : ascii) : bool :=
  Ascii.eqb c ":" || Ascii.eqb c "-" || Py.isspace c.

(** [re.sub(r'^\s*(?:AI|Assistant|K)[:\-\s]+', '', s)] *)
Definition remove_leading_label (s : string) : string :=
  let t := Py.lstrip s in
  let after (label : string) : option string :=
    if Py.startswith t label then
      match Py.drop (Py.len label) t with
      | String c r =>
          if label_separator c
          then Some (Py.drop_while label_separator r)
          else None
      | EmptyString => None
      end
    else None in
  match after "AI" with
  | Some r => r
  | None =>
      match after "Assistant" with
      | Some r => r
      | None => match after "K" with Some r => r | None => s end
      end
  end.

Definition _clean_response_text (s : string) : string :=
  if Py.len s =? 0 then s else
  let s := Py.strip s in
  let s :=
    if Py.startswith s "```json"
    then Py.strip (Py.replace (Py.replace s "```json" "") "```" "")
    else if Py.startswith s "```"
    then Py.strip (Py.replace s "```" "")
    else s in
  let lines := filter (fun ln => negb (is_marker_line ln)) (Py.splitlines s) in
  let s := Py.strip (Py.join nl lines) in
  remove_leading_label s.

Definition conversational_result (fraud_type reasoning recommendation : string)
    (details : Details) : Verdict.t :=
  Verdict.mk fraud_type false 1.0%float "N/A" "CONVERSATIONAL_AI"
             reasoning recommendation details None.

Definition validate_input (state : State.t) : M State.t :=
  content <- invoke (ValidationPrompt (State.user_input state)) ;;
  ret
    match loads_validation (_clean_response_text content) with
    | Some validation_result =>
        let category :=
          default "CONVERSATION" (Validation.category validation_result) in
        let is_fraud_request :=
          default false (Validation.is_fraud_request validation_result) in
        let conversational_response :=
          _clean_response_text
            (default "" (Validation.conversational_response validation_result)) in
        let reasoning :=
          _clean_response_text
            (default "" (Validation.reasoning validation_result)) in
        if negb is_fraud_request then
          State.mk (State.user_input state) (Py.lower category)
            (State.parsed_data state) (State.ml_prediction state)
            (State.llm_analysis state)
            (Some (conversational_result (Py.lower category) reasoning
                     conversational_response
                     (ConversationalDetails (Py.lower category)
                        (State.user_input state) true)))
            (State.messages state)
        else
          State.mk (State.user_input state) (State.fraud_type state)
            (State.parsed_data state) (State.ml_prediction state)
            (State.llm_analysis state) (State.final_result state)
            [MsgProcessing reasoning]
    | None =>
        State.mk (State.user_input state) "conversation"
          (State.parsed_data state) (State.ml_prediction state)
          (State.llm_analysis state)
          (Some (conversational_result "conversation" "Processing your request"
                   "I'm here to help with fraud detection! I can analyze credit card transactions, emails for spam, suspicious URLs, and UPI payments. What would you like me to check?"
                   (OriginalQueryDetails (State.user_input state))))
          (State.messages state)
    end.

Definition valid_types : list string :=
  ["credit_card"; "email_spam"; "url_fraud"; "upi_fraud"].

Definition classify_fraud_type (state : State.t) : M State.t :=
  let user_input := Py.lower (State.user_input state) in
  content <- invoke (ClassificationPrompt (State.user_input state)) ;;
  let fraud_type := Py.lower (Py.strip content) in
  let fraud_type :=
    if negb (mem fraud_type valid_types) then
      if Py.any_in ["transaction"; "amount"; "v1"; "v2"; "credit card"] user_input
      then "credit_card"
      else if Py.any_in ["message"; "sms"; "email"; "text"; "spam"] user_input
      then "email_spam"
      else if Py.any_in ["url"; "link"; "website"; "http"; "https"] user_input
      then "url_fraud"
      else "upi_fraud"
    else fraud_type in
  ret (State.mk (State.user_input state) fraud_type
         (State.parsed_data state) (State.ml_prediction state)
         (State.llm_analysis state) (State.final_result state)
         [MsgDetected fraud_type]).

Definition parse_input_data (state : State.t) : M State.t :=
  let user_input := State.user_input state in
  let fraud_type := State.fraud_type state in
  content <- invoke (ParsingPrompt fraud_type user_input) ;;
  let parsed_data :=
    if json_valid content then Parsed content else RawInput user_input in
  ret (State.mk user_input fraud_type parsed_data
         (State.ml_prediction state) (State.llm_analysis state)
         (State.final_result state)
         (State.messages state ++ [MsgParsed parsed_data])).

(** The dict the three predictors return. *)
Definition prediction_dict (i : Inference) : ML.t :=
  let prediction := predicted i in
  let probability := probability i in
  ML.mk true (Some prediction)
        (if (prediction =? 1)%Z then snd probability else fst probability)
        (Some (snd probability)) (Some (fst probability)) "ML_MODEL" None.

Definition _predict_credit_card (data : ParsedData) : Res ML.t :=
  match infer "credit_card" data with
  | Ok i => Ok (prediction_dict i)
  | Raise e => Raise e
  end.

Definition _predict_spam (data : ParsedData) : Res ML.t :=
  match infer "spam" data with
  | Ok i => Ok (prediction_dict i)
  | Raise e => Raise e
  end.

(** The [url_features] entry of the dict is left out. *)
Definition _predict_url (data : ParsedData) : Res ML.t :=
  match infer "url" data with
  | Ok i => Ok (prediction_dict i)
  | Raise e => Raise e
  end.

Definition run_ml_model (state : State.t) : State.t :=
  let fraud_type := State.fraud_type state in
  let parsed_data := State.parsed_data state in
  let ml_result := ML.mk false None 0.0%float None None "NONE" None in
  let ml_result :=
    match
      if String.eqb fraud_type "credit_card" && mem "credit_card" models
      then _predict_credit_card parsed_data
      else if String.eqb fraud_type "email_spam" && mem "spam" models
      then _predict_spam parsed_data
      else if String.eqb fraud_type "url_fraud" && mem "url" models
      then _predict_url parsed_data
      else Ok (ML.set_method "LLM_ONLY" ml_result)
    with
    | Ok r => r
    | Raise e =>
        ML.set_method "ERROR_FALLBACK_TO_LLM"
          (ML.set_error (str_of_exception e) ml_result)
    end in
  State.mk (State.user_input state) fraud_type parsed_data (Some ml_result)
    (State.llm_analysis state) (State.final_result state)
    (State.messages state ++ [MsgML ml_result]).

Definition key_error {A} (key : string) : M A :=
  fun log => (Raise (Error key), log).

(** [use_llm] in [llm_analysis] *)
Definition use_llm (ml_prediction : ML.t) : bool :=
  negb (ML.model_available ml_prediction)
  || mem (ML.method ml_prediction) ["NONE"; "LLM_ONLY"; "ERROR_FALLBACK_TO_LLM"]
  || Py.lt (ML.confidence ml_prediction) 0.7%float.

Definition fraud_words : list string :=
  ["fraud"; "fraudulent"; "suspicious"; "malicious"; "spam"].

(** The text [llm_analysis] hands to [json.loads]: the answer without its
    markdown code fence. *)
Definition strip_code_fence (response_content : string) : string :=
  let content := Py.strip response_content in
  if Py.startswith content "```json"
  then Py.strip (Py.replace (Py.replace content "```json" "") "```" "")
  else if Py.startswith content "```"
  then Py.strip (Py.replace content "```" "")
  else content.

(** The two arms of the [try] around [json.loads] in [llm_analysis]. *)
Definition read_llm_response (response_content : string) : LLM.t :=
  match loads_analysis (strip_code_fence response_content) with
  | Some llm_result => llm_result
  | None =>
      let content_lower := Py.lower response_content in
      let is_fraud := Py.any_in fraud_words content_lower in
      LLM.mk (Some is_fraud)
             (Some (if is_fraud then 0.8%float else 0.6%float))
             None (Some response_content) None None (Some "LLM_REASONING")
             None None
  end.

Definition llm_analysis (state : State.t) : M State.t :=
  let fraud_type := State.fraud_type state in
  let parsed_data := State.parsed_data state in
  match State.ml_prediction state with
  | None => key_error "model_available"
  | Some ml_prediction =>
      llm_result <-
        (if use_llm ml_prediction then
           content <- invoke (AnalysisPrompt fraud_type parsed_data ml_prediction) ;;
           ret (read_llm_response content)
         else
           ret (LLM.mk None None None None None None None (Some false)
                       (Some "ML model confidence was high enough"))) ;;
      ret (State.mk (State.user_input state) fraud_type parsed_data
             (Some ml_prediction) llm_result (State.final_result state)
             (State.messages state ++ [MsgLLM llm_result]))
  end.

(** [f"{x*100:.1f}"] *)
Definition percent (x : float) : string := format_1f (x * 100)%float.

(** The risk tier and the recommendation template of a verdict. *)
Definition risk_and_recommendation (is_fraud : bool) (confidence : float)
  : string * string :=
  if is_fraud then
    if Py.ge confidence 0.9%float then
      ("CRITICAL",
       "## 🚨 IMMEDIATE ACTION REQUIRED" +++ nl +++ nl +++ "Block this transaction/content **immediately** and flag for urgent investigation. High probability of fraud detected.")
    else if Py.ge confidence 0.75%float then
      ("HIGH",
       "## ⚠️ BLOCK AND REVIEW" +++ nl +++ nl +++ "This should be **blocked** and sent for manual review. Strong fraud indicators present.")
    else if Py.ge confidence 0.6%float then
      ("MEDIUM",
       "## ⚡ FLAG FOR REVIEW" +++ nl +++ nl +++ "This shows suspicious patterns and should be reviewed by your security team before proceeding.")
    else
      ("LOW",
       "## 🔍 INVESTIGATE" +++ nl +++ nl +++ "Low confidence but suspicious — consider additional verification.")
  else
    ("LOW",
     "## ✅ LIKELY SAFE" +++ nl +++ nl +++ "Appears legitimate but with moderate confidence. Consider additional verification if high-value.").

(** The branch of the fuser: [(is_fraud, confidence, method, reasoning)]. *)
Definition final_verdict (ml_prediction : ML.t) (llm_analysis : LLM.t)
  : bool * float * string * string :=
  if ML.model_available ml_prediction
     && Py.ge (ML.confidence ml_prediction) 0.7%float then
    let is_fraud :=
      match ML.prediction ml_prediction with
      | Some p => (p =? 1)%Z
      | None => false
      end in
    let confidence := ML.confidence ml_prediction in
    let reasoning :=
      if is_fraud then
        "Our machine learning model detected **suspicious patterns** with **"
        +++ percent confidence
        +++ "% confidence**. This matches known fraud signatures in our database."
      else
        "Our analysis shows this appears **legitimate** with **"
        +++ percent confidence
        +++ "% confidence**. No significant fraud indicators were detected." in
    (is_fraud, confidence, "ML_MODEL", reasoning)
  else
    match LLM.is_fraud llm_analysis with
    | Some is_fraud =>
        (is_fraud, default 0.8%float (LLM.confidence llm_analysis),
         "LLM_REASONING",
         default "Analysis based on fraud detection patterns and expert knowledge."
                 (LLM.reasoning llm_analysis))
    | None =>
        if ML.model_available ml_prediction then
          let ml_fraud :=
            match ML.prediction ml_prediction with
            | Some p => (p =? 1)%Z
            | None => false
            end in
          let ml_conf := ML.confidence ml_prediction in
          let llm_fraud := default ml_fraud (LLM.is_fraud llm_analysis) in
          let llm_conf := default 0.5%float (LLM.confidence llm_analysis) in
          let is_fraud := ml_fraud || llm_fraud in
          let confidence :=
            if is_fraud then Py.max ml_conf llm_conf
            else Py.min ml_conf llm_conf in
          let reasoning :=
            if is_fraud then
              "Both our **ML model (" +++ percent ml_conf
              +++ "%)** and **expert analysis** flagged this as suspicious. Multiple fraud indicators detected."
            else
              "Our comprehensive analysis **(ML: " +++ percent ml_conf
              +++ "%, Expert review)** indicates this appears legitimate with no major concerns." in
          (is_fraud, confidence, "HYBRID", reasoning)
        else
          (false, 0.5%float, "FALLBACK",
           "Unable to perform full analysis with available data. Recommend manual review if this is a critical transaction.")
    end.

Definition fraud_type_label (fraud_type : string) : string :=
  if String.eqb fraud_type "credit_card" then "💳 Credit Card Fraud Detection"
  else if String.eqb fraud_type "email_spam" then "📧 Email/SMS Spam Detection"
  else if String.eqb fraud_type "url_fraud" then "🔗 URL/Phishing Detection"
  else if String.eqb fraud_type "upi_fraud" then "💸 UPI Transaction Fraud Detection"
  else "Fraud Detection".

(** The sanitizing of the free-text fields of [llm_analysis], done in place
    at the head of [generate_final_result]. *)
Definition sanitize (llm_analysis : LLM.t) : LLM.t :=
  let llm_analysis :=
    LLM.set_reasoning
      (option_map _clean_response_text (LLM.reasoning llm_analysis))
      llm_analysis in
  let llm_analysis :=
    LLM.set_recommendations
      (option_map _clean_response_text (LLM.recommendations llm_analysis))
      llm_analysis in
  LLM.set_red_flags
    (option_map (map _clean_response_text) (LLM.red_flags llm_analysis))
    llm_analysis.

Definition generate_final_result (state : State.t) : M State.t :=
  let fraud_type := State.fraud_type state in
  let parsed_data := State.parsed_data state in
  match State.ml_prediction state with
  | None => key_error "model_available"
  | Some ml_prediction =>
      let llm_analysis := sanitize (State.llm_analysis state) in
      let '(is_fraud, confidence, method, reasoning) :=
        final_verdict ml_prediction llm_analysis in
      let reasoning := _clean_response_text reasoning in
      let '(risk_level, recommendation) :=
        risk_and_recommendation is_fraud confidence in
      let recommendation := _clean_response_text recommendation in
      let red_flags := default [] (LLM.red_flags llm_analysis) in
      let details :=
        FusionDetails parsed_data
          (if ML.model_available ml_prediction then Some ml_prediction else None)
          (if present (LLM.is_fraud llm_analysis) then Some llm_analysis else None)
          (State.messages state)
          red_flags in
      let recommendation :=
        match LLM.recommendations llm_analysis with
        | Some r =>
            recommendation +++ nl +++ nl +++ "### 💡 Additional Insights"
            +++ nl +++ nl +++ r
        | None => recommendation
        end in
      let status_emoji := if is_fraud then "🚨" else "✅" in
      let status_text :=
        if is_fraud then "**FRAUD DETECTED**" else "**APPEARS SAFE**" in
      let formatted_message :=
        "# " +++ fraud_type_label fraud_type +++ " Result" +++ nl
        +++ nl
        +++ "## " +++ status_emoji +++ " Status: " +++ status_text +++ nl
        +++ nl
        +++ "**Type:** " +++ Py.replace (Py.upper fraud_type) "_" " " +++ "  " +++ nl
        +++ "**Confidence:** " +++ percent confidence +++ "%  " +++ nl
        +++ "**Risk Level:** " +++ risk_level +++ "  " +++ nl
        +++ "**Detection Method:** " +++ Py.replace method "_" " " +++ nl
        +++ nl
        +++ "---" +++ nl
        +++ nl
        +++ "### 🧠 Analysis" +++ nl
        +++ nl
        +++ reasoning +++ nl
        +++ nl
        +++ "---" +++ nl
        +++ nl
        +++ recommendation +++ nl in
      let formatted_message :=
        match red_flags with
        | [] => formatted_message
        | _ =>
            fold_left (fun acc flag => acc +++ "- " +++ flag +++ nl) red_flags
              (formatted_message +++ nl +++ nl +++ "### 🚩 Red Flags Identified"
               +++ nl +++ nl)
        end in
      let formatted_message := _clean_response_text formatted_message in
      let result :=
        Verdict.mk fraud_type is_fraud confidence risk_level method reasoning
                   recommendation details (Some formatted_message) in
      ret (State.mk (State.user_input state) fraud_type parsed_data
             (Some ml_prediction) llm_analysis (Some result)
             (State.messages state))
  end.

Definition should_continue_to_fraud_detection (state : State.t) : string :=
  if mem (State.fraud_type state)
       ["greeting"; "capability"; "capability_query"; "off_topic";
        "invalid_query"; "conversation"; "garbage"]
  then "end" else "continue".

(** [build_graph]: the compiled workflow, entered at [validate]. *)
Definition graph_invoke (initial_state : State.t) : M State.t :=
  state <- validate_input initial_state ;;
  if String.eqb (should_continue_to_fraud_detection state) "end" then ret state
  else
    state <- classify_fraud_type state ;;
    state <- parse_input_data state ;;
    state <- ret (run_ml_model state) ;;
    state <- llm_analysis state ;;
    generate_final_result state.

Definition initial_state (user_input : string) : State.t :=
  State.mk user_input "" EmptyData None LLM.empty None [].

Definition detect_fraud (user_input : string) : M (option Verdict.t) :=
  final_state <- graph_invoke (initial_state user_input) ;;
  ret (State.final_result final_state).

(** The loop and the final [yield] shared by [detect_fraud_stream] and
    [get_advice_stream]. *)
Definition stream_message {R} (formatted_message : string) (res : R)
  : list (Chunk R) :=
  let words := Py.split " " formatted_message in
  let chunk_size := 3 in
  map (fun i =>
         let chunk := Py.join " " (Py.slice words i (i + chunk_size)) in
         let chunk :=
           if i + chunk_size <? length words then chunk +++ " " else chunk in
         {| type := "content"; content := chunk; is_complete := false;
            result := None |})
      (Py.range 0 (length words) chunk_size)
  ++ [{| type := "complete"; content := ""; is_complete := true;
         result := Some res |}].



End FraudDetectionGraph.

(** ** [fraud_advisor.py] *)

Module InputValidator.

(** [validate(query)]: [(is_valid, reason)] *)
Definition validate `{Unicode} (query : string) : bool * string :=
  let query := Str.of_string query in
  if Str.len (Str.strip query) <? 2 then (false, "too_short")
  else if 500 <? Str.len query then (false, "too_long")
  else
    let alpha_count := Str.count_if str_isalpha query in
    let total_chars := Str.len (Str.remove 32 query) in
    if (0 <? total_chars)
       && Py.lt (Py.of_nat alpha_count / Py.of_nat total_chars)%float 0.5%float
    then (false, "gibberish")
    else if (5 <? Str.len query)
            && existsb
                 (fun char =>
                    str_isalpha char
                    && Py.gt (Py.of_nat (Str.count_char char (str_lower query)))
                             (Py.of_nat (Str.len query) * 0.4)%float)
                 (str_lower query)
    then (false, "repeated_chars")
    else
      let digit_count := Str.count_if str_isdigit query in
      if (0 <? total_chars)
         && Py.gt (Py.of_nat digit_count / Py.of_nat total_chars)%float 0.7%float
      then (false, "mostly_numbers")
      else (true, "valid").

End InputValidator.

Module ResponseTemplates.

Definition get_invalid_input_message (reason : string) : string :=
  if String.eqb reason "too_short"
  then "Please provide a more detailed question so I can help you better."
  else if String.eqb reason "too_long"
  then "Your question is quite long. Could you please make it more concise?"
  else if String.eqb reason "gibberish"
  then "I couldn't understand your question. Could you please rephrase it?"
  else if String.eqb reason "repeated_chars"
  then "I couldn't understand your question. Could you please rephrase it?"
  else if String.eqb reason "mostly_numbers"
  then "I couldn't understand your question. Could you please provide a clear question about fraud prevention?"
  else "I couldn't understand your question. Could you please rephrase it?".

End ResponseTemplates.

(** [AdvisorState] *)
Module AdvisorState.
Record t := mk {
  user_query : string;
  is_valid : bool;
  query_type : string;
  topic : string;
  response_text : string;
  formatted_response : string
}.
End AdvisorState.

(** The dict [get_advice] returns. *)
Record Advice := {
  advice_query_type : string;
  advice_topic : string;
  advice_formatted_response : string
}.

Section FraudAdvisorGraph.

Context `{W : World} `{U : Unicode}.

(** [TOPIC_CONTEXTS[Topic(topic)]]; [None] when [topic] is no [Topic]. *)
Definition topic_context (topic : string) : option string :=
  if String.eqb topic "credit_card"
  then Some "credit card fraud, secure transactions, statement monitoring, online shopping safety"
  else if String.eqb topic "email_spam"
  then Some "phishing emails, suspicious links, sender verification, email security"
  else if String.eqb topic "url_phishing"
  then Some "URL inspection, HTTPS, suspicious domains, browser security"
  else if String.eqb topic "upi_payment"
  then Some "UPI scams, merchant verification, payment security, PIN protection"
  else if String.eqb topic "call_fraud"
  then Some "vishing, caller ID spoofing, verification tactics, phone scams"
  else if String.eqb topic "general"
  then Some "general fraud awareness and prevention strategies"
  else None.

Definition advisor_validate_input (state : AdvisorState.t) : AdvisorState.t :=
  let '(is_valid, reason) :=
    InputValidator.validate (AdvisorState.user_query state) in
  if negb is_valid then
    AdvisorState.mk (AdvisorState.user_query state) is_valid "invalid"
      (AdvisorState.topic state) (AdvisorState.response_text state)
      (ResponseTemplates.get_invalid_input_message reason)
  else
    AdvisorState.mk (AdvisorState.user_query state) is_valid
      (AdvisorState.query_type state) (AdvisorState.topic state)
      (AdvisorState.response_text state) (AdvisorState.formatted_response state).

Definition categorize_query (state : AdvisorState.t) : M AdvisorState.t :=
  if negb (AdvisorState.is_valid state) then ret state else
  response <- invoke (CategorizationPrompt (AdvisorState.user_query state)) ;;
  let content := Py.strip response in
  let content := Py.strip (Py.replace (Py.replace content "```json" "") "```" "") in
  let '(query_type, topic) :=
    match loads_categorization content with
    | Some (query_type, topic) =>
        (default "simple" query_type, default "general" topic)
    | None => ("simple", "general")
    end in
  ret (AdvisorState.mk (AdvisorState.user_query state)
         (AdvisorState.is_valid state) query_type topic
         (AdvisorState.response_text state)
         (AdvisorState.formatted_response state)).

Definition value_error {A} (value : string) : M A :=
  fun log => (Raise (Error value), log).

Definition generate_response (state : AdvisorState.t) : M AdvisorState.t :=
  if negb (AdvisorState.is_valid state) then ret state else
  let query_type := AdvisorState.query_type state in
  if negb (mem query_type ["greeting"; "simple"; "detailed"; "invalid"])
  then value_error query_type else
  match topic_context (AdvisorState.topic state) with
  | None => value_error (AdvisorState.topic state)
  | Some context =>
      let template :=
        if mem query_type ["greeting"; "simple"; "detailed"]
        then query_type else "simple" in
      response <-
        invoke (GenerationPrompt (AdvisorState.user_query state) template context) ;;
      ret (AdvisorState.mk (AdvisorState.user_query state)
             (AdvisorState.is_valid state) query_type (AdvisorState.topic state)
             (Py.strip response) (AdvisorState.formatted_response state))
  end.

(** [stripped.startswith(('-', '*', '•', '**'))] *)
Definition is_bullet_line (stripped : string) : bool :=
  Py.startswith stripped "-" || Py.startswith stripped "*"
  || Py.startswith stripped "•" || Py.startswith stripped "**".

(** The loop of [format_output] over the lines still to visit. *)
Fixpoint format_lines (lines formatted_lines : list string) : list string :=
  match lines with
  | [] => formatted_lines
  | line :: rest =>
      let stripped := Py.strip line in
      if Py.len stripped =? 0 then format_lines rest formatted_lines else
      let is_bullet := is_bullet_line stripped in
      let prev_line := last formatted_lines "" in
      let prev_was_bullet :=
        if Py.len prev_line =? 0 then false
        else is_bullet_line (Py.strip prev_line) in
      let formatted_lines :=
        if is_bullet && negb prev_was_bullet
           && negb (length formatted_lines =? 0)
        then formatted_lines ++ [""] else formatted_lines in
      let formatted_lines := formatted_lines ++ [stripped] in
      let next_line :=
        match rest with next :: _ => Py.strip next | [] => "" end in
      let next_is_bullet :=
        if Py.len next_line =? 0 then false else is_bullet_line next_line in
      let formatted_lines :=
        if is_bullet && negb next_is_bullet && negb (Py.len next_line =? 0)
        then formatted_lines ++ [""] else formatted_lines in
      format_lines rest formatted_lines
  end.

Definition format_output (state : AdvisorState.t) : AdvisorState.t :=
  if negb (AdvisorState.is_valid state) then state else
  let lines := Py.split (ascii_of_nat 10) (AdvisorState.response_text state) in
  let formatted_text := Py.join nl (format_lines lines []) in
  let formatted_text :=
    Py.replace formatted_text (nl +++ nl +++ nl) (nl +++ nl) in
  AdvisorState.mk (AdvisorState.user_query state) (AdvisorState.is_valid state)
    (AdvisorState.query_type state) (AdvisorState.topic state)
    (AdvisorState.response_text state) formatted_text.

Definition should_continue (state : AdvisorState.t) : string :=
  if negb (AdvisorState.is_valid state) then "end" else "continue".

(** [build_graph] of the advisor: [validate], then [format] directly or after
    [categorize] and [generate]. *)
Definition advisor_graph_invoke (initial_state : AdvisorState.t)
  : M AdvisorState.t :=
  let state := advisor_validate_input initial_state in
  if String.eqb (should_continue state) "end" then ret (format_output state)
  else
    state <- categorize_query state ;;
    state <- generate_response state ;;
    ret (format_output state).

Definition advisor_initial_state (user_query : string) : AdvisorState.t :=
  AdvisorState.mk user_query false "" "" "" "".

Definition get_advice (user_query : string) : M Advice :=
  final_state <- advisor_graph_invoke (advisor_initial_state user_query) ;;
  ret {| advice_query_type := AdvisorState.query_type final_state;
         advice_topic := AdvisorState.topic final_state;
         advice_formatted_response := AdvisorState.formatted_response final_state |}.

Definition get_advice_stream (user_query : string) : M (list (Chunk Advice)) :=
  final_state <- advisor_graph_invoke (advisor_initial_state user_query) ;;
  let formatted_message := AdvisorState.formatted_response final_state in
  ret (stream_message formatted_message
         {| advice_query_type := AdvisorState.query_type final_state;
            advice_topic := AdvisorState.topic final_state;
            advice_formatted_response := formatted_message |}).

End FraudAdvisorGraph.

(** ** [QR-Spam/qr_detector.py]: the risk level of [detect_fraud_from_base64] *)

Definition qr_risk_level (is_fraud : bool) (confidence : float) : string :=
  if is_fraud then
    if Py.ge confidence 0.9%float then "CRITICAL"
    else if Py.ge confidence 0.75%float then "HIGH"
    else if Py.ge confidence 0.6%float then "MEDIUM"
    else "LOW"
  else "LOW".

(** ** [main.py]: the text branch of [/api/detect] *)

Definition detector_error_result (err_msg : string) : Verdict.t :=
  Verdict.mk "invalid_query" false 0.0%float "N/A" "QUERY_VALIDATOR"
    "Unable to process query. Input may be unclear or malformed."
    "I didn't understand that. Could you rephrase or provide more details?"
    (ErrorDetails err_msg) None.

Definition api_detect_text `{World} (query : string) : M (option Verdict.t) :=
  fun log =>
    match detect_fraud query log with
    | (Ok res, log') => (Ok res, log')
    | (Raise e, log') =>
        (Ok (Some (detector_error_result (str_of_exception e))), log')
    end.

(** ** Notions used to state the properties *)

(** [w] occurs in [s]. *)
Definition Substring (w s : string) : Prop :=
  exists pre post, s = pre +++ w +++ post.

(** Some word of [words] occurs in [s]. *)
Definition SomeWordIn (words : list string) (s : string) : Prop :=
  exists w, In w words /\ Substring w s.

(** The risk tier as the specification words it: thresholds 0.9, 0.75 and
    0.6 on the confidence of a positive verdict, [LOW] for a negative one. *)
Definition risk_tier (is_fraud : bool) (confidence : float) : string :=
  match is_fraud with
  | false => "LOW"
  | true =>
      if PrimFloat.leb 0.9 confidence then "CRITICAL"
      else if PrimFloat.leb 0.75 confidence then "HIGH"
      else if PrimFloat.leb 0.6 confidence then "MEDIUM"
      else "LOW"
  end.

(** The same mapping as a relation between a verdict and its tier, with
    "at least" and "below" read on binary64 numbers. *)
Definition RiskMapping (is_fraud : bool) (c : float) (tier : string) : Prop :=
  (is_fraud = false -> tier = "LOW")
  /\ (is_fraud = true ->
      (Py.ge c 0.9 = true -> tier = "CRITICAL")
      /\ (Py.lt c 0.9 = true -> Py.ge c 0.75 = true -> tier = "HIGH")
      /\ (Py.lt c 0.75 = true -> Py.ge c 0.6 = true -> tier = "MEDIUM")
      /\ (Py.lt c 0.6 = true -> tier = "LOW")).

(** [prediction == 1] *)
Definition says_fraud (ml : ML.t) : bool :=
  match ML.prediction ml with
  | Some p => (p =? 1)%Z
  | None => false
  end.

(** The two "no opinion" results of [run_ml_model]. *)
Definition ml_error_fallback (e : Exception) : ML.t :=
  ML.mk false None 0.0%float None None "ERROR_FALLBACK_TO_LLM"
        (Some (str_of_exception e)).

Definition ml_llm_only : ML.t :=
  ML.mk false None 0.0%float None None "LLM_ONLY" None.

(** The registry key of the predictor of each domain. *)
Definition predictor_keys : list (string * string) :=
  [("credit_card", "credit_card"); ("email_spam", "spam"); ("url_fraud", "url")].

Definition risk_tiers : list string := ["LOW"; "MEDIUM"; "HIGH"; "CRITICAL"].



Definition nonspace `{Unicode} (c : N) : bool := negb (str_isspace c).
Definition not_blank (c : N) : bool := negb (N.eqb c 32).

(** Degenerate text, in exact arithmetic on the characters (code points) of
    the text: fewer than two non-whitespace characters; more than 500
    characters; letters less than half of the characters other than the
    space; in a text of more than five characters, a letter that makes up,
    case ignored, more than 40% of the length; digits more than 70% of the
    characters other than the space. *)
Definition degenerate `{Unicode} (query : string) : Prop :=
  let text := Str.of_string query in
  Str.count_if nonspace text < 2
  \/ 500 < Str.len text
  \/ 2 * Str.count_if str_isalpha text < Str.count_if not_blank text
  \/ (5 < Str.len text
      /\ exists c, str_isalpha c = true
           /\ 2 * Str.len text < 5 * Str.count_char c (str_lower text))
  \/ 7 * Str.count_if not_blank text < 10 * Str.count_if str_isdigit text.

(** Every byte of the text is an ASCII character. *)
Definition is_ascii (s : string) : bool :=
  Py.forall_char (fun b => (N_of_ascii b <? 128)%N) s.

Definition canned_messages : list string :=
  map ResponseTemplates.get_invalid_input_message
      ["too_short"; "too_long"; "gibberish"; "repeated_chars"; "mostly_numbers"].

(** [start, start + 1, ...], [n] integers. *)
Fixpoint zrange (n : nat) (start : Z) : list Z :=
  match n with
  | O => []
  | S k => start :: zrange k (start + 1)%Z
  end.

(** The agreement of the validator's float tests with exact arithmetic on
    counts up to [bound], checked by enumeration. *)
Definition ratio_tests_agree (bound : nat) : bool :=
  forallb (fun t =>
    forallb (fun a =>
      Bool.eqb (Py.lt (Py.float_of_Z a / Py.float_of_Z t)%float 0.5%float)
               (2 * a <? t)%Z
      && Bool.eqb (Py.gt (Py.float_of_Z a / Py.float_of_Z t)%float 0.7%float)
                  (7 * t <? 10 * a)%Z
      && Bool.eqb (Py.gt (Py.float_of_Z a) (Py.float_of_Z t * 0.4)%float)
                  (2 * t <? 5 * a)%Z)
      (zrange (S bound) 0%Z))
    (zrange bound 1%Z).

(** The same for the test of the repeated letter, whose count is taken in
    the lowercased text: of up to three times [bound] characters. *)
Definition repeat_test_agrees (bound : nat) : bool :=
  forallb (fun t =>
    forallb (fun a =>
      Bool.eqb (Py.gt (Py.float_of_Z a) (Py.float_of_Z t * 0.4)%float)
               (2 * t <? 5 * a)%Z)
      (zrange (S (3 * bound)) 0%Z))
    (zrange (S bound) 0%Z).

(** ** Sample worlds *)

(** A database that knows the ASCII characters only: what every database
    says of an ASCII text. *)
Definition ascii_only : Unicode.
Proof.
  refine
    {| str_isalpha := fun c => (c <? 128)%N && Py.isalpha (ascii_of_N c);
       str_isdigit := fun c => (c <? 128)%N && Py.isdigit (ascii_of_N c);
       str_isspace := fun c => (c <? 128)%N && Py.isspace (ascii_of_N c);
       str_lower :=
         map (fun c => if (c <? 128)%N
                       then N_of_ascii (Py.lower_char (ascii_of_N c)) else c);
       isalpha_ascii := _; isdigit_ascii := _; isspace_ascii := _;
       lower_ascii := _; letter_is_no_digit := _; lower_length := _ |}.
  - intros c H. apply N.ltb_lt in H. rewrite H. reflexivity.
  - intros c H. apply N.ltb_lt in H. rewrite H. reflexivity.
  - intros c H. apply N.ltb_lt in H. rewrite H. reflexivity.
  - intros s. induction s as [|c r IH]; intros H; [reflexivity|].
    cbn [forallb map] in *.
    apply andb_prop in H as [Hc Hr]. rewrite Hc, (IH Hr). reflexivity.
  - intros c H. destruct (c <? 128)%N; [|discriminate]. cbn [andb] in *.
    unfold Py.isalpha, Py.isupper, Py.islower, Py.isdigit, Py.between in *.
    destruct (48 <=? Py.code (ascii_of_N c)) eqn:E1,
             (Py.code (ascii_of_N c) <=? 57) eqn:E2; try reflexivity.
    apply Nat.leb_le in E2.
    replace (65 <=? Py.code (ascii_of_N c)) with false in H
      by (symmetry; apply Nat.leb_gt; lia).
    replace (97 <=? Py.code (ascii_of_N c)) with false in H
      by (symmetry; apply Nat.leb_gt; lia).
    discriminate H.
  - intros s. rewrite length_map. lia.
Defined.

(** The CJK unified ideographs U+4E00 to U+9FFF, which are letters (general
    category Lo), beside the ASCII characters. *)
Definition is_han (c : N) : bool := (19968 <=? c)%N && (c <=? 40959)%N.

Definition han_and_ascii : Unicode.
Proof.
  refine
    {| str_isalpha :=
         fun c => (c <? 128)%N && Py.isalpha (ascii_of_N c) || is_han c;
       str_isdigit := @str_isdigit ascii_only;
       str_isspace := @str_isspace ascii_only;
       str_lower := @str_lower ascii_only;
       isalpha_ascii := _; isdigit_ascii := @isdigit_ascii ascii_only;
       isspace_ascii := @isspace_ascii ascii_only;
       lower_ascii := @lower_ascii ascii_only;
       letter_is_no_digit := _; lower_length := @lower_length ascii_only |}.
  - intros c H. unfold is_han.
    replace (19968 <=? c)%N with false by (symmetry; apply N.leb_gt; lia).
    pose proof H as H'. apply N.ltb_lt in H'. rewrite H'.
    cbn [andb]. apply orb_false_r.
  - intros c H. apply orb_prop in H as [H|H].
    + apply (@letter_is_no_digit ascii_only). exact H.
    + unfold is_han in H. apply andb_prop in H as [H _]. apply N.leb_le in H.
      cbn [str_isdigit ascii_only].
      replace (c <? 128)%N with false by (symmetry; apply N.ltb_ge; lia).
      reflexivity.
Defined.

Definition ni_hao : string := "你好世界你好".

Definition dq : string := String (ascii_of_nat 34) EmptyString.

(** [{"is_fraud_request": true}] *)
Definition fraud_request_json : string :=
  "{" +++ dq +++ "is_fraud_request" +++ dq +++ ": true}".

Definition prize_prose : string :=
  "Congratulations! You have won a prize, claim it now.".

(** A world whose reasoning service gives the four answers in turn; of the
    texts it is given, [json.loads] accepts [fraud_request_json] only. *)
Definition scripted (validation classification parsing analysis : Res string)
    (registered : list string) (inference : Res Inference) : World :=
  {| llm_invoke := fun p =>
       match p with
       | ValidationPrompt _ => validation
       | ClassificationPrompt _ => classification
       | ParsingPrompt _ _ => parsing
       | AnalysisPrompt _ _ _ => analysis
       | CategorizationPrompt _ => Ok "no idea"
       | GenerationPrompt _ _ _ => Ok "Stay alert."
       end;
     json_valid := fun s => String.eqb s fraud_request_json;
     loads_validation := fun s =>
       if String.eqb s fraud_request_json
       then Some (Validation.mk None (Some true) None None)
       else None;
     loads_analysis := fun _ => None;
     loads_categorization := fun _ => None;
     format_1f := fun _ => "?";
     models := registered;
     infer := fun _ _ => inference |}.

Definition fenced_fraud_request : string :=
  "```json" +++ nl +++ fraud_request_json +++ nl +++ "```".

(** No classifier; the analysis answer is prose about a prize. *)
Definition prize_world : World :=
  scripted (Ok fenced_fraud_request) (Ok "email_spam") (Ok "Here is the data.")
           (Ok prize_prose) [] (Raise (Error "no model")).

(** As [prize_world], with the reasoning service down at the analysis call. *)
Definition analysis_down_world : World :=
  scripted (Ok fenced_fraud_request) (Ok "email_spam") (Ok "Here is the data.")
           (Raise (Error "503 Service Unavailable")) [] (Raise (Error "no model")).

(** The reasoning service is down at the first call. *)
Definition gate_down_world : World :=
  scripted (Raise (Error "503 Service Unavailable")) (Ok "email_spam")
           (Ok "Here is the data.") (Ok prize_prose) [] (Raise (Error "no model")).

(** The answer to the validation prompt is prose. *)
Definition chatty_world : World :=
  scripted (Ok "Hello! How can I help?") (Ok "email_spam")
           (Ok "Here is the data.") (Ok prize_prose) [] (Raise (Error "no model")).

(** As [prize_world], with an analysis answer that names a suspicion. *)
Definition suspicious_world : World :=
  scripted (Ok fenced_fraud_request) (Ok "email_spam") (Ok "Here is the data.")
           (Ok "This looks SUSPICIOUS to me.") [] (Raise (Error "no model")).

(** The domain answer is outside the closed set. *)
Definition vague_world : World :=
  scripted (Ok fenced_fraud_request) (Ok "I am not sure.")
           (Ok "Here is the data.") (Ok prize_prose) [] (Raise (Error "no model")).

(** A credit-card classifier that is 95% sure of fraud. *)
Definition confident_world : World :=
  scripted (Ok fenced_fraud_request) (Ok "credit_card") (Ok "Here is the data.")
           (Ok prize_prose) ["credit_card"]
           (Ok {| predicted := 1; probability := (0.05, 0.95)%float |}).

(** A spam classifier whose pipeline raises. *)
Definition broken_model_world : World :=
  scripted (Ok fenced_fraud_request) (Ok "email_spam") (Ok "Here is the data.")
           (Ok prize_prose) ["spam"] (Raise (Error "scaler is not fitted")).

Definition prize_query : string := "Is this message safe? You won a prize".

(** A model opinion that says fraud with confidence 0.6 and a reasoning
    opinion that says no fraud with confidence 0.9. *)
Definition ml_unsure_fraud : ML.t :=
  ML.mk true (Some 1%Z) 0.6%float (Some 0.6%float) (Some 0.4%float)
        "ML_MODEL" None.

Definition llm_sure_clear : LLM.t :=
  LLM.mk (Some false) (Some 0.9%float) (Some "LOW") (Some "Looks routine.")
         None None (Some "LLM_REASONING") None None.

(** A reasoning opinion without the [is_fraud] field. *)
Definition llm_no_verdict : LLM.t :=
  LLM.mk None (Some 0.9%float) None (Some "Hard to say.") None None None
         None None.

(** A state handed to [generate_final_result]. *)
Definition fusion_state (ml : ML.t) (llm : LLM.t) : State.t :=
  State.mk "Win money now" "email_spam" (RawInput "Win money now") (Some ml)
           llm None [].

(** The state handed to [run_ml_model] for a text and a domain. *)
Definition parsed_state (user_input fraud_type : string) : State.t :=
  State.mk user_input fraud_type (RawInput user_input) None LLM.empty None
           [MsgDetected fraud_type; MsgParsed (RawInput user_input)].

(** ** Further code of the repository *)

(** *** [langgraph_fraud_detector.py]: [FeatureExtractor.extract_url_features] *)

Module URLFeatures.
Record t := mk {
  url_length : nat;
  num_digits : nat;
  digit_ratio : float;
  special_char_ratio : float;
  num_hyphens : nat;
  num_underscores : nat;
  num_slashes : nat;
  num_dots : nat;
  num_question_marks : nat;
  num_equals : nat;
  num_at_symbols : nat;
  num_percent : nat;
  num_hashes : nat;
  num_ampersands : nat;
  num_subdomains : nat;
  is_https : nat;
  has_suspicious_word : nat
}.
End URLFeatures.

(** [c.isalnum()] *)
Definition isalnum (c : ascii) : bool := Py.isalpha c || Py.isdigit c.

Definition url_symbols : list ascii :=
  ["."; "-"; "_"; "/"; ":"; "?"; "="; "@"; "%"; "#"; "&"]%char.

(** [not c.isalnum() and c not in ['.', '-', ...]] *)
Definition is_special_char (c : ascii) : bool :=
  negb (isalnum c) && negb (existsb (Ascii.eqb c) url_symbols).

Definition suspicious_words : list string :=
  ["login"; "verify"; "account"; "secure"; "update"; "confirm"; "banking";
   "password"; "signin"; "ebayisapi"; "webscr"; "lucky"; "winner"; "prize";
   "free"; "click"; "here"; "now"; "urgent"].

(** [count / url_length if url_length > 0 else 0] *)
Definition ratio_or_zero (count url_length : nat) : float :=
  if 0 <? url_length then (Py.of_nat count / Py.of_nat url_length)%float
  else 0%float.

Section FeatureExtractor.

(** [urlparse(u)] as the pair of [netloc] and [path], or the exception it
    raises. *)
Variable urlparse : string -> Res (string * string).

(** The [try] block that counts the subdomains. *)
Definition count_subdomains (url : string) : nat :=
  match urlparse (if Py.contains "://" url then url else "http://" +++ url) with
  | Ok (netloc, path) =>
      let domain :=
        if Py.len netloc =? 0 then hd "" (Py.split "/" path) else netloc in
      if 2 <? length (Py.split "." domain)
      then length (Py.split "." domain) - 2
      else 0
  | Raise _ => 0
  end.

Definition extract_url_features (url : string) : URLFeatures.t :=
  let url_length := Py.len url in
  let num_digits := Py.count_if Py.isdigit url in
  let special_chars := Py.count_if is_special_char url in
  URLFeatures.mk
    url_length
    num_digits
    (ratio_or_zero num_digits url_length)
    (ratio_or_zero special_chars url_length)
    (Py.count_char "-" url)
    (Py.count_char "_" url)
    (Py.count_char "/" url)
    (Py.count_char "." url)
    (Py.count_char "?" url)
    (Py.count_char "=" url)
    (Py.count_char "@" url)
    (Py.count_char "%" url)
    (Py.count_char "#" url)
    (Py.count_char "&" url)
    (count_subdomains url)
    (if Py.startswith url "https://" then 1 else 0)
    (if Py.any_in suspicious_words (Py.lower url) then 1 else 0).

End FeatureExtractor.

(** *** [langgraph_fraud_detector.py]: class [MLModelLoader] *)

(** [d[key] = value] on a dict kept as the list of its items in insertion
    order. *)
Fixpoint dict_set {V} (key : string) (value : V) (d : list (string * V))
  : list (string * V) :=
  match d with
  | [] => [(key, value)]
  | (k, v) :: rest =>
      if String.eqb k key then (k, value) :: rest
      else (k, v) :: dict_set key value rest
  end.

(** [key in d] *)
Definition dict_has {V} (key : string) (d : list (string * V)) : bool :=
  existsb (fun item => String.eqb (fst item) key) d.

Module Loader.
Record t (Obj : Type) := mk {
  base_path : string;
  models : list (string * Obj);
  scalers : list (string * Obj);
  vectorizers : list (string * Obj)
}.
Arguments mk {Obj} _ _ _ _.
Arguments base_path {Obj} _.
Arguments models {Obj} _.
Arguments scalers {Obj} _.
Arguments vectorizers {Obj} _.
End Loader.

Section MLModelLoader.

(** What a pickle file holds. *)
Variable Obj : Type.

(** [joblib.load] of the path that [os.path.join] makes of the components,
    or the exception it raises. *)
Variable joblib_load : list string -> Res Obj.

(** [MLModelLoader.__init__] *)
Definition loader_init (base_path : string) : Loader.t Obj :=
  Loader.mk base_path [] [] [].

Definition load_credit_card_model (self : Loader.t Obj) : Loader.t Obj :=
  let model_path := [Loader.base_path self; "Credit_card"; "fraud_model.pkl"] in
  let scaler_path := [Loader.base_path self; "Credit_card"; "scaler.pkl"] in
  match joblib_load model_path with
  | Raise _ => self
  | Ok model =>
      let self :=
        Loader.mk (Loader.base_path self)
                  (dict_set "credit_card" model (Loader.models self))
                  (Loader.scalers self) (Loader.vectorizers self) in
      match joblib_load scaler_path with
      | Raise _ => self
      | Ok scaler =>
          Loader.mk (Loader.base_path self) (Loader.models self)
                    (dict_set "credit_card" scaler (Loader.scalers self))
                    (Loader.vectorizers self)
      end
  end.

Definition load_spam_model (self : Loader.t Obj) : Loader.t Obj :=
  let model_path := [Loader.base_path self; "Emails_Spam"; "spam_model.pkl"] in
  let vectorizer_path := [Loader.base_path self; "Emails_Spam"; "vectorizer.pkl"] in
  match joblib_load model_path with
  | Raise _ => self
  | Ok model =>
      let self :=
        Loader.mk (Loader.base_path self)
                  (dict_set "spam" model (Loader.models self))
                  (Loader.scalers self) (Loader.vectorizers self) in
      match joblib_load vectorizer_path with
      | Raise _ => self
      | Ok vectorizer =>
          Loader.mk (Loader.base_path self) (Loader.models self)
                    (Loader.scalers self)
                    (dict_set "spam" vectorizer (Loader.vectorizers self))
      end
  end.

Definition load_url_model (self : Loader.t Obj) : Loader.t Obj :=
  let model_path := [Loader.base_path self; "URL_fraud"; "url_spam_model.pkl"] in
  let scaler_path := [Loader.base_path self; "URL_fraud"; "url_scaler.pkl"] in
  match joblib_load model_path with
  | Raise _ => self
  | Ok model =>
      let self :=
        Loader.mk (Loader.base_path self)
                  (dict_set "url" model (Loader.models self))
                  (Loader.scalers self) (Loader.vectorizers self) in
      match joblib_load scaler_path with
      | Raise _ => self
      | Ok scaler =>
          Loader.mk (Loader.base_path self) (Loader.models self)
                    (dict_set "url" scaler (Loader.scalers self))
                    (Loader.vectorizers self)
      end
  end.

Definition load_all_models (self : Loader.t Obj) : Loader.t Obj :=
  load_url_model (load_spam_model (load_credit_card_model self)).

End MLModelLoader.

(** Whether a load returns. *)
Definition loads {Obj} (joblib_load : list string -> Res Obj)
    (path : list string) : bool :=
  match joblib_load path with Ok _ => true | Raise _ => false end.

(** *** [QR-Spam/qr_detector.py]: [predict_fraud] and
    [detect_fraud_from_base64] *)

(** The features [predict_fraud] reads back from [extract_qr_features]. *)
Record QRFeatures := {
  qr_decoded_data : string;
  qr_contains_url : Z;
  qr_data_length : Z
}.

(** The [details] of a QR verdict. *)
Inductive QRDetails :=
| QRPrediction (fraud_probability legit_probability : float)
    (decoded_data : string) (contains_url : bool) (data_length : Z)
| QRError (error : string).

(** The dict [detect_fraud_from_base64] returns. *)
Module QRVerdict.
Record t := mk {
  fraud_type : string;
  is_fraud : bool;
  confidence : float;
  risk_level : string;
  detection_method : string;
  reasoning : string;
  recommendation : string;
  details : QRDetails
}.
End QRVerdict.

Section QRFraudDetector.

Context `{W : World}.

(** A decoded image. *)
Variable Image : Type.

(** [cv2.imdecode] of the base64-decoded payload; [Ok None] when OpenCV
    cannot read the bytes. *)
Variable decode_image : string -> Res (option Image).

(** [extract_qr_features(image)], as far as the verdict reads it. *)
Variable extract_qr_features : Image -> Res QRFeatures.

(** [self.model.predict_proba(X)[0]] on the feature vector of the image, as
    (legitimate, fraud). *)
Variable predict_proba : Image -> Res (float * float).

(** [predict_fraud(image)]: [(is_fraud, confidence, details)] *)
Definition predict_fraud (image : Image)
  : Res (bool * float * (float * float * QRFeatures)) :=
  match extract_qr_features image with
  | Raise e => Raise e
  | Ok features =>
      match predict_proba image with
      | Raise e =>
          Raise (Error ("Error during QR fraud prediction: " +++ str_of_exception e))
      | Ok proba =>
          let fraud_probability := snd proba in
          let legit_probability := fst proba in
          let is_fraud := Py.gt fraud_probability 0.5%float in
          let confidence :=
            if is_fraud then fraud_probability else legit_probability in
          Ok (is_fraud, confidence,
              (fraud_probability, legit_probability, features))
      end
  end.

Definition qr_error_verdict (e : Exception) : QRVerdict.t :=
  QRVerdict.mk "qr_fraud" false 0.0%float "N/A" "ERROR"
    ("Error processing QR code: " +++ str_of_exception e)
    "Unable to analyze QR code. Please ensure the image is clear and contains a valid QR code."
    (QRError (str_of_exception e)).

Definition detect_fraud_from_base64 (image_base64 : string) : QRVerdict.t :=
  let image_base64 :=
    if Py.contains "," image_base64
    then nth 1 (Py.split "," image_base64) ""
    else image_base64 in
  match decode_image image_base64 with
  | Raise e => qr_error_verdict e
  | Ok None => qr_error_verdict (Error "Failed to decode image")
  | Ok (Some image) =>
      match predict_fraud image with
      | Raise e => qr_error_verdict e
      | Ok (is_fraud, confidence, (fraud_probability, legit_probability, features)) =>
          let decoded_data := qr_decoded_data features in
          let contains_url := negb (qr_contains_url features =? 0)%Z in
          let risk_level := qr_risk_level is_fraud confidence in
          let reasoning :=
            if is_fraud then
              "QR code shows suspicious patterns with " +++ format_1f (confidence * 100)%float
              +++ "% confidence. "
              +++ (if contains_url
                   then "The QR code contains a URL: " +++ Str.take 50 decoded_data
                        +++ "... which may be a phishing attempt."
                   else "The visual pattern and data structure match known fraud signatures.")
            else
              "QR code appears legitimate with " +++ format_1f (confidence * 100)%float
              +++ "% confidence. "
              +++ (if negb (Py.len decoded_data =? 0)
                   then "Decoded content: " +++ Str.take 100 decoded_data
                   else "No suspicious indicators detected.") in
          let recommendation :=
            if is_fraud then
              if mem risk_level ["CRITICAL"; "HIGH"]
              then "⚠️ DO NOT SCAN THIS QR CODE. Block and report this as potential fraud. The QR code shows strong indicators of malicious intent."
              else "⚠️ Exercise caution. This QR code shows suspicious characteristics. Verify the source before proceeding."
            else "✅ QR code appears safe. However, always verify the source and destination before scanning unknown QR codes." in
          QRVerdict.mk "qr_fraud" is_fraud confidence risk_level "ML_MODEL"
            reasoning recommendation
            (QRPrediction fraud_probability legit_probability decoded_data
               contains_url (qr_data_length features))
      end
  end.

End QRFraudDetector.

(** The payload [detect_fraud_from_base64] decodes: what follows the first
    comma of a data URI. *)
Definition qr_payload (image_base64 : string) : string :=
  if Py.contains "," image_base64
  then nth 1 (Py.split "," image_base64) ""
  else image_base64.

(** The three recommendations of [detect_fraud_from_base64]. *)
Definition qr_block_advice : string :=
  "⚠️ DO NOT SCAN THIS QR CODE. Block and report this as potential fraud. The QR code shows strong indicators of malicious intent.".
Definition qr_caution_advice : string :=
  "⚠️ Exercise caution. This QR code shows suspicious characteristics. Verify the source before proceeding.".
Definition qr_safe_advice : string :=
  "✅ QR code appears safe. However, always verify the source and destination before scanning unknown QR codes.".

(** *** [main.py]: the endpoints, for a request without image;
    [/api/detect/stream] and [/api/validate-query] once [create_detector]
    has returned *)

(** What an endpoint answers: a body, or the [HTTPException] it raises (the
    detail text is left out). *)
Inductive HTTP (A : Type) : Type :=
| Response (body : A)
| HTTPException (status_code : nat).
Arguments Response {A} body.
Arguments HTTPException {A} status_code.

(** [not google_api_key or len(google_api_key) < 20] *)
Definition bad_api_key (google_api_key : string) : bool :=
  (Py.len google_api_key =? 0)
  || (Str.len (Str.of_string google_api_key) <? 20).


(** An item of [results] in [/api/batch-detect]. *)
Inductive BatchItem :=
| BatchSuccess (query : string) (res : option Verdict.t)
| BatchFailure (query : string) (error : string).

Definition batch_item_query (item : BatchItem) : string :=
  match item with
  | BatchSuccess query _ => query
  | BatchFailure query _ => query
  end.

(** The body of [/api/batch-detect]. *)
Record BatchBody := {
  batch_success : bool;
  total_queries : nat;
  results : list BatchItem
}.


(** What [/api/advisor/chat] puts in [result]. *)
Inductive AdvisorResult :=
| AdviceGiven (advice : Advice)
| AdvisorFallback (query_category greeting analysis : string)
    (recommendations : list string) (conclusion formatted_response : string).

Definition advisor_fallback : AdvisorResult :=
  AdvisorFallback "general" "Hello! I apologize for the confusion."
    "I encountered an issue processing your question. Let me try to help anyway."
    ["Always verify the source before sharing information";
     "Use strong, unique passwords";
     "Enable two-factor authentication";
     "Monitor your accounts regularly";
     "Keep your software updated"]
    "Stay safe and informed!"
    "I apologize, but I encountered an issue. Please try rephrasing your question.".

Section Endpoints.

Context `{W : World} `{U : Unicode}.

(** [FraudDetectionGraph(google_api_key=api_key, models_base_path=models_path)]
    and [FraudAdvisorGraph(google_api_key=api_key)], for the key and the
    models path of the request: whether the constructor returns, or the
    exception it raises. *)
Variable FraudDetectionGraph_new : string -> Res unit.
Variable FraudAdvisorGraph_new : string -> Res unit.

(** [create_detector]: a constructor that raises becomes status 500. *)
Definition create_detector (api_key : string) : HTTP unit :=
  match FraudDetectionGraph_new api_key with
  | Ok _ => Response tt
  | Raise _ => HTTPException 500
  end.

(** [create_advisor] *)
Definition create_advisor (api_key : string) : HTTP unit :=
  match FraudAdvisorGraph_new api_key with
  | Ok _ => Response tt
  | Raise _ => HTTPException 500
  end.

(** [/api/detect], for a request without image: the [HTTPException] of the
    key check and of [create_detector] pass through [except HTTPException:
    raise]. *)
Definition api_detect (google_api_key query : string)
  : M (HTTP (option Verdict.t)) :=
  if bad_api_key google_api_key then ret (HTTPException 400)
  else
    match create_detector google_api_key with
    | HTTPException status_code => ret (HTTPException status_code)
    | Response _ =>
        fun log =>
          match api_detect_text query log with
          | (Ok res, log') => (Ok (Response res), log')
          | (Raise e, log') => (Ok (HTTPException 500), log')
          end
    end.



(** The loop of [/api/batch-detect] *)
Fixpoint batch_results (queries : list string) : M (list BatchItem) :=
  match queries with
  | [] => ret []
  | query :: rest =>
      fun log =>
        let '(outcome, log') := detect_fraud query log in
        let item :=
          match outcome with
          | Ok res => BatchSuccess query res
          | Raise e => BatchFailure query (str_of_exception e)
          end in
        match batch_results rest log' with
        | (Ok items, log'') => (Ok (item :: items), log'')
        | (Raise e, log'') => (Raise e, log'')
        end
  end.

(** [/api/batch-detect]: the key is not checked, it goes to
    [create_detector] as it is. *)
Definition batch_detect (google_api_key : string) (queries : list string)
  : M (HTTP BatchBody) :=
  if length queries =? 0 then ret (HTTPException 400)
  else if 10 <? length queries then ret (HTTPException 400)
  else
    match create_detector google_api_key with
    | HTTPException status_code => ret (HTTPException status_code)
    | Response _ =>
        fun log =>
          match batch_results queries log with
          | (Ok items, log') =>
              (Ok (Response {| batch_success := true;
                               total_queries := length queries;
                               results := items |}),
               log')
          | (Raise e, log') => (Ok (HTTPException 500), log')
          end
    end.

(** [/api/advisor/chat] *)
Definition advisor_chat (google_api_key query : string)
  : M (HTTP AdvisorResult) :=
  if bad_api_key google_api_key then ret (HTTPException 400)
  else
    match create_advisor google_api_key with
    | HTTPException status_code => ret (HTTPException status_code)
    | Response _ =>
        fun log =>
          match get_advice query log with
          | (Ok advice, log') => (Ok (Response (AdviceGiven advice)), log')
          | (Raise e, log') => (Ok (Response advisor_fallback), log')
          end
    end.

End Endpoints.

(** The item [/api/batch-detect] reports for a text, from the outcome of
    [detect_fraud] on it. *)
Definition batch_item (query : string) (outcome : Res (option Verdict.t))
  : BatchItem :=
  match outcome with
  | Ok res => BatchSuccess query res
  | Raise e => BatchFailure query (str_of_exception e)
  end.

(** The log once [detect_fraud] has run on each of the texts in turn. *)
Definition log_after `{World} (queries : list string) (log : Log) : Log :=
  fold_left (fun log query => snd (detect_fraud query log)) queries log.

(** The step of the detection workflow a prompt belongs to. *)
Inductive Step := Validate | Classify | Parse | Analyse | Advise.

Definition step_of (p : Prompt) : Step :=
  match p with
  | ValidationPrompt _ => Validate
  | ClassificationPrompt _ => Classify
  | ParsingPrompt _ _ => Parse
  | AnalysisPrompt _ _ _ => Analyse
  | CategorizationPrompt _ => Advise
  | GenerationPrompt _ _ _ => Advise
  end.

(** A line that is not empty. *)
Definition nonblank (line : string) : bool := negb (Py.len line =? 0).

(** The text [categorize_query] hands to [json.loads]. *)
Definition categorization_text (response : string) : string :=
  Py.strip (Py.replace (Py.replace (Py.strip response) "```json" "") "```" "").

(** The values of the enum [QueryType]. *)
Definition query_types : list string := ["greeting"; "simple"; "detailed"; "invalid"].

(** No two empty lines in a row. *)
Fixpoint no_double_blank (lines : list string) : bool :=
  match lines with
  | a :: (b :: _) as rest => (nonblank a || nonblank b) && no_double_blank rest
  | _ => true
  end.

(** What the loop of [format_output] keeps true of the lines written so
    far: an empty line is never first, never follows an empty line, and is
    last only while a line that is no bullet waits to be written. *)
Definition tidy (formatted_lines lines : list string) : Prop :=
  no_double_blank formatted_lines = true
  /\ nonblank (hd "x" formatted_lines) = true
  /\ (nonblank (last formatted_lines "x") = false ->
      exists next rest,
        lines = next :: rest
        /\ nonblank (Py.strip next) = true
        /\ is_bullet_line (Py.strip next) = false).

(** A message the way the advisor's reasoning service answers it. *)
Definition advisor_world (categorization generation : Res string)
    (parsed : option (option string * option string)) : World :=
  {| llm_invoke := fun p =>
       match p with
       | CategorizationPrompt _ => categorization
       | GenerationPrompt _ _ _ => generation
       | _ => Raise (Error "not an advisor prompt")
       end;
     json_valid := fun _ => false;
     loads_validation := fun _ => None;
     loads_analysis := fun _ => None;
     loads_categorization := fun _ => parsed;
     format_1f := fun _ => "?";
     models := [];
     infer := fun _ _ => Raise (Error "no model") |}.

Definition upi_question : string := "How do I keep my UPI payments safe?".

(** The categorization answer names a topic that is no [Topic]. *)
Definition odd_topic_world : World :=
  advisor_world (Ok "{ query_type: simple, topic: crypto }") (Ok "Stay alert.")
                (Some (Some "simple", Some "crypto")).

(** The categorization answer is prose. *)
Definition prose_advisor_world : World :=
  advisor_world (Ok "It is a simple question.")
                (Ok ("Use a PIN." +++ nl +++ "- Never share it." +++ nl +++ "Stay alert."))
                None.

(** * Properties *)

(** ** Order of binary64 numbers *)

Lemma SFcompare_antisym (x y : spec_float) (c : comparison) :
  SFcompare x y = Some c -> SFcompare y x = Some (CompOpp c).
Proof.
  destruct x as [s|s| |s m e], y as [s'|s'| |s' m' e']; simpl; try congruence;
    intros H; inversion H; subst; clear H;
    try (destruct s; try destruct s'; reflexivity).
  destruct s, s'; try reflexivity; rewrite (Z.compare_antisym e e');
    destruct (e ?= e')%Z; simpl; try reflexivity;
    rewrite !Pos.compare_cont_spec; simpl; rewrite (Pos.compare_antisym m m');
    destruct (m ?= m')%positive; reflexivity.
Qed.

Lemma leb_true_ltb_false (x y : float) :
  PrimFloat.leb x y = true -> PrimFloat.ltb y x = false.
Proof.
  rewrite FloatAxioms.leb_spec, FloatAxioms.ltb_spec. unfold SFleb, SFltb.
  destruct (SFcompare (Prim2SF x) (Prim2SF y)) as [c|] eqn:E; try discriminate.
  rewrite (SFcompare_antisym _ _ _ E). destruct c; simpl; congruence.
Qed.

Lemma ltb_true_leb_false (x y : float) :
  PrimFloat.ltb x y = true -> PrimFloat.leb y x = false.
Proof.
  intros H. destruct (PrimFloat.leb y x) eqn:E; [|reflexivity].
  apply leb_true_ltb_false in E. congruence.
Qed.

Lemma SFltb_leb_trans (x y z : spec_float) :
  SFltb x y = true -> SFleb y z = true -> SFltb x z = true.
Proof.
  unfold SFltb, SFleb.
  destruct x as [s|s| |s m e], y as [s'|s'| |s' m' e'],
           z as [s''|s''| |s'' m'' e'']; simpl; try congruence;
    try (destruct s; try destruct s'; try destruct s''; simpl; congruence).
  destruct s, s', s''; simpl; try congruence;
    rewrite ?Pos.compare_cont_spec; simpl;
    destruct (Z.compare_spec e e'), (Z.compare_spec e' e''),
             (Z.compare_spec e e''); simpl; try congruence; try lia;
    destruct (Pos.compare_spec m m'), (Pos.compare_spec m' m''),
             (Pos.compare_spec m m''); simpl; try congruence; try lia.
Qed.

(** Below [k1] and [k1 <= k2]: not at least [k2]. *)
Lemma lt_le_not_ge (x k1 k2 : float) :
  Py.lt x k1 = true -> PrimFloat.leb k1 k2 = true -> Py.ge x k2 = false.
Proof.
  unfold Py.lt, Py.ge. intros H1 H2.
  apply ltb_true_leb_false.
  rewrite FloatAxioms.ltb_spec in *. rewrite FloatAxioms.leb_spec in H2.
  eapply SFltb_leb_trans; eassumption.
Qed.

Lemma ge_not_lt (x k : float) : Py.ge x k = true -> Py.lt x k = false.
Proof. apply leb_true_ltb_false. Qed.

Lemma lt_not_ge (x k : float) : Py.lt x k = true -> Py.ge x k = false.
Proof. apply ltb_true_leb_false. Qed.

(** ** The monad of logged calls *)

Lemma bind_ok {A B} (m : M A) (k : A -> M B) log a log' :
  m log = (Ok a, log') -> bind m k log = k a log'.
Proof. unfold bind. intros ->. reflexivity. Qed.

Lemma bind_raise {A B} (m : M A) (k : A -> M B) log e log' :
  m log = (Raise e, log') -> bind m k log = (Raise e, log').
Proof. unfold bind. intros ->. reflexivity. Qed.

Lemma invoke_ok `{World} p content log :
  llm_invoke p = Ok content -> invoke p log = (Ok content, log ++ [p]).
Proof. unfold invoke. intros ->. reflexivity. Qed.

Lemma invoke_raise `{World} p e log :
  llm_invoke p = Raise e -> invoke p log = (Raise e, log ++ [p]).
Proof. unfold invoke. intros ->. reflexivity. Qed.

(** ** The fuser *)

Section Fuser.

Context {W : World}.

Lemma sanitize_is_fraud (a : LLM.t) : LLM.is_fraud (sanitize a) = LLM.is_fraud a.
Proof. reflexivity. Qed.

Lemma sanitize_confidence (a : LLM.t) :
  LLM.confidence (sanitize a) = LLM.confidence a.
Proof. reflexivity. Qed.

(** [generate_final_result] returns whenever the classifier step has run; the
    decision fields of its verdict are those of [final_verdict] on the
    sanitized reasoning opinion, and it makes no call. *)
Lemma generate_final_result_ok (state : State.t) (ml : ML.t) (log : Log) :
  State.ml_prediction state = Some ml ->
  exists state' v reasoning,
    generate_final_result state log = (Ok state', log)
    /\ State.final_result state' = Some v
    /\ State.llm_analysis state' = sanitize (State.llm_analysis state)
    /\ final_verdict ml (sanitize (State.llm_analysis state))
       = (Verdict.is_fraud v, Verdict.confidence v,
          Verdict.detection_method v, reasoning)
    /\ Verdict.reasoning v = _clean_response_text reasoning
    /\ Verdict.risk_level v
       = fst (risk_and_recommendation (Verdict.is_fraud v) (Verdict.confidence v)).
Proof.
  intros Hml. unfold generate_final_result. rewrite Hml.
  destruct (final_verdict ml (sanitize (State.llm_analysis state)))
    as [[[is_fraud confidence] method] reasoning] eqn:Hfv.
  cbv beta iota zeta.
  destruct (risk_and_recommendation is_fraud confidence)
    as [risk_level recommendation] eqn:Hrr.
  unfold ret. eexists _, _, reasoning.
  split; [reflexivity|]. split; [reflexivity|].
  cbn [State.final_result State.llm_analysis Verdict.is_fraud
       Verdict.confidence Verdict.detection_method Verdict.reasoning
       Verdict.risk_level].
  rewrite Hrr. repeat split; reflexivity.
Qed.

Lemma risk_and_recommendation_tier (is_fraud : bool) (confidence : float) :
  fst (risk_and_recommendation is_fraud confidence) = risk_tier is_fraud confidence.
Proof.
  unfold risk_and_recommendation, risk_tier, Py.ge.
  destruct is_fraud; [|reflexivity].
  destruct (PrimFloat.leb 0.9 confidence); [reflexivity|].
  destruct (PrimFloat.leb 0.75 confidence); [reflexivity|].
  destruct (PrimFloat.leb 0.6 confidence); reflexivity.
Qed.

Lemma qr_risk_level_tier (is_fraud : bool) (confidence : float) :
  qr_risk_level is_fraud confidence = risk_tier is_fraud confidence.
Proof.
  unfold qr_risk_level, risk_tier, Py.ge.
  destruct is_fraud; [|reflexivity].
  destruct (PrimFloat.leb 0.9 confidence); [reflexivity|].
  destruct (PrimFloat.leb 0.75 confidence); [reflexivity|].
  destruct (PrimFloat.leb 0.6 confidence); reflexivity.
Qed.

End Fuser.

Section FuserClaims.

Context (W : World).

Lemma risk_tier_mapping (is_fraud : bool) (c : float) :
  RiskMapping is_fraud c (risk_tier is_fraud c).
Proof.
  unfold RiskMapping, risk_tier, Py.ge. split.
  - intros ->. reflexivity.
  - intros ->. repeat split.
    + intros ->. reflexivity.
    + intros Hlt Hge. apply lt_not_ge in Hlt. unfold Py.ge in Hlt.
      rewrite Hlt, Hge. reflexivity.
    + intros Hlt Hge.
      assert (H9 : Py.ge c 0.9 = false)
        by (apply (lt_le_not_ge _ _ _ Hlt); reflexivity).
      apply lt_not_ge in Hlt. unfold Py.ge in *.
      rewrite H9, Hlt, Hge. reflexivity.
    + intros Hlt.
      assert (H9 : Py.ge c 0.9 = false)
        by (apply (lt_le_not_ge _ _ _ Hlt); reflexivity).
      assert (H75 : Py.ge c 0.75 = false)
        by (apply (lt_le_not_ge _ _ _ Hlt); reflexivity).
      apply lt_not_ge in Hlt. unfold Py.ge in *.
      rewrite H9, H75, Hlt. reflexivity.
Qed.

(** C5: the risk tier of every verdict the fuser builds, whichever branch
    decided it, and of every QR verdict, follows from its [is_fraud] and
    [confidence] by the fixed mapping: for a positive verdict at least 0.9 is
    CRITICAL, at least 0.75 HIGH, at least 0.6 MEDIUM and anything below LOW;
    a negative verdict is LOW. Exactly 0.9 is CRITICAL and 0.89999 is HIGH. *)
Theorem C5_risk_tier_is_fixed_mapping (state : State.t) (ml : ML.t) (log : Log) :
  State.ml_prediction state = Some ml ->
  (exists state' v,
      generate_final_result state log = (Ok state', log)
      /\ State.final_result state' = Some v
      /\ RiskMapping (Verdict.is_fraud v) (Verdict.confidence v)
                     (Verdict.risk_level v))
  /\ (forall is_fraud c, RiskMapping is_fraud c (qr_risk_level is_fraud c))
  /\ fst (risk_and_recommendation true 0.9) = "CRITICAL"
  /\ fst (risk_and_recommendation true 0.89999) = "HIGH"
  /\ qr_risk_level true 0.9 = "CRITICAL"
  /\ qr_risk_level true 0.89999 = "HIGH".
Proof.
  intros Hml. split; [|split].
  - destruct (generate_final_result_ok state ml log Hml)
      as (state' & v & r & Hrun & Hres & _ & _ & _ & Hrisk).
    exists state', v. split; [assumption|]. split; [assumption|].
    rewrite Hrisk, risk_and_recommendation_tier. apply risk_tier_mapping.
  - intros is_fraud c. rewrite qr_risk_level_tier. apply risk_tier_mapping.
  - repeat split; vm_compute; reflexivity.
Qed.

Lemma final_verdict_model (ml : ML.t) (llm : LLM.t) :
  ML.model_available ml = true ->
  Py.ge (ML.confidence ml) 0.7 = true ->
  exists reasoning,
    final_verdict ml llm
    = (says_fraud ml, ML.confidence ml, "ML_MODEL", reasoning).
Proof.
  intros Ha Hc. unfold final_verdict. rewrite Ha, Hc. cbn [andb].
  eexists. reflexivity.
Qed.

Lemma final_verdict_low (ml : ML.t) (llm : LLM.t) :
  ML.model_available ml = true ->
  Py.ge (ML.confidence ml) 0.7 = false ->
  exists reasoning,
    final_verdict ml llm
    = match LLM.is_fraud llm with
      | Some b =>
          (b, default 0.8%float (LLM.confidence llm), "LLM_REASONING", reasoning)
      | None =>
          let llm_conf := default 0.5%float (LLM.confidence llm) in
          (says_fraud ml || says_fraud ml,
           if says_fraud ml || says_fraud ml
           then Py.max (ML.confidence ml) llm_conf
           else Py.min (ML.confidence ml) llm_conf,
           "HYBRID", reasoning)
      end.
Proof.
  intros Ha Hc. unfold final_verdict. rewrite Ha, Hc. cbn [andb].
  destruct (LLM.is_fraud llm) as [b|] eqn:E.
  - eexists. reflexivity.
  - cbn [default]. fold (says_fraud ml). eexists. reflexivity.
Qed.

Lemma final_verdict_unavailable (ml : ML.t) (llm : LLM.t) :
  ML.model_available ml = false ->
  final_verdict ml llm
  = match LLM.is_fraud llm with
    | Some b =>
        (b, default 0.8%float (LLM.confidence llm), "LLM_REASONING",
         default "Analysis based on fraud detection patterns and expert knowledge."
                 (LLM.reasoning llm))
    | None =>
        (false, 0.5%float, "FALLBACK",
         "Unable to perform full analysis with available data. Recommend manual review if this is a critical transaction.")
    end.
Proof. intros Ha. unfold final_verdict. rewrite Ha. reflexivity. Qed.

(** What [run_ml_model] stores: a predictor's dict, or one of the two "no
    opinion" results. *)
Lemma run_ml_model_prediction (state : State.t) :
  exists ml,
    State.ml_prediction (run_ml_model state) = Some ml
    /\ State.fraud_type (run_ml_model state) = State.fraud_type state
    /\ State.parsed_data (run_ml_model state) = State.parsed_data state
    /\ ((exists i, ml = prediction_dict i)
        \/ (exists e, ml = ml_error_fallback e)
        \/ ml = ml_llm_only).
Proof.
  unfold run_ml_model, _predict_credit_card, _predict_spam, _predict_url.
  eexists. split; [reflexivity|]. split; [reflexivity|]. split; [reflexivity|].
  destruct (String.eqb (State.fraud_type state) "credit_card"
            && mem "credit_card" models).
  { destruct (infer "credit_card" _); [left|right; left]; eexists; reflexivity. }
  destruct (String.eqb (State.fraud_type state) "email_spam" && mem "spam" models).
  { destruct (infer "spam" _); [left|right; left]; eexists; reflexivity. }
  destruct (String.eqb (State.fraud_type state) "url_fraud" && mem "url" models).
  { destruct (infer "url" _); [left|right; left]; eexists; reflexivity. }
  right; right; reflexivity.
Qed.

End FuserClaims.

Section ModelBranch.

Context (W : World).

Lemma use_llm_prediction_dict (i : Inference) :
  Py.ge (ML.confidence (prediction_dict i)) 0.7 = true ->
  use_llm (prediction_dict i) = false.
Proof.
  intros Hge. unfold use_llm. rewrite (ge_not_lt _ _ Hge). reflexivity.
Qed.

Lemma llm_analysis_skipped (state : State.t) (ml : ML.t) (log : Log) :
  State.ml_prediction state = Some ml ->
  use_llm ml = false ->
  exists state1,
    llm_analysis state log = (Ok state1, log)
    /\ State.ml_prediction state1 = Some ml
    /\ LLM.used (State.llm_analysis state1) = Some false
    /\ LLM.is_fraud (State.llm_analysis state1) = None.
Proof.
  intros Hml Huse. unfold llm_analysis. rewrite Hml, Huse.
  eexists. split; [reflexivity|]. repeat split; reflexivity.
Qed.

(** C1: when the classifier's opinion is available and its confidence, the
    probability of the predicted class, is at least 0.70, the reasoning
    adapter makes no call and the verdict is the model's: method [ML_MODEL],
    [is_fraud] iff the predicted label is 1, and the model's confidence; the
    fuser decides so whatever reasoning opinion it is handed. *)
Theorem C1_confident_model_decides_alone
    (state : State.t) (ml : ML.t) (log : Log) :
  State.ml_prediction (run_ml_model state) = Some ml ->
  ML.model_available ml = true ->
  Py.ge (ML.confidence ml) 0.7 = true ->
  (exists i,
      ml = prediction_dict i
      /\ ML.confidence ml
         = if (predicted i =? 1)%Z then snd (probability i)
           else fst (probability i))
  /\ (exists state1,
         llm_analysis (run_ml_model state) log = (Ok state1, log)
         /\ LLM.used (State.llm_analysis state1) = Some false
         /\ exists state2 v,
             generate_final_result state1 log = (Ok state2, log)
             /\ State.final_result state2 = Some v
             /\ Verdict.detection_method v = "ML_MODEL"
             /\ Verdict.is_fraud v = says_fraud ml
             /\ Verdict.confidence v = ML.confidence ml)
  /\ (forall llm, exists reasoning,
         final_verdict ml llm
         = (says_fraud ml, ML.confidence ml, "ML_MODEL", reasoning)).
Proof.
  intros Hml Ha Hc.
  assert (Hdict : exists i, ml = prediction_dict i).
  { destruct (run_ml_model_prediction W state) as (ml' & Hml' & _ & _ & Hcases).
    rewrite Hml in Hml'. injection Hml' as <-.
    destruct Hcases as [Hi | [[e He] | He]]; [assumption| |]; subst ml;
      discriminate Ha. }
  destruct Hdict as [i Hi]. split; [|split].
  - exists i. split; [assumption|]. subst ml. reflexivity.
  - assert (Huse : use_llm ml = false).
    { subst ml. apply use_llm_prediction_dict. assumption. }
    destruct (llm_analysis_skipped _ ml log Hml Huse)
      as (state1 & Hrun1 & Hml1 & Hused & _).
    exists state1. split; [assumption|]. split; [assumption|].
    destruct (generate_final_result_ok state1 ml log Hml1)
      as (state2 & v & r & Hrun2 & Hres & _ & Hfv & _).
    exists state2, v. split; [assumption|]. split; [assumption|].
    destruct (final_verdict_model W ml (sanitize (State.llm_analysis state1)) Ha Hc)
      as [r' Hfv'].
    rewrite Hfv' in Hfv. injection Hfv as H1 H2 H3 _.
    repeat split; congruence.
  - intros llm. apply final_verdict_model; assumption.
Qed.

End ModelBranch.

(** A run of C1: a credit-card classifier 95% sure of fraud. *)
Lemma C1_witness :
  let state := parsed_state "Amount: 9000, Time: 3" "credit_card" in
  let ml := prediction_dict {| predicted := 1; probability := (0.05, 0.95)%float |} in
  State.ml_prediction (run_ml_model (W := confident_world) state) = Some ml
  /\ ML.model_available ml = true
  /\ Py.ge (ML.confidence ml) 0.7 = true
  /\ exists state1,
      llm_analysis (W := confident_world) (run_ml_model (W := confident_world) state) []
      = (Ok state1, [])
      /\ LLM.used (State.llm_analysis state1) = Some false
      /\ exists state2 v,
          generate_final_result (W := confident_world) state1 [] = (Ok state2, [])
          /\ State.final_result state2 = Some v
          /\ Verdict.detection_method v = "ML_MODEL"
          /\ Verdict.is_fraud v = true
          /\ Verdict.confidence v = 0.95%float.
Proof.
  intros state ml.
  assert (Hml : State.ml_prediction (run_ml_model (W := confident_world) state)
                = Some ml) by reflexivity.
  assert (Ha : ML.model_available ml = true) by reflexivity.
  assert (Hc : Py.ge (ML.confidence ml) 0.7 = true) by reflexivity.
  split; [exact Hml|]. split; [exact Ha|]. split; [exact Hc|].
  exact (proj1 (proj2
           (C1_confident_model_decides_alone confident_world state ml [] Hml Ha Hc))).
Defined.

(** A run of C5 on a verdict of the reasoning branch. *)
Lemma C5_witness :
  let state := fusion_state ml_unsure_fraud llm_sure_clear in
  State.ml_prediction state = Some ml_unsure_fraud
  /\ exists state' v,
      generate_final_result (W := prize_world) state [] = (Ok state', [])
      /\ State.final_result state' = Some v
      /\ RiskMapping (Verdict.is_fraud v) (Verdict.confidence v)
                     (Verdict.risk_level v).
Proof.
  intros state. split; [reflexivity|].
  exact (proj1 (C5_risk_tier_is_fixed_mapping prize_world state ml_unsure_fraud []
                  eq_refl)).
Defined.

Section LowConfidenceBranch.

Context (W : World).

(** C2, as the code has it: when the classifier's opinion is available but
    below 0.70, a reasoning opinion that carries [is_fraud] decides alone
    (method [LLM_REASONING], its [is_fraud], its confidence or 0.8). The
    hybrid rule applies only to a reasoning opinion without [is_fraud], which
    then counts as agreeing with the model: [is_fraud] is the model's label
    OR-ed with that default, the confidence is the larger of the model's and
    the reasoning opinion's (0.5 when absent) for a positive verdict and the
    smaller for a negative one, and the method is [HYBRID]. *)
Theorem C2_low_confidence_reasoning_first
    (state : State.t) (ml : ML.t) (log : Log) :
  State.ml_prediction state = Some ml ->
  ML.model_available ml = true ->
  Py.lt (ML.confidence ml) 0.7 = true ->
  exists state' v,
    generate_final_result state log = (Ok state', log)
    /\ State.final_result state' = Some v
    /\ match LLM.is_fraud (State.llm_analysis state) with
       | Some reasoning_fraud =>
           Verdict.is_fraud v = reasoning_fraud
           /\ Verdict.confidence v
              = default 0.8%float (LLM.confidence (State.llm_analysis state))
           /\ Verdict.detection_method v = "LLM_REASONING"
       | None =>
           let model_fraud := says_fraud ml in
           let reasoning_fraud := model_fraud in
           let model_conf := ML.confidence ml in
           let reasoning_conf :=
             default 0.5%float (LLM.confidence (State.llm_analysis state)) in
           Verdict.is_fraud v = model_fraud || reasoning_fraud
           /\ Verdict.confidence v
              = (if Verdict.is_fraud v then Py.max model_conf reasoning_conf
                 else Py.min model_conf reasoning_conf)
           /\ Verdict.detection_method v = "HYBRID"
       end.
Proof.
  intros Hml Ha Hlt. apply lt_not_ge in Hlt.
  destruct (generate_final_result_ok state ml log Hml)
    as (state' & v & r & Hrun & Hres & _ & Hfv & _).
  exists state', v. split; [assumption|]. split; [assumption|].
  destruct (final_verdict_low W ml (sanitize (State.llm_analysis state)) Ha Hlt)
    as [r' Hfv'].
  rewrite Hfv' in Hfv. rewrite sanitize_is_fraud, sanitize_confidence in Hfv.
  destruct (LLM.is_fraud (State.llm_analysis state)) as [b|].
  - injection Hfv as H1 H2 H3 _. repeat split; congruence.
  - cbv zeta in Hfv. injection Hfv as H1 H2 H3 _. cbv zeta.
    split; [congruence|]. split; [|congruence].
    rewrite <- H2, <- H1. reflexivity.
Qed.

End LowConfidenceBranch.

(** A run of C2 through the hybrid branch. *)
Lemma C2_witness :
  let state := fusion_state ml_unsure_fraud llm_no_verdict in
  State.ml_prediction state = Some ml_unsure_fraud
  /\ ML.model_available ml_unsure_fraud = true
  /\ Py.lt (ML.confidence ml_unsure_fraud) 0.7 = true
  /\ exists state' v,
      generate_final_result (W := prize_world) state [] = (Ok state', [])
      /\ State.final_result state' = Some v
      /\ Verdict.is_fraud v = true
      /\ Verdict.confidence v = 0.9%float
      /\ Verdict.detection_method v = "HYBRID".
Proof.
  intros state.
  split; [reflexivity|]. split; [reflexivity|]. split; [reflexivity|].
  destruct (C2_low_confidence_reasoning_first prize_world state ml_unsure_fraud []
              eq_refl eq_refl eq_refl)
    as (state' & v & Hrun & Hres & Hfraud & Hconf & Hmethod).
  exists state', v. split; [exact Hrun|]. split; [exact Hres|].
  split; [exact Hfraud|]. split; [|exact Hmethod].
  rewrite Hconf, Hfraud. reflexivity.
Defined.

(** C2 as stated fails: the model says fraud with confidence 0.6, the
    reasoning opinion says no fraud with confidence 0.9, and the verdict is
    the reasoning opinion's, not the hybrid one: not fraud, although one of
    the two opinions says fraud. *)
Lemma C2_counterexample :
  let state := fusion_state ml_unsure_fraud llm_sure_clear in
  ML.model_available ml_unsure_fraud = true
  /\ Py.lt (ML.confidence ml_unsure_fraud) 0.7 = true
  /\ says_fraud ml_unsure_fraud = true
  /\ LLM.is_fraud llm_sure_clear = Some false
  /\ exists state' v,
      generate_final_result (W := prize_world) state [] = (Ok state', [])
      /\ State.final_result state' = Some v
      /\ Verdict.is_fraud v = false
      /\ Verdict.is_fraud v <> (says_fraud ml_unsure_fraud || false)
      /\ Verdict.detection_method v = "LLM_REASONING"
      /\ Verdict.detection_method v <> "HYBRID".
Proof.
  intros state. repeat (split; [reflexivity|]).
  eexists _, _. split; [reflexivity|]. split; [reflexivity|].
  repeat split; try reflexivity; discriminate.
Qed.

Section ClassifierFailure.

Context (W : World).

Lemma run_ml_model_raise (state : State.t) (key : string) (e : Exception) :
  In (State.fraud_type state, key) predictor_keys ->
  mem key models = true ->
  infer key (State.parsed_data state) = Raise e ->
  State.ml_prediction (run_ml_model state) = Some (ml_error_fallback e).
Proof.
  intros Hin Hmem Hinfer. unfold run_ml_model.
  unfold _predict_credit_card, _predict_spam, _predict_url.
  destruct Hin as [H | [H | [H | []]]]; injection H as Hft <-;
    rewrite <- Hft; cbn [String.eqb Ascii.eqb Bool.eqb andb];
    rewrite Hmem, Hinfer; reflexivity.
Qed.

Lemma run_ml_model_unregistered (state : State.t) :
  (forall key, In (State.fraud_type state, key) predictor_keys ->
               mem key models = false) ->
  State.ml_prediction (run_ml_model state) = Some ml_llm_only.
Proof.
  intros Hno. unfold run_ml_model.
  destruct (String.eqb (State.fraud_type state) "credit_card") eqn:E1.
  { apply String.eqb_eq in E1. rewrite (Hno "credit_card").
    - destruct (String.eqb (State.fraud_type state) "email_spam") eqn:E2.
      { apply String.eqb_eq in E2. congruence. }
      destruct (String.eqb (State.fraud_type state) "url_fraud") eqn:E3.
      { apply String.eqb_eq in E3. congruence. }
      reflexivity.
    - rewrite E1. left. reflexivity. }
  destruct (String.eqb (State.fraud_type state) "email_spam") eqn:E2.
  { apply String.eqb_eq in E2. rewrite (Hno "spam").
    - destruct (String.eqb (State.fraud_type state) "url_fraud") eqn:E3.
      { apply String.eqb_eq in E3. congruence. }
      reflexivity.
    - rewrite E2. right. left. reflexivity. }
  destruct (String.eqb (State.fraud_type state) "url_fraud") eqn:E3.
  { apply String.eqb_eq in E3. rewrite (Hno "url").
    - reflexivity.
    - rewrite E3. right. right. left. reflexivity. }
  reflexivity.
Qed.

End ClassifierFailure.

Section ClassifierFailureClaim.

Context (W : World).

(** C7: a failure inside the predictor of the domain does not leave
    [run_ml_model]: the step stores an opinion with [model_available = False]
    and method [ERROR_FALLBACK_TO_LLM]. The later stages treat it as they
    treat the opinion stored when no classifier is registered: the reasoning
    adapter is invoked in both cases and the fuser reaches the same verdict
    from the same reasoning opinion. *)
Theorem C7_classifier_failure_is_no_opinion
    (state : State.t) (key : string) (e : Exception) :
  In (State.fraud_type state, key) predictor_keys ->
  mem key models = true ->
  infer key (State.parsed_data state) = Raise e ->
  exists ml,
    State.ml_prediction (run_ml_model state) = Some ml
    /\ ML.model_available ml = false
    /\ ML.method ml = "ERROR_FALLBACK_TO_LLM"
    /\ (forall (W0 : World) (state0 : State.t),
           (forall key0, In (State.fraud_type state0, key0) predictor_keys ->
                         mem key0 (@models W0) = false) ->
           exists ml0,
             State.ml_prediction (run_ml_model (W := W0) state0) = Some ml0
             /\ use_llm ml = true
             /\ use_llm ml0 = true
             /\ forall llm, final_verdict ml llm = final_verdict ml0 llm).
Proof.
  intros Hin Hmem Hinfer.
  exists (ml_error_fallback e).
  split; [eapply run_ml_model_raise; eassumption|].
  split; [reflexivity|]. split; [reflexivity|].
  intros W0 state0 Hno. exists ml_llm_only.
  split; [apply (run_ml_model_unregistered W0); assumption|].
  split; [reflexivity|]. split; [reflexivity|].
  intros llm. reflexivity.
Qed.

End ClassifierFailureClaim.

(** A run of C7: the spam predictor raises. *)
Lemma C7_witness :
  let state := parsed_state "You won a prize" "email_spam" in
  In (State.fraud_type state, "spam") predictor_keys
  /\ mem "spam" (@models broken_model_world) = true
  /\ infer (World := broken_model_world) "spam" (State.parsed_data state)
     = Raise (Error "scaler is not fitted")
  /\ exists ml,
      State.ml_prediction (run_ml_model (W := broken_model_world) state) = Some ml
      /\ ML.model_available ml = false
      /\ ML.method ml = "ERROR_FALLBACK_TO_LLM".
Proof.
  intros state.
  assert (Hin : In (State.fraud_type state, "spam") predictor_keys)
    by (right; left; reflexivity).
  split; [exact Hin|]. split; [reflexivity|]. split; [reflexivity|].
  destruct (C7_classifier_failure_is_no_opinion broken_model_world state "spam"
              (Error "scaler is not fitted") Hin eq_refl eq_refl)
    as (ml & Hml & Ha & Hm & _).
  exists ml. split; [exact Hml|]. split; [exact Ha|exact Hm].
Defined.

(** ** Substrings and membership *)

Lemma prefix_spec (p s : string) :
  String.prefix p s = true <-> exists post, s = p +++ post.
Proof.
  revert s. induction p as [|c p IH]; intros s.
  - split; [intros _; exists s; reflexivity | destruct s; reflexivity].
  - destruct s as [|d s].
    + split; [discriminate | intros [post H]; discriminate].
    + simpl. destruct (ascii_dec c d) as [->|Hne].
      * rewrite IH. split; intros [post H]; exists post.
        -- simpl. congruence.
        -- simpl in H. congruence.
      * split; [discriminate|]. intros [post H]. simpl in H. congruence.
Qed.

Lemma contains_spec (w s : string) : Py.contains w s = true <-> Substring w s.
Proof.
  unfold Substring. induction s as [|d s IH].
  - cbn [Py.contains]. rewrite orb_false_r, prefix_spec. split.
    + intros [post H]. exists EmptyString, post. assumption.
    + intros (pre & post & H). destruct pre; [|discriminate].
      exists post. assumption.
  - cbn [Py.contains]. rewrite orb_true_iff, IH, prefix_spec. split.
    + intros [[post H] | (pre & post & H)].
      * exists EmptyString, post. assumption.
      * exists (String d pre), post. simpl. congruence.
    + intros (pre & post & H). destruct pre as [|d' pre].
      * left. exists post. assumption.
      * right. exists pre, post. simpl in H. congruence.
Qed.

Lemma any_in_spec (words : list string) (s : string) :
  Py.any_in words s = true <-> SomeWordIn words s.
Proof.
  unfold Py.any_in, SomeWordIn. rewrite existsb_exists.
  split; intros (w & Hin & H); exists w; split; try assumption;
    apply contains_spec; assumption.
Qed.

Lemma any_in_false (words : list string) (s : string) :
  Py.any_in words s = false <-> ~ SomeWordIn words s.
Proof.
  rewrite <- any_in_spec. destruct (Py.any_in words s); split; congruence.
Qed.

Lemma mem_spec (s : string) (l : list string) : mem s l = true <-> In s l.
Proof.
  unfold mem. rewrite existsb_exists. split.
  - intros (x & Hin & Heq). apply String.eqb_eq in Heq. subst. assumption.
  - intros Hin. exists s. split; [assumption | apply String.eqb_refl].
Qed.

Lemma mem_false (s : string) (l : list string) : mem s l = false <-> ~ In s l.
Proof.
  rewrite <- mem_spec. destruct (mem s l); split; congruence.
Qed.

(** ** The domain classifier *)

Section DomainClassifier.

Context (W : World).

(** C9: when the answer of the reasoning service, trimmed and lowercased, is
    none of [credit_card], [email_spam], [url_fraud], [upi_fraud], the domain
    is decided by the keywords that occur in the lowercased text, in a fixed
    order: transaction, amount, v1, v2, credit card give [credit_card];
    otherwise message, sms, email, text, spam give [email_spam]; otherwise
    url, link, website, http, https give [url_fraud]; otherwise the domain is
    [upi_fraud]. *)
Theorem C9_keyword_fallback_in_fixed_order
    (state : State.t) (answer : string) (log : Log) :
  llm_invoke (ClassificationPrompt (State.user_input state)) = Ok answer ->
  ~ In (Py.lower (Py.strip answer)) valid_types ->
  exists state',
    classify_fraud_type state log
    = (Ok state', log ++ [ClassificationPrompt (State.user_input state)])
    /\ let text := Py.lower (State.user_input state) in
       let card := SomeWordIn ["transaction"; "amount"; "v1"; "v2"; "credit card"] text in
       let message := SomeWordIn ["message"; "sms"; "email"; "text"; "spam"] text in
       let link := SomeWordIn ["url"; "link"; "website"; "http"; "https"] text in
       (card -> State.fraud_type state' = "credit_card")
       /\ (~ card -> message -> State.fraud_type state' = "email_spam")
       /\ (~ card -> ~ message -> link -> State.fraud_type state' = "url_fraud")
       /\ (~ card -> ~ message -> ~ link -> State.fraud_type state' = "upi_fraud").
Proof.
  intros Hllm Hout. apply mem_false in Hout.
  unfold classify_fraud_type.
  rewrite (bind_ok _ _ _ _ _ (invoke_ok _ _ log Hllm)).
  rewrite Hout. cbn [negb]. unfold ret. eexists. split; [reflexivity|].
  cbn [State.fraud_type]. cbv zeta.
  rewrite <- !any_in_spec.
  destruct (Py.any_in ["transaction"; "amount"; "v1"; "v2"; "credit card"] _);
  destruct (Py.any_in ["message"; "sms"; "email"; "text"; "spam"] _);
  destruct (Py.any_in ["url"; "link"; "website"; "http"; "https"] _);
  repeat split; intros; try reflexivity; congruence.
Qed.

End DomainClassifier.

(** A run of C9: a vague domain answer for a text that mentions a link. *)
Lemma C9_witness :
  let state := initial_state "Please check this LINK for me" in
  llm_invoke (World := vague_world) (ClassificationPrompt (State.user_input state))
  = Ok "I am not sure."
  /\ ~ In (Py.lower (Py.strip "I am not sure.")) valid_types
  /\ exists state',
      classify_fraud_type (W := vague_world) state []
      = (Ok state', [ClassificationPrompt (State.user_input state)])
      /\ State.fraud_type state' = "url_fraud".
Proof.
  intros state.
  assert (Hout : ~ In (Py.lower (Py.strip "I am not sure.")) valid_types).
  { intros H. apply mem_spec in H. discriminate H. }
  split; [reflexivity|]. split; [exact Hout|].
  destruct (C9_keyword_fallback_in_fixed_order vague_world state "I am not sure."
              [] eq_refl Hout) as (state' & Hrun & _ & _ & Hlink & _).
  exists state'. split; [exact Hrun|].
  apply Hlink.
  - intros H. apply any_in_spec in H. discriminate H.
  - intros H. apply any_in_spec in H. discriminate H.
  - apply any_in_spec. reflexivity.
Defined.

(** ** The reasoning adapter *)

Section ReasoningAdapter.

Context (W : World).

Lemma use_llm_unavailable (ml : ML.t) :
  ML.model_available ml = false -> use_llm ml = true.
Proof. intros Ha. unfold use_llm. rewrite Ha. reflexivity. Qed.

Lemma llm_analysis_invoked (state : State.t) (ml : ML.t) (content : string)
    (log : Log) :
  State.ml_prediction state = Some ml ->
  use_llm ml = true ->
  llm_invoke (AnalysisPrompt (State.fraud_type state) (State.parsed_data state) ml)
  = Ok content ->
  exists state1,
    llm_analysis state log
    = (Ok state1,
       log ++ [AnalysisPrompt (State.fraud_type state) (State.parsed_data state) ml])
    /\ State.ml_prediction state1 = Some ml
    /\ State.llm_analysis state1 = read_llm_response content.
Proof.
  intros Hml Huse Hllm. unfold llm_analysis. rewrite Hml, Huse.
  eexists. split.
  - unfold bind at 1. unfold bind at 1.
    rewrite (invoke_ok _ _ log Hllm). reflexivity.
  - split; reflexivity.
Qed.

Lemma llm_analysis_raises (state : State.t) (ml : ML.t) (e : Exception)
    (log : Log) :
  State.ml_prediction state = Some ml ->
  use_llm ml = true ->
  llm_invoke (AnalysisPrompt (State.fraud_type state) (State.parsed_data state) ml)
  = Raise e ->
  llm_analysis state log
  = (Raise e,
     log ++ [AnalysisPrompt (State.fraud_type state) (State.parsed_data state) ml]).
Proof.
  intros Hml Huse Hllm. unfold llm_analysis. rewrite Hml, Huse.
  unfold bind at 1. unfold bind at 1.
  rewrite (invoke_raise _ _ log Hllm). reflexivity.
Qed.

(** C4, as the code has it: with no classifier opinion and an analysis
    answer that [json.loads] rejects, the verdict is the keyword guess with
    method [LLM_REASONING]: fraud with confidence 0.8 when the lowercased
    answer contains one of fraud, fraudulent, suspicious, malicious, spam,
    and not fraud with confidence 0.6 otherwise. *)
Theorem C4_prose_answer_keyword_guess
    (state : State.t) (ml : ML.t) (content : string) (log : Log) :
  State.ml_prediction state = Some ml ->
  ML.model_available ml = false ->
  llm_invoke (AnalysisPrompt (State.fraud_type state) (State.parsed_data state) ml)
  = Ok content ->
  loads_analysis (strip_code_fence content) = None ->
  let log1 :=
    log ++ [AnalysisPrompt (State.fraud_type state) (State.parsed_data state) ml] in
  exists state1 state2 v,
    llm_analysis state log = (Ok state1, log1)
    /\ generate_final_result state1 log1 = (Ok state2, log1)
    /\ State.final_result state2 = Some v
    /\ Verdict.detection_method v = "LLM_REASONING"
    /\ (SomeWordIn fraud_words (Py.lower content) ->
        Verdict.is_fraud v = true /\ Verdict.confidence v = 0.8%float)
    /\ (~ SomeWordIn fraud_words (Py.lower content) ->
        Verdict.is_fraud v = false /\ Verdict.confidence v = 0.6%float).
Proof.
  intros Hml Ha Hllm Hprose log1.
  destruct (llm_analysis_invoked state ml content log Hml
              (use_llm_unavailable ml Ha) Hllm)
    as (state1 & Hrun1 & Hml1 & Hllm1).
  destruct (generate_final_result_ok state1 ml log1 Hml1)
    as (state2 & v & r & Hrun2 & Hres & _ & Hfv & _).
  exists state1, state2, v.
  split; [exact Hrun1|]. split; [exact Hrun2|]. split; [exact Hres|].
  rewrite (final_verdict_unavailable W ml _ Ha) in Hfv.
  rewrite sanitize_is_fraud, sanitize_confidence, Hllm1 in Hfv.
  unfold read_llm_response in Hfv. rewrite Hprose in Hfv.
  cbn [LLM.is_fraud LLM.confidence default] in Hfv.
  destruct (Py.any_in fraud_words (Py.lower content)) eqn:Hguess;
    injection Hfv as H1 H2 H3 _; (split; [congruence|]); split; intros Hw.
  - split; congruence.
  - apply any_in_false in Hw. congruence.
  - apply any_in_spec in Hw. congruence.
  - split; congruence.
Qed.

(** C8, as the code has it: the analysis call is made outside the [try] of
    [llm_analysis], so when the reasoning service fails there the exception
    leaves the node and [detect_fraud] without any reasoning opinion; the
    text branch of [/api/detect] catches it and completes the request with
    the fixed result [is_fraud = False], [confidence = 0.0], risk level
    [N/A], method [QUERY_VALIDATOR]. *)
Theorem C8_analysis_failure_caught_by_endpoint
    (query : string) (e : Exception) (ml : ML.t)
    (log0 log1 log2 log3 : Log) (state1 state2 state3 : State.t) :
  validate_input (initial_state query) log0 = (Ok state1, log1) ->
  should_continue_to_fraud_detection state1 = "continue" ->
  classify_fraud_type state1 log1 = (Ok state2, log2) ->
  parse_input_data state2 log2 = (Ok state3, log3) ->
  State.ml_prediction (run_ml_model state3) = Some ml ->
  use_llm ml = true ->
  llm_invoke (AnalysisPrompt (State.fraud_type state3) (State.parsed_data state3) ml)
  = Raise e ->
  let log4 :=
    log3 ++ [AnalysisPrompt (State.fraud_type state3) (State.parsed_data state3) ml] in
  llm_analysis (run_ml_model state3) log3 = (Raise e, log4)
  /\ detect_fraud query log0 = (Raise e, log4)
  /\ exists v,
      api_detect_text query log0 = (Ok (Some v), log4)
      /\ Verdict.is_fraud v = false
      /\ Verdict.confidence v = 0.0%float
      /\ Verdict.risk_level v = "N/A"
      /\ Verdict.detection_method v = "QUERY_VALIDATOR"
      /\ Verdict.reasoning v
         = "Unable to process query. Input may be unclear or malformed.".
Proof.
  intros Hval Hcont Hcls Hparse Hml Huse Hllm log4.
  assert (Hnode : llm_analysis (run_ml_model state3) log3 = (Raise e, log4)).
  { destruct (run_ml_model_prediction W state3) as (ml' & Hml' & Hft & Hpd & _).
    pose proof (llm_analysis_raises (run_ml_model state3) ml e log3 Hml Huse) as H.
    rewrite Hft, Hpd in H. apply H. exact Hllm. }
  assert (Hdetect : detect_fraud query log0 = (Raise e, log4)).
  { unfold detect_fraud, graph_invoke.
    apply bind_raise.
    rewrite (bind_ok _ _ _ _ _ Hval). rewrite Hcont. cbn [String.eqb Ascii.eqb Bool.eqb].
    rewrite (bind_ok _ _ _ _ _ Hcls).
    rewrite (bind_ok _ _ _ _ _ Hparse).
    unfold bind at 1. unfold ret at 1.
    apply bind_raise. exact Hnode. }
  split; [exact Hnode|]. split; [exact Hdetect|].
  exists (detector_error_result (str_of_exception e)).
  unfold api_detect_text. rewrite Hdetect. repeat split; reflexivity.
Qed.

End ReasoningAdapter.

(** A run of C4: prose that names a suspicion. *)
Lemma C4_witness :
  let state := run_ml_model (W := suspicious_world) (parsed_state prize_query "email_spam") in
  let answer := "This looks SUSPICIOUS to me." in
  State.ml_prediction state = Some ml_llm_only
  /\ ML.model_available ml_llm_only = false
  /\ llm_invoke (World := suspicious_world)
       (AnalysisPrompt (State.fraud_type state) (State.parsed_data state) ml_llm_only)
     = Ok answer
  /\ loads_analysis (World := suspicious_world) (strip_code_fence answer) = None
  /\ exists state1 state2 v log1,
      llm_analysis (W := suspicious_world) state [] = (Ok state1, log1)
      /\ generate_final_result (W := suspicious_world) state1 log1 = (Ok state2, log1)
      /\ State.final_result state2 = Some v
      /\ Verdict.detection_method v = "LLM_REASONING"
      /\ Verdict.is_fraud v = true
      /\ Verdict.confidence v = 0.8%float.
Proof.
  intros state answer.
  split; [reflexivity|]. split; [reflexivity|]. split; [reflexivity|].
  split; [reflexivity|].
  destruct (C4_prose_answer_keyword_guess suspicious_world state ml_llm_only
              answer [] eq_refl eq_refl eq_refl eq_refl)
    as (state1 & state2 & v & Hrun1 & Hrun2 & Hres & Hmethod & Hyes & _).
  eexists state1, state2, v, _.
  split; [exact Hrun1|]. split; [exact Hrun2|]. split; [exact Hres|].
  split; [exact Hmethod|].
  apply Hyes. apply any_in_spec. reflexivity.
Defined.

(** C4 as stated fails: no classifier is registered, the domain is
    [email_spam], the analysis answer is prose that contains the word prize,
    and the verdict is not fraud with confidence 0.6: prize is not one of the
    words the adapter looks for. *)
Lemma C4_counterexample :
  @models prize_world = []
  /\ Py.contains "prize" prize_prose = true
  /\ loads_analysis (World := prize_world) (strip_code_fence prize_prose) = None
  /\ exists v log,
      run (detect_fraud (W := prize_world) prize_query) = (Ok (Some v), log)
      /\ In (AnalysisPrompt "email_spam" (RawInput prize_query) ml_llm_only) log
      /\ Verdict.fraud_type v = "email_spam"
      /\ Verdict.detection_method v = "LLM_REASONING"
      /\ Verdict.is_fraud v = false
      /\ Verdict.confidence v = 0.6%float
      /\ ~ (Verdict.is_fraud v = true /\ Verdict.confidence v = 0.8%float).
Proof.
  split; [reflexivity|]. split; [reflexivity|]. split; [reflexivity|].
  eexists _, _. split; [vm_compute; reflexivity|].
  split; [do 3 right; left; reflexivity|].
  repeat split; try reflexivity.
  intros [H _]. discriminate H.
Qed.

(** A run of C8: the reasoning service goes down before the analysis call. *)
Lemma C8_witness :
  exists state1 log1 state2 log2 state3 log3 ml e,
    validate_input (W := analysis_down_world) (initial_state prize_query) []
    = (Ok state1, log1)
    /\ should_continue_to_fraud_detection state1 = "continue"
    /\ classify_fraud_type (W := analysis_down_world) state1 log1 = (Ok state2, log2)
    /\ parse_input_data (W := analysis_down_world) state2 log2 = (Ok state3, log3)
    /\ State.ml_prediction (run_ml_model (W := analysis_down_world) state3) = Some ml
    /\ use_llm ml = true
    /\ llm_invoke (World := analysis_down_world)
         (AnalysisPrompt (State.fraud_type state3) (State.parsed_data state3) ml)
       = Raise e
    /\ fst (detect_fraud (W := analysis_down_world) prize_query []) = Raise e
    /\ exists v log4,
        api_detect_text (H := analysis_down_world) prize_query [] = (Ok (Some v), log4)
        /\ Verdict.is_fraud v = false
        /\ Verdict.confidence v = 0.0%float.
Proof.
  eexists _, _, _, _, _, _, _, _.
  split; [vm_compute; reflexivity|]. split; [reflexivity|].
  split; [vm_compute; reflexivity|]. split; [vm_compute; reflexivity|].
  split; [vm_compute; reflexivity|]. split; [reflexivity|].
  split; [reflexivity|].
  destruct (C8_analysis_failure_caught_by_endpoint analysis_down_world prize_query
              (Error "503 Service Unavailable") ml_llm_only
              [] _ _ _ _ _ _ eq_refl eq_refl eq_refl eq_refl eq_refl eq_refl eq_refl)
    as (_ & Hdetect & v & Hapi & Hfraud & Hconf & _).
  split; [rewrite Hdetect; reflexivity|].
  eexists v, _. split; [exact Hapi|]. split; [exact Hfraud | exact Hconf].
Defined.

(** C8 as stated fails: the reasoning service is down at the analysis call,
    [llm_analysis] raises instead of returning an opinion, and so does
    [detect_fraud]. *)
Lemma C8_counterexample :
  let state := run_ml_model (W := analysis_down_world)
                 (parsed_state prize_query "email_spam") in
  llm_analysis (W := analysis_down_world) state []
  = (Raise (Error "503 Service Unavailable"),
     [AnalysisPrompt "email_spam" (RawInput prize_query) ml_llm_only])
  /\ (forall state1 log1,
         llm_analysis (W := analysis_down_world) state [] <> (Ok state1, log1))
  /\ fst (run (detect_fraud (W := analysis_down_world) prize_query))
     = Raise (Error "503 Service Unavailable").
Proof.
  intros state. split; [vm_compute; reflexivity|]. split.
  - intros state1 log1 H. vm_compute in H. discriminate H.
  - vm_compute. reflexivity.
Qed.

(** ** The input gate *)

Section InputGate.

Context (W : World).

(** [validate_input] makes its call before anything else, whatever the text. *)
Lemma validate_input_calls (state : State.t) (log : Log) :
  snd (validate_input state log) = log ++ [ValidationPrompt (State.user_input state)].
Proof.
  unfold validate_input, bind, invoke, ret.
  destruct (llm_invoke (ValidationPrompt (State.user_input state))); reflexivity.
Qed.

Lemma validate_input_raises (state : State.t) (e : Exception) (log : Log) :
  llm_invoke (ValidationPrompt (State.user_input state)) = Raise e ->
  validate_input state log
  = (Raise e, log ++ [ValidationPrompt (State.user_input state)]).
Proof.
  intros Hllm. unfold validate_input.
  apply bind_raise. apply invoke_raise. exact Hllm.
Qed.

(** C10, as the code has it: once the call of [validate_input] has returned,
    a request that it classifies as conversational, off-topic or garbage, and
    one whose answer cannot be parsed, ends at that node with the result
    [is_fraud = False], [confidence = 1.0], method [CONVERSATIONAL_AI] and
    risk level [N/A], which is none of LOW, MEDIUM, HIGH, CRITICAL; no other
    call is made. *)
Theorem C10_gate_short_circuit_result (query content : string) (log : Log) :
  llm_invoke (ValidationPrompt query) = Ok content ->
  (loads_validation (_clean_response_text content) = None
   \/ exists answer,
       loads_validation (_clean_response_text content) = Some answer
       /\ default false (Validation.is_fraud_request answer) = false
       /\ In (Py.lower (default "CONVERSATION" (Validation.category answer)))
             ["conversation"; "off_topic"; "garbage"]) ->
  exists v,
    detect_fraud query log = (Ok (Some v), log ++ [ValidationPrompt query])
    /\ Verdict.is_fraud v = false
    /\ Verdict.confidence v = 1.0%float
    /\ Verdict.detection_method v = "CONVERSATIONAL_AI"
    /\ Verdict.risk_level v = "N/A"
    /\ ~ In (Verdict.risk_level v) risk_tiers.
Proof.
  intros Hllm Hgate.
  assert (Hna : ~ In "N/A" risk_tiers).
  { intros H. apply mem_spec in H. discriminate H. }
  unfold detect_fraud, graph_invoke, validate_input.
  cbn [initial_state State.user_input].
  destruct Hgate as [Hnone | (answer & Hsome & Hreq & Hcat)].
  - eexists. split.
    + unfold bind at 1. unfold bind at 1. unfold bind at 1.
      rewrite (invoke_ok _ _ log Hllm). unfold ret at 1.
      rewrite Hnone. reflexivity.
    + cbn. repeat split; try reflexivity. exact Hna.
  - eexists. split.
    + unfold bind at 1. unfold bind at 1. unfold bind at 1.
      rewrite (invoke_ok _ _ log Hllm). unfold ret at 1.
      rewrite Hsome, Hreq. cbn [negb].
      unfold should_continue_to_fraud_detection. cbn [State.fraud_type].
      assert (Hend : mem (Py.lower (default "CONVERSATION" (Validation.category answer)))
                       ["greeting"; "capability"; "capability_query"; "off_topic";
                        "invalid_query"; "conversation"; "garbage"] = true).
      { destruct Hcat as [H | [H | [H | []]]]; rewrite <- H; reflexivity. }
      rewrite Hend. reflexivity.
    + cbn. repeat split; try reflexivity. exact Hna.
Qed.

End InputGate.

(** A run of C10: the answer to the validation prompt is prose. *)
Lemma C10_witness :
  llm_invoke (World := chatty_world) (ValidationPrompt "hi")
  = Ok "Hello! How can I help?"
  /\ loads_validation (World := chatty_world)
       (_clean_response_text "Hello! How can I help?") = None
  /\ exists v,
      detect_fraud (W := chatty_world) "hi" [] = (Ok (Some v), [ValidationPrompt "hi"])
      /\ Verdict.is_fraud v = false
      /\ Verdict.confidence v = 1.0%float
      /\ Verdict.detection_method v = "CONVERSATIONAL_AI"
      /\ Verdict.risk_level v = "N/A".
Proof.
  split; [reflexivity|]. split; [reflexivity|].
  destruct (C10_gate_short_circuit_result chatty_world "hi" "Hello! How can I help?"
              [] eq_refl (or_introl eq_refl))
    as (v & Hrun & Hfraud & Hconf & Hmethod & Hrisk & _).
  exists v. split; [exact Hrun|]. split; [exact Hfraud|]. split; [exact Hconf|].
  split; [exact Hmethod | exact Hrisk].
Defined.

(** C10 as stated fails where it covers a failing call: the reasoning
    service is down at the first call, [validate_input] raises, and no result at all
    comes back from [detect_fraud]. *)
Lemma C10_counterexample :
  llm_invoke (World := gate_down_world) (ValidationPrompt "hi")
  = Raise (Error "503 Service Unavailable")
  /\ validate_input (W := gate_down_world) (initial_state "hi") []
     = (Raise (Error "503 Service Unavailable"), [ValidationPrompt "hi"])
  /\ detect_fraud (W := gate_down_world) "hi" []
     = (Raise (Error "503 Service Unavailable"), [ValidationPrompt "hi"])
  /\ forall v log, detect_fraud (W := gate_down_world) "hi" [] <> (Ok (Some v), log).
Proof.
  split; [reflexivity|]. split; [reflexivity|]. split; [reflexivity|].
  intros v log H. vm_compute in H. discriminate H.
Qed.

(** ** The streaming presenter *)











(** ** The advisor's input validator *)

Lemma count_if_le_len (p : N -> bool) (s : list N) :
  Str.count_if p s <= Str.len s.
Proof.
  unfold Str.len. induction s as [|c r IH]; simpl; [lia|]. destruct (p c); lia.
Qed.

Lemma count_if_mono (p q : N -> bool) (s : list N) :
  (forall c, p c = true -> q c = true) -> Str.count_if p s <= Str.count_if q s.
Proof.
  intros Hpq. induction s as [|c r IH]; simpl; [lia|].
  destruct (p c) eqn:E; [rewrite (Hpq c E)|destruct (q c)]; lia.
Qed.

(** [len(query.replace(' ', ''))] counts the characters other than the space. *)
Lemma len_remove_blank (s : list N) :
  Str.len (Str.remove 32 s) = Str.count_if not_blank s.
Proof.
  unfold Str.len, Str.remove. induction s as [|c r IH]; [reflexivity|].
  cbn [filter Str.count_if]. unfold not_blank at 1.
  destruct (N.eqb c 32); cbn [negb length]; rewrite IH; reflexivity.
Qed.

Lemma existsb_of_count (p : N -> bool) (c : N) (s : list N) :
  p c = true -> 0 < Str.count_char c s -> existsb p s = true.
Proof.
  intros Hp. unfold Str.count_char.
  induction s as [|d r IH]; cbn [Str.count_if existsb]; [lia|].
  destruct (N.eqb_spec c d) as [<-|Hne].
  - intros _. rewrite Hp. reflexivity.
  - intros H. rewrite IH by lia. apply orb_true_r.
Qed.

Lemma In_zrange (n : nat) (start z : Z) :
  In z (zrange n start) <-> (start <= z < start + Z.of_nat n)%Z.
Proof.
  revert start. induction n as [|n IH]; intros start; cbn [zrange In].
  - lia.
  - rewrite IH. lia.
Qed.

Lemma ratio_tests_agree_500 : ratio_tests_agree 500 = true.
Proof. vm_compute. reflexivity. Qed.

(** On counts up to 500 the float tests of the validator decide the exact
    inequalities. *)
Lemma ratio_tests (a t : nat) :
  1 <= t <= 500 -> a <= 500 ->
  Py.lt (Py.of_nat a / Py.of_nat t)%float 0.5%float = (2 * a <? t)
  /\ Py.gt (Py.of_nat a / Py.of_nat t)%float 0.7%float = (7 * t <? 10 * a)
  /\ Py.gt (Py.of_nat a) (Py.of_nat t * 0.4)%float = (2 * t <? 5 * a).
Proof.
  intros Ht Ha. pose proof ratio_tests_agree_500 as H.
  unfold ratio_tests_agree in H. rewrite forallb_forall in H.
  specialize (H (Z.of_nat t)). rewrite In_zrange in H.
  assert (Hin : (1 <= Z.of_nat t < 1 + Z.of_nat 500)%Z) by lia.
  specialize (H Hin). rewrite forallb_forall in H.
  specialize (H (Z.of_nat a)). rewrite In_zrange in H.
  assert (Hin' : (0 <= Z.of_nat a < 0 + Z.of_nat 501)%Z) by lia.
  specialize (H Hin').
  apply andb_prop in H. destruct H as [H H3].
  apply andb_prop in H. destruct H as [H1 H2].
  apply eqb_prop in H1, H2, H3. unfold Py.of_nat.
  rewrite H1, H2, H3. repeat split.
  - destruct (Z.ltb_spec (2 * Z.of_nat a) (Z.of_nat t)),
             (Nat.ltb_spec (2 * a) t); try reflexivity; lia.
  - destruct (Z.ltb_spec (7 * Z.of_nat t) (10 * Z.of_nat a)),
             (Nat.ltb_spec (7 * t) (10 * a)); try reflexivity; lia.
  - destruct (Z.ltb_spec (2 * Z.of_nat t) (5 * Z.of_nat a)),
             (Nat.ltb_spec (2 * t) (5 * a)); try reflexivity; lia.
Qed.

Lemma repeat_test_agrees_500 : repeat_test_agrees 500 = true.
Proof. vm_compute. reflexivity. Qed.

(** The test of the repeated letter decides the exact inequality, also when
    lowercasing made the text longer. *)
Lemma repeat_test (a t : nat) :
  t <= 500 -> a <= 1500 ->
  Py.gt (Py.of_nat a) (Py.of_nat t * 0.4)%float = (2 * t <? 5 * a).
Proof.
  intros Ht Ha. pose proof repeat_test_agrees_500 as H.
  unfold repeat_test_agrees in H. rewrite forallb_forall in H.
  specialize (H (Z.of_nat t)). rewrite In_zrange in H.
  assert (Hin : (0 <= Z.of_nat t < 0 + Z.of_nat 501)%Z) by lia.
  specialize (H Hin). rewrite forallb_forall in H.
  specialize (H (Z.of_nat a)). rewrite In_zrange in H.
  assert (Hin' : (0 <= Z.of_nat a < 0 + Z.of_nat (S (3 * 500)))%Z) by lia.
  specialize (H Hin'). apply eqb_prop in H. unfold Py.of_nat. rewrite H.
  destruct (Z.ltb_spec (2 * Z.of_nat t) (5 * Z.of_nat a)),
           (Nat.ltb_spec (2 * t) (5 * a)); try reflexivity; lia.
Qed.

Section Validator.

Context {U : Unicode}.

Lemma space_is_no_letter : str_isalpha 32 = false.
Proof. rewrite isalpha_ascii by reflexivity. reflexivity. Qed.

Lemma space_is_no_digit : str_isdigit 32 = false.
Proof. rewrite isdigit_ascii by reflexivity. reflexivity. Qed.

Lemma isalpha_not_blank (c : N) : str_isalpha c = true -> not_blank c = true.
Proof.
  unfold not_blank. destruct (N.eqb_spec c 32) as [->|Hne]; [|reflexivity].
  rewrite space_is_no_letter. discriminate.
Qed.

Lemma isdigit_not_blank (c : N) : str_isdigit c = true -> not_blank c = true.
Proof.
  unfold not_blank. destruct (N.eqb_spec c 32) as [->|Hne]; [|reflexivity].
  rewrite space_is_no_digit. discriminate.
Qed.

Lemma letters_and_digits (s : list N) :
  Str.count_if str_isalpha s + Str.count_if str_isdigit s
  <= Str.count_if not_blank s.
Proof.
  induction s as [|c r IH]; cbn [Str.count_if]; [lia|].
  destruct (str_isalpha c) eqn:Ea.
  - rewrite (letter_is_no_digit _ Ea), (isalpha_not_blank _ Ea). lia.
  - destruct (str_isdigit c) eqn:Ed.
    + rewrite (isdigit_not_blank _ Ed). lia.
    + destruct (not_blank c); lia.
Qed.

Lemma count_lstrip (s : list N) :
  Str.count_if nonspace (Str.lstrip s) = Str.count_if nonspace s.
Proof.
  induction s as [|c r IH]; [reflexivity|]. cbn [Str.lstrip].
  destruct (str_isspace c) eqn:E; [|reflexivity].
  cbn [Str.count_if]. unfold nonspace at 2. rewrite E. exact IH.
Qed.

Lemma rstrip_empty (s : list N) :
  Str.count_if nonspace s = 0 -> Str.rstrip s = [].
Proof.
  induction s as [|c r IH]; [reflexivity|]. cbn [Str.rstrip Str.count_if].
  unfold nonspace at 1. destruct (str_isspace c); cbn [negb]; [|lia].
  intros H. rewrite IH by exact H. reflexivity.
Qed.

Lemma count_rstrip (s : list N) :
  Str.count_if nonspace (Str.rstrip s) = Str.count_if nonspace s.
Proof.
  induction s as [|c r IH]; [reflexivity|]. cbn [Str.rstrip Str.count_if].
  destruct (Str.rstrip r) as [|d r'] eqn:E.
  - rewrite <- IH. cbn [Str.count_if]. unfold nonspace at 2.
    destruct (str_isspace c) eqn:Ec; cbn [negb Str.count_if]; [reflexivity|].
    unfold nonspace at 1. rewrite Ec. reflexivity.
  - rewrite <- IH. reflexivity.
Qed.

(** A trimmed text of two or more characters has two non-whitespace ones. *)
Lemma strip_short (s : list N) :
  Str.count_if nonspace s < 2 -> Str.len (Str.strip s) < 2.
Proof.
  intros Hcount. unfold Str.strip, Str.len.
  rewrite <- count_lstrip in Hcount.
  assert (Hhead : match Str.lstrip s with
                  | [] => True
                  | c :: _ => nonspace c = true
                  end).
  { clear Hcount. induction s as [|c r IH]; [exact I|]. cbn [Str.lstrip].
    destruct (str_isspace c) eqn:E; [exact IH|]. unfold nonspace. rewrite E.
    reflexivity. }
  destruct (Str.lstrip s) as [|c r]; [simpl; lia|].
  cbn [Str.count_if] in Hcount. rewrite Hhead in Hcount.
  cbn [Str.rstrip]. rewrite (rstrip_empty r) by lia.
  destruct (str_isspace c); simpl; lia.
Qed.

Lemma strip_count (s : list N) :
  Str.count_if nonspace s <= Str.len (Str.strip s).
Proof.
  unfold Str.strip. rewrite <- (count_lstrip s), <- (count_rstrip (Str.lstrip s)).
  apply count_if_le_len.
Qed.

(** The counts the validator compares, within the range of the checked
    tests once the text has at most 500 characters. *)
Lemma lowered_count (c : N) (text : list N) :
  Str.len text <= 500 -> Str.count_char c (str_lower text) <= 1500.
Proof.
  intros Hlen. pose proof (count_if_le_len (N.eqb c) (str_lower text)) as Hle.
  pose proof (lower_length text) as H3. unfold Str.len, Str.count_char in *. lia.
Qed.

Lemma validate_rejects (query : string) :
  degenerate query -> fst (InputValidator.validate query) = false.
Proof.
  intros Hdeg. unfold degenerate in Hdeg. unfold InputValidator.validate.
  set (text := Str.of_string query) in *. cbv zeta in Hdeg.
  destruct (Str.len (Str.strip text) <? 2) eqn:E1; [reflexivity|].
  destruct (500 <? Str.len text) eqn:E2; [reflexivity|].
  apply Nat.ltb_ge in E1, E2.
  rewrite len_remove_blank.
  set (alpha := Str.count_if str_isalpha text) in *.
  set (total := Str.count_if not_blank text) in *.
  set (digits := Str.count_if str_isdigit text) in *.
  assert (Htotal : total <= 500)
    by (pose proof (count_if_le_len not_blank text); lia).
  assert (Halpha : alpha <= total)
    by (apply count_if_mono, isalpha_not_blank).
  assert (Hdigits : digits <= total)
    by (apply count_if_mono, isdigit_not_blank).
  destruct ((0 <? total) && Py.lt (Py.of_nat alpha / Py.of_nat total) 0.5)
    eqn:E3; [reflexivity|].
  destruct ((5 <? Str.len text) && existsb _ (str_lower text))
    eqn:E4; [reflexivity|].
  destruct ((0 <? total) && Py.gt (Py.of_nat digits / Py.of_nat total) 0.7)
    eqn:E5; [reflexivity|].
  exfalso.
  destruct Hdeg as [H | [H | [H | [[Hlen (c & Hc & Hrep)] | H]]]].
  - apply strip_short in H. lia.
  - lia.
  - destruct (ratio_tests alpha total) as (Hhalf & _ & _); [lia|lia|].
    rewrite Hhalf in E3.
    replace (0 <? total) with true in E3 by (symmetry; apply Nat.ltb_lt; lia).
    replace (2 * alpha <? total) with true in E3
      by (symmetry; apply Nat.ltb_lt; lia).
    discriminate E3.
  - replace (5 <? Str.len text) with true in E4
      by (symmetry; apply Nat.ltb_lt; lia).
    cbn [andb] in E4.
    rewrite (existsb_of_count _ c) in E4; [discriminate E4| |lia].
    rewrite Hc. cbn [andb].
    rewrite (repeat_test _ _ E2 (lowered_count c text E2)).
    apply Nat.ltb_lt. exact Hrep.
  - destruct (ratio_tests digits total) as (_ & Hseventy & _); [lia|lia|].
    rewrite Hseventy in E5.
    replace (0 <? total) with true in E5 by (symmetry; apply Nat.ltb_lt; lia).
    replace (7 * total <? 10 * digits) with true in E5
      by (symmetry; apply Nat.ltb_lt; lia).
    discriminate E5.
Qed.

Lemma validate_reason (query reason : string) :
  InputValidator.validate query = (false, reason) ->
  In reason ["too_short"; "too_long"; "gibberish"; "repeated_chars"; "mostly_numbers"].
Proof.
  unfold InputValidator.validate.
  repeat match goal with
         | |- context [if ?b then _ else _] => destruct b
         end;
    intros H; inversion H; subst; simpl; tauto.
Qed.

End Validator.

(** *** ASCII texts: every database agrees *)

Lemma of_string_ascii (s : string) :
  is_ascii s = true ->
  forallb (fun c => (c <? 128)%N) (Str.of_string s) = true.
Proof.
  unfold is_ascii, Str.of_string.
  induction s as [|b r IH]; [reflexivity|].
  cbn [Py.forall_char Str.decode]. intros H.
  apply andb_prop in H as [Hb Hr]. rewrite Hb. cbn [forallb].
  rewrite Hb. exact (IH Hr).
Qed.

Lemma lower_char_ascii (c : N) :
  (c < 128)%N -> (N_of_ascii (Py.lower_char (ascii_of_N c)) <? 128)%N = true.
Proof.
  intros Hc.
  assert (Hall : forallb (fun n => (N_of_ascii (Py.lower_char (ascii_of_N n)) <? 128)%N)
                         (map N.of_nat (seq 0 128)) = true)
    by (vm_compute; reflexivity).
  rewrite forallb_forall in Hall. apply Hall.
  apply in_map_iff. exists (N.to_nat c). split; [apply N2Nat.id|].
  apply in_seq. lia.
Qed.

Section AsciiTexts.

Context (U V : Unicode).

Lemma lstrip_agree (s : list N) :
  forallb (fun c => (c <? 128)%N) s = true ->
  @Str.lstrip U s = @Str.lstrip V s.
Proof.
  induction s as [|c r IH]; [reflexivity|]. cbn [forallb Str.lstrip]. intros H.
  apply andb_prop in H as [Hc Hr]. apply N.ltb_lt in Hc.
  rewrite (@isspace_ascii U c Hc), (@isspace_ascii V c Hc), (IH Hr). reflexivity.
Qed.

Lemma rstrip_agree (s : list N) :
  forallb (fun c => (c <? 128)%N) s = true ->
  @Str.rstrip U s = @Str.rstrip V s.
Proof.
  induction s as [|c r IH]; [reflexivity|]. cbn [forallb Str.rstrip]. intros H.
  apply andb_prop in H as [Hc Hr]. apply N.ltb_lt in Hc.
  rewrite (@isspace_ascii U c Hc), (@isspace_ascii V c Hc), (IH Hr). reflexivity.
Qed.

Lemma lstrip_keeps_ascii (s : list N) :
  forallb (fun c => (c <? 128)%N) s = true ->
  forallb (fun c => (c <? 128)%N) (@Str.lstrip V s) = true.
Proof.
  induction s as [|c r IH]; [reflexivity|]. cbn [Str.lstrip]. intros H.
  destruct (@str_isspace V c); [|exact H].
  cbn [forallb] in H. apply andb_prop in H as [_ Hr]. exact (IH Hr).
Qed.

Lemma count_if_agree (p q : N -> bool) (s : list N) :
  (forall c, (c < 128)%N -> p c = q c) ->
  forallb (fun c => (c <? 128)%N) s = true ->
  Str.count_if p s = Str.count_if q s.
Proof.
  intros Hpq. induction s as [|c r IH]; [reflexivity|].
  cbn [forallb Str.count_if]. intros H.
  apply andb_prop in H as [Hc Hr]. apply N.ltb_lt in Hc.
  rewrite (Hpq c Hc), (IH Hr). reflexivity.
Qed.

Lemma existsb_agree (p q : N -> bool) (s : list N) :
  (forall c, (c < 128)%N -> p c = q c) ->
  forallb (fun c => (c <? 128)%N) s = true ->
  existsb p s = existsb q s.
Proof.
  intros Hpq. induction s as [|c r IH]; [reflexivity|].
  cbn [forallb existsb]. intros H.
  apply andb_prop in H as [Hc Hr]. apply N.ltb_lt in Hc.
  rewrite (Hpq c Hc), (IH Hr). reflexivity.
Qed.

Lemma lower_agree (s : list N) :
  forallb (fun c => (c <? 128)%N) s = true ->
  @str_lower U s = @str_lower V s
  /\ forallb (fun c => (c <? 128)%N) (@str_lower V s) = true.
Proof.
  intros H. rewrite (@lower_ascii U s H), (@lower_ascii V s H).
  split; [reflexivity|].
  induction s as [|c r IH]; [reflexivity|]. cbn [forallb map] in *.
  apply andb_prop in H as [Hc Hr]. apply N.ltb_lt in Hc.
  rewrite (lower_char_ascii c Hc). exact (IH Hr).
Qed.

(** On an ASCII text the validator answers the same whatever the database
    says of the other characters. *)
Lemma validate_on_ascii (query : string) :
  is_ascii query = true ->
  @InputValidator.validate U query = @InputValidator.validate V query.
Proof.
  intros Hascii. apply of_string_ascii in Hascii.
  unfold InputValidator.validate.
  set (text := Str.of_string query) in *.
  unfold Str.strip.
  rewrite (lstrip_agree text Hascii).
  rewrite (rstrip_agree _ (lstrip_keeps_ascii text Hascii)).
  destruct (lower_agree text Hascii) as (-> & Hlower).
  rewrite (count_if_agree (@str_isalpha U) (@str_isalpha V) text)
    by first [exact Hascii
             | intros c Hc; rewrite !isalpha_ascii by exact Hc; reflexivity].
  rewrite (count_if_agree (@str_isdigit U) (@str_isdigit V) text)
    by first [exact Hascii
             | intros c Hc; rewrite !isdigit_ascii by exact Hc; reflexivity].
  rewrite (existsb_agree
             (fun char =>
                @str_isalpha U char
                && Py.gt (Py.of_nat (Str.count_char char (@str_lower V text)))
                         (Py.of_nat (Str.len text) * 0.4)%float)
             (fun char =>
                @str_isalpha V char
                && Py.gt (Py.of_nat (Str.count_char char (@str_lower V text)))
                         (Py.of_nat (Str.len text) * 0.4)%float)
             (@str_lower V text)).
  - reflexivity.
  - intros c Hc. rewrite !isalpha_ascii by exact Hc. reflexivity.
  - exact Hlower.
Qed.

End AsciiTexts.

(** A text of six ideographs is six letters, not eighteen bytes: with a
    database that knows them the validator accepts it. *)
Lemma validate_ideographs :
  Str.of_string ni_hao = [20320; 22909; 19990; 30028; 20320; 22909]%N
  /\ InputValidator.validate (H := han_and_ascii) ni_hao = (true, "valid").
Proof. split; vm_compute; reflexivity. Qed.

Section AdvisorGate.

Context (W : World) {U : Unicode}.

Lemma get_advice_invalid (query reason : string) (log : Log) :
  InputValidator.validate query = (false, reason) ->
  get_advice query log
  = (Ok {| advice_query_type := "invalid";
           advice_topic := "";
           advice_formatted_response :=
             ResponseTemplates.get_invalid_input_message reason |},
     log).
Proof.
  intros Hval. unfold get_advice, advisor_graph_invoke, advisor_validate_input.
  cbn [advisor_initial_state AdvisorState.user_query]. rewrite Hval.
  reflexivity.
Qed.

(** C3, as the code has it: the degenerate-text check is the advisor's
    [InputValidator], not [validate_input] of the detection workflow. Every text
    that has fewer than two non-whitespace characters, or more than 500
    characters, or letters for less than half of its characters other than
    the space, or, being longer than five characters, a letter that makes up
    (case ignored) more than 40% of its length, or digits for more than 70%
    of its characters other than the space, is rejected: [get_advice]
    answers with query type [invalid] and a canned clarification message,
    and calls the reasoning service not once.  Characters are the code
    points of the text, letters, digits and whitespace those of the Unicode
    database, whatever it is. *)
Theorem C3_advisor_rejects_degenerate_text (query : string) (log : Log) :
  degenerate query ->
  exists reason,
    InputValidator.validate query = (false, reason)
    /\ In (ResponseTemplates.get_invalid_input_message reason) canned_messages
    /\ get_advice query log
       = (Ok {| advice_query_type := "invalid";
                advice_topic := "";
                advice_formatted_response :=
                  ResponseTemplates.get_invalid_input_message reason |},
          log).
Proof.
  intros Hdeg. pose proof (validate_rejects query Hdeg) as Hfst.
  destruct (InputValidator.validate query) as [is_valid reason] eqn:Hval.
  cbn [fst] in Hfst. subst is_valid. exists reason.
  split; [reflexivity|]. split.
  - unfold canned_messages. apply in_map. apply (validate_reason query). exact Hval.
  - apply get_advice_invalid. exact Hval.
Qed.

End AdvisorGate.

(** A run of C3: the text of ten a's. *)
Lemma C3_witness :
  degenerate (H := ascii_only) "aaaaaaaaaa"
  /\ InputValidator.validate (H := ascii_only) "aaaaaaaaaa"
     = (false, "repeated_chars")
  /\ exists reason,
      get_advice (W := prize_world) (U := ascii_only) "aaaaaaaaaa" []
      = (Ok {| advice_query_type := "invalid";
               advice_topic := "";
               advice_formatted_response :=
                 ResponseTemplates.get_invalid_input_message reason |},
         []).
Proof.
  assert (Hdeg : degenerate (H := ascii_only) "aaaaaaaaaa").
  { right. right. right. left. split; [simpl; lia|].
    exists 97%N. split; [reflexivity | simpl; lia]. }
  split; [exact Hdeg|]. split; [reflexivity|].
  destruct (C3_advisor_rejects_degenerate_text prize_world (U := ascii_only)
              "aaaaaaaaaa" [] Hdeg)
    as (reason & _ & _ & Hrun).
  exists reason. exact Hrun.
Defined.

(** C3 as stated fails on both counts. [validate_input] of the detection workflow has
    no check of its own: on the text of ten a's it calls the reasoning
    service. And the advisor's validator accepts a text in which one
    character, the exclamation mark, makes up more than 40% of the length
    (an ASCII text: by [validate_on_ascii] every database accepts it). *)
Lemma C3_counterexample :
  snd (run (validate_input (W := chatty_world) (initial_state "aaaaaaaaaa")))
  = [ValidationPrompt "aaaaaaaaaa"]
  /\ snd (run (detect_fraud (W := chatty_world) "aaaaaaaaaa")) <> []
  /\ 2 * Str.len (Str.of_string "ab!!!cd")
     < 5 * Str.count_char 33 (Str.of_string "ab!!!cd")
  /\ InputValidator.validate (H := ascii_only) "ab!!!cd" = (true, "valid").
Proof.
  split; [reflexivity|]. split; [discriminate|].
  split; [simpl; lia | reflexivity].
Qed.

(** * Further properties of the code *)

(** ** The detection workflow as a whole *)

Section Workflow.

Context (W : World).

Lemma classify_fraud_type_calls (state : State.t) (log : Log) :
  snd (classify_fraud_type state log)
  = log ++ [ClassificationPrompt (State.user_input state)].
Proof.
  unfold classify_fraud_type, bind, invoke, ret.
  destruct (llm_invoke (ClassificationPrompt (State.user_input state))); reflexivity.
Qed.

Lemma parse_input_data_calls (state : State.t) (log : Log) :
  snd (parse_input_data state log)
  = log ++ [ParsingPrompt (State.fraud_type state) (State.user_input state)].
Proof.
  unfold parse_input_data, bind, invoke, ret.
  destruct (llm_invoke (ParsingPrompt (State.fraud_type state) (State.user_input state)));
    reflexivity.
Qed.

Lemma llm_analysis_calls (state : State.t) (log : Log) :
  snd (llm_analysis state log) = log
  \/ exists ml,
      snd (llm_analysis state log)
      = log ++ [AnalysisPrompt (State.fraud_type state) (State.parsed_data state) ml].
Proof.
  unfold llm_analysis. destruct (State.ml_prediction state) as [ml|]; [|left; reflexivity].
  destruct (use_llm ml); [right; exists ml | left; reflexivity].
  unfold bind, invoke, ret.
  destruct (llm_invoke (AnalysisPrompt (State.fraud_type state)
                          (State.parsed_data state) ml)); reflexivity.
Qed.

Lemma llm_analysis_keeps_prediction (state state' : State.t) (log log' : Log) :
  llm_analysis state log = (Ok state', log') ->
  exists ml, State.ml_prediction state' = Some ml.
Proof.
  unfold llm_analysis. destruct (State.ml_prediction state) as [ml|];
    [|discriminate].
  intros H. exists ml. unfold bind, ret in H.
  destruct (use_llm ml).
  - unfold invoke in H.
    destruct (llm_invoke _); inversion H; reflexivity.
  - inversion H; reflexivity.
Qed.

Lemma generate_final_result_calls (state : State.t) (log : Log) :
  snd (generate_final_result state log) = log.
Proof.
  destruct (State.ml_prediction state) as [ml|] eqn:E.
  - destruct (generate_final_result_ok state ml log E) as (s & v & r & H & _).
    rewrite H. reflexivity.
  - unfold generate_final_result. rewrite E. reflexivity.
Qed.

(** What the gate leaves behind when its call has returned: either a
    conversational result, or the state untouched but for the messages. *)
Lemma validate_input_outcome (state state' : State.t) (log log' : Log) :
  validate_input state log = (Ok state', log') ->
  (exists v,
      State.final_result state' = Some v
      /\ Verdict.detection_method v = "CONVERSATIONAL_AI"
      /\ Verdict.risk_level v = "N/A"
      /\ Verdict.is_fraud v = false)
  \/ (State.fraud_type state' = State.fraud_type state
      /\ State.final_result state' = State.final_result state
      /\ State.user_input state' = State.user_input state).
Proof.
  unfold validate_input, bind, invoke, ret.
  destruct (llm_invoke (ValidationPrompt (State.user_input state))); [|discriminate].
  intros H. injection H as <- _.
  destruct (loads_validation (_clean_response_text a)) as [answer|].
  - destruct (default false (Validation.is_fraud_request answer)); cbn [negb].
    + right. repeat split; reflexivity.
    + left. eexists. split; [reflexivity|]. repeat split; reflexivity.
  - left. eexists. split; [reflexivity|]. repeat split; reflexivity.
Qed.

Lemma final_verdict_method (ml : ML.t) (llm : LLM.t) :
  In (snd (fst (final_verdict ml llm)))
     ["ML_MODEL"; "LLM_REASONING"; "HYBRID"; "FALLBACK"].
Proof.
  unfold final_verdict.
  destruct (ML.model_available ml && Py.ge (ML.confidence ml) 0.7); [simpl; tauto|].
  destruct (LLM.is_fraud llm); [simpl; tauto|].
  destruct (ML.model_available ml); simpl; tauto.
Qed.

Lemma risk_tier_values (is_fraud : bool) (c : float) :
  In (risk_tier is_fraud c) risk_tiers.
Proof.
  unfold risk_tier, risk_tiers. destruct is_fraud; [|simpl; tauto].
  destruct (PrimFloat.leb 0.9 c); [simpl; tauto|].
  destruct (PrimFloat.leb 0.75 c); [simpl; tauto|].
  destruct (PrimFloat.leb 0.6 c); simpl; tauto.
Qed.

(** The two ways [graph_invoke] can return. *)
Lemma graph_invoke_outcome (query : string) (final : State.t) (log log' : Log) :
  graph_invoke (initial_state query) log = (Ok final, log') ->
  (exists v,
      State.final_result final = Some v
      /\ Verdict.detection_method v = "CONVERSATIONAL_AI"
      /\ Verdict.risk_level v = "N/A"
      /\ Verdict.is_fraud v = false)
  \/ (exists state ml log0,
         State.ml_prediction state = Some ml
         /\ generate_final_result state log0 = (Ok final, log')).
Proof.
  unfold graph_invoke. unfold bind at 1.
  destruct (validate_input (initial_state query) log) as [[state1|e] log1] eqn:E1;
    [|discriminate].
  destruct (String.eqb (should_continue_to_fraud_detection state1) "end") eqn:Eend.
  - unfold ret. intros H. injection H as <- <-.
    destruct (validate_input_outcome _ _ _ _ E1) as [Hconv | (Hft & _)]; [left; exact Hconv|].
    exfalso. unfold should_continue_to_fraud_detection in Eend.
    rewrite Hft in Eend. discriminate Eend.
  - unfold bind at 1.
    destruct (classify_fraud_type state1 log1) as [[state2|e] log2]; [|discriminate].
    unfold bind at 1.
    destruct (parse_input_data state2 log2) as [[state3|e] log3]; [|discriminate].
    unfold bind at 1. unfold ret at 1. unfold bind at 1.
    destruct (llm_analysis (run_ml_model state3) log3) as [[state4|e] log4] eqn:E4;
      [|discriminate].
    intros H. right.
    destruct (llm_analysis_keeps_prediction _ _ _ _ E4) as [ml Hml].
    exists state4, ml, log4. split; assumption.
Qed.

End Workflow.

Section WorkflowProperties.

Context (W : World).

(** X1: whatever the reasoning service answers to the classification prompt,
    the domain the classifier stores is one of the four tags; an answer that
    is one of them once trimmed and lowercased is stored as such. The step
    makes one call and changes nothing else of the request. *)
Theorem X1_classified_domain_in_closed_set
    (state : State.t) (answer : string) (log : Log) :
  llm_invoke (ClassificationPrompt (State.user_input state)) = Ok answer ->
  exists state',
    classify_fraud_type state log
    = (Ok state', log ++ [ClassificationPrompt (State.user_input state)])
    /\ In (State.fraud_type state') valid_types
    /\ (In (Py.lower (Py.strip answer)) valid_types ->
        State.fraud_type state' = Py.lower (Py.strip answer))
    /\ State.user_input state' = State.user_input state
    /\ State.final_result state' = State.final_result state.
Proof.
  intros Hllm. unfold classify_fraud_type.
  rewrite (bind_ok _ _ _ _ _ (invoke_ok _ _ log Hllm)).
  unfold ret. eexists. split; [reflexivity|].
  cbn [State.fraud_type State.user_input State.final_result].
  destruct (mem (Py.lower (Py.strip answer)) valid_types) eqn:Emem; cbn [negb].
  - apply mem_spec in Emem. repeat split; auto.
  - apply mem_false in Emem. split; [|split; [tauto | split; reflexivity]].
    destruct (Py.any_in _ _); [simpl; tauto|].
    destruct (Py.any_in _ _); [simpl; tauto|].
    destruct (Py.any_in _ _); simpl; tauto.
Qed.

(** X2: a run of [detect_fraud] calls the reasoning service at most four
    times, and in one order: validation of the text it was given, then
    classification, parsing and analysis; it may stop after any of them. *)
Theorem X2_detect_fraud_call_sequence (query : string) (log : Log) :
  exists calls,
    snd (detect_fraud query log) = log ++ calls
    /\ hd_error calls = Some (ValidationPrompt query)
    /\ exists rest, map step_of calls ++ rest = [Validate; Classify; Parse; Analyse].
Proof.
  unfold detect_fraud, graph_invoke. unfold bind at 1. unfold bind at 1.
  pose proof (validate_input_calls W (initial_state query) log) as H1.
  destruct (validate_input (initial_state query) log) as [[state1|e] log1].
  2:{ cbn [snd] in *. subst log1. eexists. split; [reflexivity|].
      split; [reflexivity|]. eexists. reflexivity. }
  cbn [snd initial_state State.user_input] in H1. subst log1.
  destruct (String.eqb (should_continue_to_fraud_detection state1) "end").
  { unfold ret. cbn [snd]. eexists. split; [reflexivity|].
    split; [reflexivity|]. eexists. reflexivity. }
  unfold bind at 1.
  pose proof (classify_fraud_type_calls W state1 (log ++ [ValidationPrompt query])) as H2.
  destruct (classify_fraud_type state1 _) as [[state2|e] log2];
    cbn [snd] in H2; subst log2.
  2:{ cbn [snd]. rewrite <- app_assoc. eexists. split; [reflexivity|].
      split; [reflexivity|]. eexists. reflexivity. }
  unfold bind at 1.
  pose proof (parse_input_data_calls W state2
                ((log ++ [ValidationPrompt query])
                 ++ [ClassificationPrompt (State.user_input state1)])) as H3.
  destruct (parse_input_data state2 _) as [[state3|e] log3];
    cbn [snd] in H3; subst log3.
  2:{ cbn [snd]. rewrite <- !app_assoc. eexists. split; [reflexivity|].
      split; [reflexivity|]. eexists. reflexivity. }
  unfold bind at 1. unfold ret at 1. unfold bind at 1.
  set (log3 := ((log ++ [ValidationPrompt query])
                ++ [ClassificationPrompt (State.user_input state1)])
               ++ [ParsingPrompt (State.fraud_type state2) (State.user_input state2)]).
  pose proof (llm_analysis_calls W (run_ml_model state3) log3) as H4.
  assert (Hend : forall final : Res (option Verdict.t),
             (exists calls,
                 snd (final, log3) = log ++ calls
                 /\ hd_error calls = Some (ValidationPrompt query)
                 /\ exists rest, map step_of calls ++ rest
                                 = [Validate; Classify; Parse; Analyse])
             /\ forall p, step_of p = Analyse ->
                  exists calls,
                    snd (final, log3 ++ [p]) = log ++ calls
                    /\ hd_error calls = Some (ValidationPrompt query)
                    /\ exists rest, map step_of calls ++ rest
                                    = [Validate; Classify; Parse; Analyse]).
  { intros final. split.
    - unfold log3. cbn [snd]. rewrite <- !app_assoc. eexists.
      split; [reflexivity|]. split; [reflexivity|]. eexists. reflexivity.
    - intros p Hp. unfold log3. cbn [snd]. rewrite <- !app_assoc. eexists.
      split; [reflexivity|]. split; [reflexivity|]. exists [].
      cbn. rewrite Hp. reflexivity. }
  destruct (llm_analysis (run_ml_model state3) log3) as [[state4|e] log4];
    cbn [snd] in H4.
  - pose proof (generate_final_result_calls W state4 log4) as H5.
    destruct (generate_final_result state4 log4) as [[state5|e] log5];
      cbn [snd] in H5; subst log5; unfold ret;
      (destruct H4 as [-> | [ml ->]];
       [apply (proj1 (Hend _)) | apply (proj2 (Hend _)); reflexivity]).
  - destruct H4 as [-> | [ml ->]];
      [apply (proj1 (Hend _)) | apply (proj2 (Hend _)); reflexivity].
Qed.

(** X3: what [detect_fraud] returns is never the empty dict: it is a result
    whose method is one of [ML_MODEL], [LLM_REASONING], [HYBRID], [FALLBACK],
    [CONVERSATIONAL_AI] and whose risk level is one of the four tiers or
    [N/A]; a result that is not fraud has risk level [LOW] or [N/A]. *)
Theorem X3_detect_fraud_result_shape
    (query : string) (res : option Verdict.t) (log log' : Log) :
  detect_fraud query log = (Ok res, log') ->
  exists v,
    res = Some v
    /\ In (Verdict.detection_method v)
          ["ML_MODEL"; "LLM_REASONING"; "HYBRID"; "FALLBACK"; "CONVERSATIONAL_AI"]
    /\ In (Verdict.risk_level v) ("N/A" :: risk_tiers)
    /\ (Verdict.is_fraud v = false ->
        Verdict.risk_level v = "LOW" \/ Verdict.risk_level v = "N/A").
Proof.
  unfold detect_fraud. unfold bind.
  destruct (graph_invoke (initial_state query) log) as [[final|e] log1] eqn:E;
    [|discriminate].
  unfold ret. intros H. injection H as <- <-.
  destruct (graph_invoke_outcome W _ _ _ _ E)
    as [(v & Hres & Hm & Hr & Hf) | (state & ml & log0 & Hml & Hgen)].
  - exists v. split; [assumption|]. rewrite Hm, Hr. simpl. tauto.
  - destruct (generate_final_result_ok state ml log0 Hml)
      as (state' & v & r & Hrun & Hres & _ & Hfv & _ & Hrisk).
    rewrite Hgen in Hrun. injection Hrun as <-.
    exists v. split; [assumption|].
    pose proof (final_verdict_method W ml (sanitize (State.llm_analysis state))) as Hmeth.
    rewrite Hfv in Hmeth. cbn [fst snd] in Hmeth.
    rewrite risk_and_recommendation_tier in Hrisk.
    split; [simpl in *; tauto|]. split.
    + rewrite Hrisk. right. apply risk_tier_values.
    + intros Hf. rewrite Hrisk, Hf. left. reflexivity.
Qed.

End WorkflowProperties.

(** A run of X1 on an answer that is one of the tags. *)
Lemma X1_witness :
  let state := initial_state "Amount 9000 at 3am" in
  llm_invoke (World := confident_world) (ClassificationPrompt (State.user_input state))
  = Ok "credit_card"
  /\ exists state',
      classify_fraud_type (W := confident_world) state []
      = (Ok state', [ClassificationPrompt (State.user_input state)])
      /\ In (State.fraud_type state') valid_types.
Proof.
  intros state. split; [reflexivity|].
  destruct (X1_classified_domain_in_closed_set confident_world state "credit_card"
              [] eq_refl) as (state' & Hrun & Hin & _).
  exists state'. split; [exact Hrun | exact Hin].
Defined.

(** A run of X3 through the whole workflow. *)
Lemma X3_witness :
  exists v,
    fst (detect_fraud (W := prize_world) prize_query []) = Ok (Some v)
    /\ In (Verdict.risk_level v) ("N/A" :: risk_tiers).
Proof.
  destruct (detect_fraud (W := prize_world) prize_query [])
    as [[res|e] log'] eqn:E; [|vm_compute in E; discriminate E].
  destruct (X3_detect_fraud_result_shape prize_world prize_query res [] log' E)
    as (v & -> & _ & Hrisk & _).
  exists v. split; [reflexivity | exact Hrisk].
Defined.

(** ** The endpoints *)


Section EndpointProperties.

Context (W : World).


Lemma detect_fraud_some (query : string) (res : option Verdict.t) (log log' : Log) :
  detect_fraud query log = (Ok res, log') -> exists v, res = Some v.
Proof.
  unfold detect_fraud. unfold bind.
  destruct (graph_invoke (initial_state query) log) as [[final|e] log1] eqn:E;
    [|discriminate].
  unfold ret. intros H. injection H as <- <-.
  destruct (graph_invoke_outcome W _ _ _ _ E)
    as [(v & Hres & _) | (state & ml & log0 & Hml & Hgen)].
  - exists v. assumption.
  - destruct (generate_final_result_ok state ml log0 Hml)
      as (state' & v & r & Hrun & Hres & _).
    rewrite Hgen in Hrun. injection Hrun as <-. exists v. assumption.
Qed.

Lemma api_detect_text_returns (query : string) (log : Log) :
  exists v,
    api_detect_text query log = (Ok (Some v), snd (detect_fraud query log))
    /\ match fst (detect_fraud query log) with
       | Ok res => res = Some v
       | Raise e => v = detector_error_result (str_of_exception e)
       end.
Proof.
  unfold api_detect_text.
  destruct (detect_fraud query log) as [[res|e] log'] eqn:E.
  - destruct (detect_fraud_some _ _ _ _ E) as [v ->].
    exists v. split; reflexivity.
  - eexists. split; reflexivity.
Qed.

(** X4: [/api/detect] on a text request. A key shorter than 20 characters is
    refused with status 400, and a detector that cannot be constructed for
    the key gives status 500, both before any call is made. Once the
    detector is constructed the endpoint always answers with a result, never
    with an error status: the result of [detect_fraud] when it returns, and
    when it raises the fixed [QUERY_VALIDATOR] result, after the same
    calls. *)
Theorem X4_api_detect_always_answers
    (FraudDetectionGraph_new : string -> Res unit)
    (google_api_key query : string) (log : Log) :
  if bad_api_key google_api_key
  then api_detect FraudDetectionGraph_new google_api_key query log
       = (Ok (HTTPException 400), log)
  else
    match FraudDetectionGraph_new google_api_key with
    | Raise _ =>
        api_detect FraudDetectionGraph_new google_api_key query log
        = (Ok (HTTPException 500), log)
    | Ok _ =>
        exists v,
          api_detect FraudDetectionGraph_new google_api_key query log
          = (Ok (Response (Some v)), snd (detect_fraud query log))
          /\ match fst (detect_fraud query log) with
             | Ok res => res = Some v
             | Raise e =>
                 v = detector_error_result (str_of_exception e)
                 /\ Verdict.detection_method v = "QUERY_VALIDATOR"
                 /\ Verdict.is_fraud v = false
             end
    end.
Proof.
  unfold api_detect, create_detector.
  destruct (bad_api_key google_api_key); [reflexivity|].
  destruct (FraudDetectionGraph_new google_api_key); [|reflexivity].
  destruct (api_detect_text_returns query log) as (v & Hrun & Hres).
  exists v. rewrite Hrun. split; [reflexivity|].
  destruct (fst (detect_fraud query log)); [exact Hres|].
  subst v. repeat split; reflexivity.
Qed.


End EndpointProperties.


Section MoreEndpoints.

Context (W : World).

Lemma batch_results_spec (queries : list string) (log : Log) :
  exists items,
    batch_results queries log = (Ok items, log_after queries log)
    /\ length items = length queries
    /\ forall before query after,
        queries = before ++ query :: after ->
        nth_error items (length before)
        = Some (batch_item query
                  (fst (detect_fraud query (log_after before log)))).
Proof.
  revert log. induction queries as [|q rest IH]; intros log.
  - exists []. split; [reflexivity|]. split; [reflexivity|].
    intros before query after H. destruct before; discriminate H.
  - cbn [batch_results]. unfold log_after. cbn [fold_left].
    fold (log_after rest (snd (detect_fraud q log))).
    destruct (detect_fraud q log) as [outcome log1] eqn:E. cbn [snd].
    destruct (IH log1) as (items & Hrun & Hlen & Hnth).
    rewrite Hrun. eexists. split; [reflexivity|]. split.
    + cbn [length]. rewrite Hlen. reflexivity.
    + intros before query after H. destruct before as [|b before'].
      * cbn [app] in H. injection H as <- _.
        cbn [length nth_error fold_left]. rewrite E. reflexivity.
      * cbn [app] in H. injection H as <- Hrest.
        cbn [length nth_error fold_left]. rewrite E. cbn [snd].
        exact (Hnth before' query after Hrest).
Qed.

(** X6: [/api/batch-detect] refuses an empty batch and a batch of more than
    ten texts with status 400, and gives status 500 when the detector cannot
    be constructed, all before any call. Every other batch is answered with
    one item per text, in the order of the texts: the item of a text is a
    success with the result of [detect_fraud] on it when that returns, and a
    failure with the text of the exception when it raises, whatever happened
    to the texts before it; [detect_fraud] runs on every text, each after
    the calls of the ones before. *)
Theorem X6_batch_detect_one_item_per_text
    (FraudDetectionGraph_new : string -> Res unit)
    (google_api_key : string) (queries : list string) (log : Log) :
  if (length queries =? 0) || (10 <? length queries)
  then batch_detect FraudDetectionGraph_new google_api_key queries log
       = (Ok (HTTPException 400), log)
  else
    match FraudDetectionGraph_new google_api_key with
    | Raise _ =>
        batch_detect FraudDetectionGraph_new google_api_key queries log
        = (Ok (HTTPException 500), log)
    | Ok _ =>
        exists items,
          batch_detect FraudDetectionGraph_new google_api_key queries log
          = (Ok (Response {| batch_success := true;
                             total_queries := length queries;
                             results := items |}),
             log_after queries log)
          /\ length items = length queries
          /\ forall before query after,
              queries = before ++ query :: after ->
              nth_error items (length before)
              = Some (batch_item query
                        (fst (detect_fraud query (log_after before log))))
    end.
Proof.
  unfold batch_detect, create_detector.
  destruct (length queries =? 0); [reflexivity|].
  destruct (10 <? length queries); [reflexivity|]. cbn [orb].
  destruct (FraudDetectionGraph_new google_api_key); [|reflexivity].
  destruct (batch_results_spec queries log) as (items & Hrun & Hlen & Hnth).
  exists items. rewrite Hrun. split; [reflexivity|]. split; assumption.
Qed.


End MoreEndpoints.

(** ** The advisor workflow *)

Section AdvisorWorkflow.

Context (W : World) {U : Unicode}.

Lemma get_advice_valid (query reason : string) (log : Log) :
  InputValidator.validate query = (true, reason) ->
  get_advice query log
  = bind (bind (categorize_query (AdvisorState.mk query true "" "" "" ""))
               (fun state => bind (generate_response state)
                                  (fun state => ret (format_output state))))
         (fun final_state =>
            ret {| advice_query_type := AdvisorState.query_type final_state;
                   advice_topic := AdvisorState.topic final_state;
                   advice_formatted_response :=
                     AdvisorState.formatted_response final_state |})
         log.
Proof.
  intros Hval. unfold get_advice, advisor_graph_invoke, advisor_validate_input.
  cbn [advisor_initial_state AdvisorState.user_query]. rewrite Hval. reflexivity.
Qed.

Lemma categorize_query_returns (query answer : string) (log : Log) :
  llm_invoke (CategorizationPrompt query) = Ok answer ->
  categorize_query (AdvisorState.mk query true "" "" "" "") log
  = (Ok (AdvisorState.mk query true
           (match loads_categorization (categorization_text answer) with
            | Some (query_type, _) => default "simple" query_type
            | None => "simple"
            end)
           (match loads_categorization (categorization_text answer) with
            | Some (_, topic) => default "general" topic
            | None => "general"
            end) "" ""),
     log ++ [CategorizationPrompt query]).
Proof.
  intros Hllm. unfold categorize_query. cbn [AdvisorState.is_valid negb
    AdvisorState.user_query AdvisorState.response_text AdvisorState.formatted_response].
  rewrite (bind_ok _ _ _ _ _ (invoke_ok _ _ log Hllm)).
  fold (categorization_text answer).
  destruct (loads_categorization (categorization_text answer)) as [[qt tp]|];
    reflexivity.
Qed.

(** X9: when the categorization answer parses but names a query type that
    is no [QueryType], or a topic that is no [Topic], [get_advice] raises
    after that one call: the generation prompt is never sent, and
    [/api/advisor/chat] answers with its fixed apology (with status 500 and
    no call when the advisor cannot be constructed for the key). *)
Theorem X9_unknown_category_raises
    (FraudAdvisorGraph_new : string -> Res unit)
    (query reason answer google_api_key : string)
    (query_type topic : option string) (log : Log) :
  InputValidator.validate query = (true, reason) ->
  llm_invoke (CategorizationPrompt query) = Ok answer ->
  loads_categorization (categorization_text answer) = Some (query_type, topic) ->
  ~ In (default "simple" query_type) query_types
  \/ topic_context (default "general" topic) = None ->
  bad_api_key google_api_key = false ->
  (exists value,
      get_advice query log
      = (Raise (Error value), log ++ [CategorizationPrompt query])
      /\ (value = default "simple" query_type \/ value = default "general" topic))
  /\ match FraudAdvisorGraph_new google_api_key with
     | Ok _ =>
         advisor_chat FraudAdvisorGraph_new google_api_key query log
         = (Ok (Response advisor_fallback), log ++ [CategorizationPrompt query])
     | Raise _ =>
         advisor_chat FraudAdvisorGraph_new google_api_key query log
         = (Ok (HTTPException 500), log)
     end.
Proof.
  intros Hval Hllm Hloads Hbad Hkey.
  assert (Hraise : exists value,
             get_advice query log
             = (Raise (Error value), log ++ [CategorizationPrompt query])
             /\ (value = default "simple" query_type
                 \/ value = default "general" topic)).
  { rewrite (get_advice_valid _ _ _ Hval).
    unfold bind at 1. unfold bind at 1.
    rewrite (categorize_query_returns _ _ _ Hllm), Hloads.
    unfold bind at 1. unfold generate_response.
    cbn [AdvisorState.is_valid negb AdvisorState.query_type AdvisorState.topic].
    change (mem (default "simple" query_type) ["greeting"; "simple"; "detailed"; "invalid"])
      with (mem (default "simple" query_type) query_types).
    destruct (mem (default "simple" query_type) query_types) eqn:Emem; cbn [negb].
    - destruct Hbad as [Hqt | Htopic].
      + apply mem_spec in Emem. contradiction.
      + rewrite Htopic. eexists. split; [reflexivity|]. right. reflexivity.
    - eexists. split; [reflexivity|]. left. reflexivity. }
  split; [exact Hraise|].
  destruct Hraise as (value & Hrun & _).
  unfold advisor_chat, create_advisor. rewrite Hkey.
  destruct (FraudAdvisorGraph_new google_api_key); [|reflexivity].
  rewrite Hrun. reflexivity.
Qed.

(** X10: a categorization answer that [json.loads] rejects does not fail the
    request: the query counts as [simple] on the topic [general], the
    generation prompt is the simple template with the general context, and
    when that call returns [get_advice] returns the formatted answer, after
    exactly these two calls. *)
Theorem X10_prose_categorization_defaults
    (query reason answer response : string) (log : Log) :
  InputValidator.validate query = (true, reason) ->
  llm_invoke (CategorizationPrompt query) = Ok answer ->
  loads_categorization (categorization_text answer) = None ->
  llm_invoke (GenerationPrompt query "simple"
                "general fraud awareness and prevention strategies")
  = Ok response ->
  get_advice query log
  = (Ok {| advice_query_type := "simple";
           advice_topic := "general";
           advice_formatted_response :=
             Py.replace
               (Py.join nl (format_lines
                              (Py.split (ascii_of_nat 10) (Py.strip response)) []))
               (nl +++ nl +++ nl) (nl +++ nl) |},
     log ++ [CategorizationPrompt query;
             GenerationPrompt query "simple"
               "general fraud awareness and prevention strategies"]).
Proof.
  intros Hval Hcat Hloads Hgen.
  rewrite (get_advice_valid _ _ _ Hval).
  unfold bind at 1. unfold bind at 1.
  rewrite (categorize_query_returns _ _ _ Hcat), Hloads.
  unfold bind at 1. unfold generate_response.
  cbn [AdvisorState.is_valid negb AdvisorState.query_type AdvisorState.topic
       AdvisorState.user_query mem existsb String.eqb Ascii.eqb Bool.eqb orb
       topic_context].
  unfold bind at 1.
  rewrite (invoke_ok _ _ _ Hgen). unfold ret.
  rewrite <- app_assoc. reflexivity.
Qed.

End AdvisorWorkflow.

(** A run of X9: the topic [crypto] is no [Topic]. *)
Lemma X9_witness :
  InputValidator.validate (H := ascii_only) upi_question = (true, "valid")
  /\ topic_context "crypto" = None
  /\ advisor_chat (W := odd_topic_world) (U := ascii_only) (fun _ => Ok tt)
       "AIzaSy-0123456789-abcdefghij" upi_question []
     = (Ok (Response advisor_fallback), [CategorizationPrompt upi_question]).
Proof.
  split; [reflexivity|]. split; [reflexivity|].
  exact (proj2 (X9_unknown_category_raises odd_topic_world (U := ascii_only)
                  (fun _ => Ok tt) upi_question "valid"
                  "{ query_type: simple, topic: crypto }" "AIzaSy-0123456789-abcdefghij"
                  (Some "simple") (Some "crypto") []
                  eq_refl eq_refl eq_refl (or_intror eq_refl) eq_refl)).
Defined.

(** A run of X10. *)
Lemma X10_witness :
  InputValidator.validate (H := ascii_only) upi_question = (true, "valid")
  /\ loads_categorization (World := prose_advisor_world)
       (categorization_text "It is a simple question.") = None
  /\ exists advice,
      get_advice (W := prose_advisor_world) (U := ascii_only) upi_question []
      = (Ok advice,
         [CategorizationPrompt upi_question;
          GenerationPrompt upi_question "simple"
            "general fraud awareness and prevention strategies"])
      /\ advice_query_type advice = "simple"
      /\ advice_topic advice = "general".
Proof.
  split; [reflexivity|]. split; [reflexivity|].
  eexists. split.
  - exact (X10_prose_categorization_defaults prose_advisor_world (U := ascii_only)
             upi_question "valid"
             "It is a simple question." _ [] eq_refl eq_refl eq_refl eq_refl).
  - split; reflexivity.
Defined.

(** ** The layout of the advisor's answer *)

Lemma nonblank_strip_false (line : string) :
  (Py.len (Py.strip line) =? 0) = true -> nonblank (Py.strip line) = false.
Proof. intros H. unfold nonblank. rewrite H. reflexivity. Qed.

Lemma nonblank_strip_true (line : string) :
  (Py.len (Py.strip line) =? 0) = false -> nonblank (Py.strip line) = true.
Proof. intros H. unfold nonblank. rewrite H. reflexivity. Qed.

Lemma filter_nonblank_snoc_blank (lines : list string) (cond : bool) :
  filter nonblank (if cond then lines ++ [""] else lines) = filter nonblank lines.
Proof.
  destruct cond; [|reflexivity].
  rewrite filter_app. cbn. apply app_nil_r.
Qed.

Lemma format_lines_content (lines formatted_lines : list string) :
  filter nonblank (format_lines lines formatted_lines)
  = filter nonblank formatted_lines ++ filter nonblank (map Py.strip lines).
Proof.
  revert formatted_lines.
  induction lines as [|line rest IH]; intros acc; cbn [format_lines map filter].
  - symmetry. apply app_nil_r.
  - destruct (Py.len (Py.strip line) =? 0) eqn:Elen.
    + rewrite (nonblank_strip_false _ Elen). apply IH.
    + rewrite (nonblank_strip_true _ Elen).
      cbv zeta. rewrite IH. rewrite filter_nonblank_snoc_blank.
      rewrite filter_app. rewrite filter_nonblank_snoc_blank.
      cbn [filter]. rewrite (nonblank_strip_true _ Elen).
      rewrite <- app_assoc. reflexivity.
Qed.

(** X11: the formatter neither drops nor invents text: the non-empty lines
    of its output are, in order, the stripped non-empty lines of the
    answer; all it adds are empty lines. *)
Theorem X11_format_keeps_the_lines (lines : list string) :
  filter nonblank (format_lines lines [])
  = filter nonblank (map Py.strip lines).
Proof. apply (format_lines_content lines []). Qed.

Lemma no_double_blank_snoc (lines : list string) (line : string) :
  no_double_blank (lines ++ [line])
  = no_double_blank lines && (nonblank (last lines "x") || nonblank line).
Proof.
  induction lines as [|a [|b rest] IH].
  - reflexivity.
  - cbn. rewrite andb_true_r. reflexivity.
  - change (no_double_blank ((a :: b :: rest) ++ [line]))
      with ((nonblank a || nonblank b) && no_double_blank ((b :: rest) ++ [line])).
    rewrite IH.
    change (no_double_blank (a :: b :: rest))
      with ((nonblank a || nonblank b) && no_double_blank (b :: rest)).
    change (last (a :: b :: rest) "x") with (last (b :: rest) "x").
    rewrite andb_assoc. reflexivity.
Qed.

Lemma hd_snoc (lines : list string) (line : string) :
  hd "x" (lines ++ [line]) = match lines with [] => line | first :: _ => first end.
Proof. destruct lines; reflexivity. Qed.

Lemma format_lines_tidy (lines formatted_lines : list string) :
  tidy formatted_lines lines ->
  tidy (format_lines lines formatted_lines) [].
Proof.
  revert formatted_lines.
  induction lines as [|line rest IH]; intros acc Hinv; cbn [format_lines].
  - destruct Hinv as (Hdb & Hhd & Hlast).
    split; [exact Hdb|]. split; [exact Hhd|].
    intros Hblank. destruct (Hlast Hblank) as (next & rest & Hnil & _).
    discriminate Hnil.
  - destruct Hinv as (Hdb & Hhd & Hlast).
    assert (Hwait : nonblank (last acc "x") = false ->
                    nonblank (Py.strip line) = true
                    /\ is_bullet_line (Py.strip line) = false).
    { intros Hblank. destruct (Hlast Hblank) as (next & rest' & Heq & Hnb & Hbul).
      injection Heq as <- _. split; assumption. }
    destruct (Py.len (Py.strip line) =? 0) eqn:Elen.
    + apply IH. split; [exact Hdb|]. split; [exact Hhd|].
      intros Hblank. destruct (Hwait Hblank) as (Hnb & _).
      rewrite (nonblank_strip_false _ Elen) in Hnb. discriminate Hnb.
    + pose proof (nonblank_strip_true _ Elen) as Hnb.
      cbv zeta. apply IH.
      set (before := is_bullet_line (Py.strip line)
                     && negb (if Py.len (last acc "") =? 0 then false
                              else is_bullet_line (Py.strip (last acc "")))
                     && negb (length acc =? 0)).
      set (acc1 := if before then acc ++ [""] else acc).
      set (next_line := match rest with next :: _ => Py.strip next | [] => "" end).
      set (after := is_bullet_line (Py.strip line)
                    && negb (if Py.len next_line =? 0 then false
                             else is_bullet_line next_line)
                    && negb (Py.len next_line =? 0)).
      assert (H1 : no_double_blank acc1 = true /\ nonblank (hd "x" acc1) = true).
      { subst acc1. destruct before eqn:Ebefore; [|split; assumption].
        apply andb_prop in Ebefore as [Ebefore Elength].
        apply andb_prop in Ebefore as [Ebullet _].
        split.
        - rewrite no_double_blank_snoc, Hdb.
          destruct (nonblank (last acc "x")) eqn:Eprev; [reflexivity|].
          destruct (Hwait eq_refl) as (_ & Hno). rewrite Hno in Ebullet.
          discriminate Ebullet.
        - rewrite hd_snoc. destruct acc; [discriminate Elength | exact Hhd]. }
      destruct H1 as (Hdb1 & Hhd1).
      assert (H2 : no_double_blank (acc1 ++ [Py.strip line]) = true
                   /\ nonblank (hd "x" (acc1 ++ [Py.strip line])) = true).
      { split.
        - rewrite no_double_blank_snoc, Hdb1, Hnb, orb_true_r. reflexivity.
        - rewrite hd_snoc. destruct acc1; [exact Hnb | exact Hhd1]. }
      destruct H2 as (Hdb2 & Hhd2).
      destruct after eqn:Eafter.
      * split; [|split].
        -- rewrite no_double_blank_snoc, Hdb2, last_last, Hnb. reflexivity.
        -- rewrite hd_snoc. destruct (acc1 ++ [Py.strip line]) eqn:E; [|exact Hhd2].
           destruct acc1; discriminate E.
        -- intros _.
           apply andb_prop in Eafter as [Eafter Enext].
           apply andb_prop in Eafter as [_ Enot].
           apply negb_true_iff in Enext. rewrite Enext in Enot.
           apply negb_true_iff in Enot.
           subst next_line. destruct rest as [|next rest']; [discriminate Enext|].
           exists next, rest'. split; [reflexivity|].
           split; [apply nonblank_strip_true; exact Enext | exact Enot].
      * split; [exact Hdb2|]. split; [exact Hhd2|].
        rewrite last_last, Hnb. discriminate.
Qed.

(** X12: the formatter's empty lines only separate: in the lines it writes
    the first and the last are not empty (if there are any), and no two
    empty lines follow each other. *)
Theorem X12_format_blank_lines_only_separate (lines : list string) :
  let formatted_lines := format_lines lines [] in
  no_double_blank formatted_lines = true
  /\ nonblank (hd "x" formatted_lines) = true
  /\ nonblank (last formatted_lines "x") = true.
Proof.
  cbv zeta.
  destruct (format_lines_tidy lines []) as (Hdb & Hhd & Hlast).
  - split; [reflexivity|]. split; [reflexivity|]. discriminate.
  - split; [exact Hdb|]. split; [exact Hhd|].
    destruct (nonblank (last (format_lines lines []) "x")) eqn:E; [reflexivity|].
    destruct (Hlast eq_refl) as (next & rest & Hnil & _). discriminate Hnil.
Qed.

(** ** What the advisor's validator decides *)

Section ValidatorDecides.

Context {U : Unicode}.

(** X13: the validator's last test never fires. A text in which digits are
    more than 70% of the characters other than the space has letters for
    less than half of them, a letter being no digit, and is rejected as
    [gibberish] before: the reason [mostly_numbers] is never returned. *)
Theorem X13_mostly_numbers_is_never_the_reason (query : string) :
  snd (InputValidator.validate query) <> "mostly_numbers".
Proof.
  unfold InputValidator.validate.
  set (text := Str.of_string query).
  destruct (Str.len (Str.strip text) <? 2) eqn:E1; [discriminate|].
  destruct (500 <? Str.len text) eqn:E2; [discriminate|].
  apply Nat.ltb_ge in E2.
  rewrite len_remove_blank.
  set (alpha := Str.count_if str_isalpha text).
  set (total := Str.count_if not_blank text).
  set (digits := Str.count_if str_isdigit text).
  assert (Htotal : total <= 500)
    by (pose proof (count_if_le_len not_blank text); lia).
  assert (Hsum : alpha + digits <= total) by apply letters_and_digits.
  destruct ((0 <? total) && Py.lt (Py.of_nat alpha / Py.of_nat total) 0.5)
    eqn:E3; [discriminate|].
  destruct ((5 <? Str.len text) && existsb _ (str_lower text))
    eqn:E4; [discriminate|].
  destruct ((0 <? total) && Py.gt (Py.of_nat digits / Py.of_nat total) 0.7)
    eqn:E5; [|discriminate].
  exfalso.
  apply andb_prop in E5 as [Epos E5]. rewrite Epos in E3. cbn [andb] in E3.
  apply Nat.ltb_lt in Epos.
  destruct (ratio_tests alpha total) as (Hhalf & _ & _); [lia|lia|].
  destruct (ratio_tests digits total) as (_ & Hseventy & _); [lia|lia|].
  rewrite Hhalf in E3. rewrite Hseventy in E5.
  apply Nat.ltb_ge in E3. apply Nat.ltb_lt in E5. lia.
Qed.

(** X14: the validator accepts exactly the texts that are not degenerate:
    its tests on binary64 ratios decide the inequalities of [degenerate]
    on whole numbers, so a text is accepted if and only if none of the five
    conditions holds of its characters. *)
Theorem X14_validator_accepts_exactly_the_sound_texts (query : string) :
  InputValidator.validate query = (true, "valid") <-> ~ degenerate query.
Proof.
  split.
  - intros Hval Hdeg. apply validate_rejects in Hdeg. rewrite Hval in Hdeg.
    discriminate Hdeg.
  - intros Hsound. unfold degenerate in Hsound.
    unfold InputValidator.validate.
    set (text := Str.of_string query) in *. cbv zeta in Hsound.
    pose proof (strip_count text) as Hstrip.
    destruct (Str.len (Str.strip text) <? 2) eqn:E1.
    { apply Nat.ltb_lt in E1. exfalso. apply Hsound. left. lia. }
    destruct (500 <? Str.len text) eqn:E2.
    { apply Nat.ltb_lt in E2. exfalso. apply Hsound. right. left. exact E2. }
    apply Nat.ltb_ge in E2.
    rewrite len_remove_blank.
    set (alpha := Str.count_if str_isalpha text) in *.
    set (total := Str.count_if not_blank text) in *.
    set (digits := Str.count_if str_isdigit text) in *.
    assert (Htotal : total <= 500)
      by (pose proof (count_if_le_len not_blank text); lia).
    assert (Halpha : alpha <= total)
      by (apply count_if_mono, isalpha_not_blank).
    assert (Hdigits : digits <= total)
      by (apply count_if_mono, isdigit_not_blank).
    destruct ((0 <? total) && Py.lt (Py.of_nat alpha / Py.of_nat total) 0.5)
      eqn:E3.
    { exfalso. apply andb_prop in E3 as [Epos E3]. apply Nat.ltb_lt in Epos.
      destruct (ratio_tests alpha total) as (Hhalf & _ & _); [lia|lia|].
      rewrite Hhalf in E3. apply Nat.ltb_lt in E3.
      apply Hsound. right. right. left. exact E3. }
    destruct ((5 <? Str.len text) && existsb _ (str_lower text))
      eqn:E4.
    { exfalso. apply andb_prop in E4 as [Elen E4]. apply Nat.ltb_lt in Elen.
      apply existsb_exists in E4 as (c & _ & Hc).
      apply andb_prop in Hc as [Hc Hrep].
      rewrite (repeat_test _ _ E2 (lowered_count c text E2)) in Hrep.
      apply Nat.ltb_lt in Hrep.
      apply Hsound. right. right. right. left.
      split; [exact Elen|]. exists c. split; assumption. }
    destruct ((0 <? total) && Py.gt (Py.of_nat digits / Py.of_nat total) 0.7)
      eqn:E5; [|reflexivity].
    exfalso. apply andb_prop in E5 as [Epos E5]. apply Nat.ltb_lt in Epos.
    destruct (ratio_tests digits total) as (_ & Hseventy & _); [lia|lia|].
    rewrite Hseventy in E5. apply Nat.ltb_lt in E5.
    apply Hsound. right. right. right. right. exact E5.
Qed.

End ValidatorDecides.

(** ** The analysis gate and the fuser *)

Lemma SFcompare_total (x k : spec_float) :
  SFcompare x x = Some Eq -> SFcompare k k = Some Eq ->
  exists c, SFcompare x k = Some c.
Proof.
  destruct x as [s|s| |s m e], k as [s'|s'| |s' m' e']; simpl;
    try discriminate; intros _ _; eexists; reflexivity.
Qed.

Lemma SFcompare_refl (x : spec_float) :
  x <> S754_nan -> SFcompare x x = Some Eq.
Proof.
  destruct x as [s|s| |s m e]; simpl; try congruence; intros _.
  - destruct s; reflexivity.
  - rewrite Z.compare_refl, Pos.compare_cont_refl. destruct s; reflexivity.
Qed.

(** A number that is not below [k] is at least [k]. *)
Lemma number_not_lt_ge (c k : float) :
  PrimFloat.eqb c c = true -> PrimFloat.eqb k k = true ->
  Py.lt c k = false -> Py.ge c k = true.
Proof.
  unfold Py.lt, Py.ge.
  rewrite !FloatAxioms.eqb_spec, FloatAxioms.ltb_spec, FloatAxioms.leb_spec.
  unfold SFeqb, SFltb, SFleb. intros Hc Hk.
  destruct (SFcompare (Prim2SF c) (Prim2SF c)) as [[]|] eqn:Ec; try discriminate.
  destruct (SFcompare (Prim2SF k) (Prim2SF k)) as [[]|] eqn:Ek; try discriminate.
  destruct (SFcompare_total _ _ Ec Ek) as (cmp & Hcmp).
  rewrite Hcmp, (SFcompare_antisym _ _ _ Hcmp).
  destruct cmp; simpl; congruence.
Qed.

(** NaN compares false with everything. *)
Lemma nan_compares_false (c k : float) :
  PrimFloat.eqb c c = false ->
  PrimFloat.ltb c k = false /\ PrimFloat.ltb k c = false
  /\ PrimFloat.leb k c = false.
Proof.
  rewrite FloatAxioms.eqb_spec, !FloatAxioms.ltb_spec, FloatAxioms.leb_spec.
  unfold SFeqb, SFltb, SFleb. intros Hc.
  assert (Hnan : Prim2SF c = S754_nan).
  { destruct (Prim2SF c) as [s|s| |s m e] eqn:E; try reflexivity;
      rewrite SFcompare_refl in Hc by discriminate; discriminate Hc. }
  rewrite Hnan. simpl. destruct (Prim2SF k); repeat split; reflexivity.
Qed.

Section GateAndFuser.

Context (W : World).

(** X15: whenever [llm_analysis] skips the reasoning call, the verdict that
    [generate_final_result] then builds is the model's: same [is_fraud],
    same confidence, no call made. Its method is [ML_MODEL], unless the
    model's confidence is NaN: NaN is neither below 0.7 for the gate nor at
    least 0.7 for the fuser, and the method is then [HYBRID]. *)
Theorem X15_skipped_analysis_gives_the_model_verdict
    (state : State.t) (ml : ML.t) (log : Log) :
  State.ml_prediction state = Some ml ->
  use_llm ml = false ->
  exists final v,
    (state' <- llm_analysis state ;; generate_final_result state') log
    = (Ok final, log)
    /\ State.final_result final = Some v
    /\ Verdict.is_fraud v
       = match ML.prediction ml with Some p => (p =? 1)%Z | None => false end
    /\ Verdict.confidence v = ML.confidence ml
    /\ Verdict.detection_method v
       = if PrimFloat.eqb (ML.confidence ml) (ML.confidence ml)
         then "ML_MODEL" else "HYBRID".
Proof.
  intros Hml Hskip.
  unfold llm_analysis. rewrite Hml, Hskip.
  unfold bind at 2. unfold ret at 1. unfold bind. unfold ret at 1.
  match goal with
  | |- context [generate_final_result ?s log] => set (analysed := s)
  end.
  destruct (generate_final_result_ok analysed ml log eq_refl)
    as (final & v & reasoning & Hrun & Hres & _ & Hfv & _).
  exists final, v. split; [exact Hrun|]. split; [exact Hres|].
  unfold use_llm in Hskip.
  apply orb_false_elim in Hskip as [Hskip Hlt].
  apply orb_false_elim in Hskip as [Havail _].
  apply negb_false_iff in Havail.
  subst analysed. cbn [State.llm_analysis] in Hfv.
  unfold final_verdict in Hfv. rewrite Havail in Hfv.
  cbn [andb sanitize LLM.is_fraud LLM.set_red_flags LLM.set_recommendations
       LLM.set_reasoning LLM.confidence default] in Hfv.
  destruct (PrimFloat.eqb (ML.confidence ml) (ML.confidence ml)) eqn:Enum.
  - rewrite (number_not_lt_ge _ 0.7 Enum eq_refl Hlt) in Hfv.
    injection Hfv as Hf Hc Hm _. rewrite <- Hf, <- Hc, <- Hm.
    repeat split; reflexivity.
  - destruct (nan_compares_false _ 0.7 Enum) as (_ & _ & Hge).
    destruct (nan_compares_false _ 0.5 Enum) as (Hlt5 & Hgt5 & _).
    unfold Py.ge in Hfv. rewrite Hge in Hfv.
    unfold Py.max, Py.min, Py.gt, Py.lt in Hfv. rewrite Hlt5, Hgt5 in Hfv.
    injection Hfv as Hf Hc Hm _. rewrite <- Hf, <- Hc, <- Hm.
    repeat split; try reflexivity.
    + apply orb_diag.
    + destruct (_ || _); reflexivity.
Qed.

(** X16: without a model opinion and with a reasoning opinion that has no
    [is_fraud] field, [generate_final_result] makes no call and returns the
    fixed fallback verdict: not fraud, confidence 0.5, method [FALLBACK],
    risk level [LOW], and neither opinion in the details. *)
Theorem X16_no_opinion_gives_the_fallback_verdict
    (state : State.t) (ml : ML.t) (log : Log) :
  State.ml_prediction state = Some ml ->
  ML.model_available ml = false ->
  LLM.is_fraud (State.llm_analysis state) = None ->
  exists final v,
    generate_final_result state log = (Ok final, log)
    /\ State.final_result final = Some v
    /\ Verdict.is_fraud v = false
    /\ Verdict.confidence v = 0.5%float
    /\ Verdict.detection_method v = "FALLBACK"
    /\ Verdict.risk_level v = "LOW"
    /\ exists red_flags,
        Verdict.details v
        = FusionDetails (State.parsed_data state) None None
                        (State.messages state) red_flags.
Proof.
  intros Hml Havail Hllm.
  unfold generate_final_result. rewrite Hml.
  unfold final_verdict. rewrite Havail, sanitize_is_fraud, Hllm.
  cbn [andb]. cbv beta iota zeta. unfold ret.
  eexists _, _. split; [reflexivity|].
  cbn [State.final_result Verdict.is_fraud Verdict.confidence
       Verdict.detection_method Verdict.risk_level Verdict.details
       risk_and_recommendation fst present].
  repeat split. eexists. reflexivity.
Qed.

End GateAndFuser.

(** A run of X15: a model that is 95% sure. *)
Lemma X15_witness :
  use_llm (prediction_dict {| predicted := 1; probability := (0.05, 0.95)%float |})
  = false
  /\ exists final v,
      (state' <- llm_analysis (W := prize_world)
                   (fusion_state
                      (prediction_dict
                         {| predicted := 1; probability := (0.05, 0.95)%float |})
                      LLM.empty) ;;
       generate_final_result (W := prize_world) state') []
      = (Ok final, [])
      /\ State.final_result final = Some v
      /\ Verdict.detection_method v = "ML_MODEL".
Proof.
  split; [reflexivity|].
  destruct (X15_skipped_analysis_gives_the_model_verdict prize_world
              (fusion_state
                 (prediction_dict
                    {| predicted := 1; probability := (0.05, 0.95)%float |})
                 LLM.empty)
              _ [] eq_refl eq_refl)
    as (final & v & Hrun & Hres & _ & _ & Hmethod).
  exists final, v. split; [exact Hrun|]. split; [exact Hres|]. exact Hmethod.
Defined.

(** A run of X16. *)
Lemma X16_witness :
  ML.model_available ml_llm_only = false
  /\ LLM.is_fraud llm_no_verdict = None
  /\ exists final v,
      generate_final_result (W := prize_world)
        (fusion_state ml_llm_only llm_no_verdict) []
      = (Ok final, [])
      /\ State.final_result final = Some v
      /\ Verdict.detection_method v = "FALLBACK".
Proof.
  split; [reflexivity|]. split; [reflexivity|].
  destruct (X16_no_opinion_gives_the_fallback_verdict prize_world
              (fusion_state ml_llm_only llm_no_verdict) _ []
              eq_refl eq_refl eq_refl)
    as (final & v & Hrun & Hres & _ & _ & Hmethod & _).
  exists final, v. split; [exact Hrun|]. split; [exact Hres|]. exact Hmethod.
Defined.

(** ** The features of a URL *)

Lemma one_counter_per_character (c : ascii) :
  (if Py.isdigit c then 1 else 0)
  + (if Ascii.eqb "-" c then 1 else 0) + (if Ascii.eqb "_" c then 1 else 0)
  + (if Ascii.eqb "/" c then 1 else 0) + (if Ascii.eqb "." c then 1 else 0)
  + (if Ascii.eqb "?" c then 1 else 0) + (if Ascii.eqb "=" c then 1 else 0)
  + (if Ascii.eqb "@" c then 1 else 0) + (if Ascii.eqb "%" c then 1 else 0)
  + (if Ascii.eqb "#" c then 1 else 0) + (if Ascii.eqb "&" c then 1 else 0)
  + (if is_special_char c then 1 else 0)
  <= 1.
Proof.
  destruct c as [[] [] [] [] [] [] [] []]; vm_compute; lia.
Qed.

(** X17: the counters of [extract_url_features] count disjoint characters:
    the digits, the ten counted symbols and the special characters of the
    ratio never add up to more than the length of the URL. *)
Theorem X17_url_counters_are_disjoint
    (urlparse : string -> Res (string * string)) (url : string) :
  let features := extract_url_features urlparse url in
  URLFeatures.num_digits features
  + URLFeatures.num_hyphens features + URLFeatures.num_underscores features
  + URLFeatures.num_slashes features + URLFeatures.num_dots features
  + URLFeatures.num_question_marks features + URLFeatures.num_equals features
  + URLFeatures.num_at_symbols features + URLFeatures.num_percent features
  + URLFeatures.num_hashes features + URLFeatures.num_ampersands features
  + Py.count_if is_special_char url
  <= URLFeatures.url_length features.
Proof.
  cbv zeta. unfold extract_url_features.
  cbn [URLFeatures.num_digits URLFeatures.num_hyphens URLFeatures.num_underscores
       URLFeatures.num_slashes URLFeatures.num_dots URLFeatures.num_question_marks
       URLFeatures.num_equals URLFeatures.num_at_symbols URLFeatures.num_percent
       URLFeatures.num_hashes URLFeatures.num_ampersands URLFeatures.url_length].
  unfold Py.count_char, Py.len.
  induction url as [|c r IH]; [cbn; lia|].
  cbn [Py.count_if String.length].
  pose proof (one_counter_per_character c) as Hc. lia.
Qed.

(** ** The registry of models *)

(** X18: what [load_all_models] registers on a fresh loader. A model is
    registered exactly when its file loads; its scaler (for the spam model,
    its vectorizer) exactly when both files load. So a model whose scaler
    file fails to load stays registered without a scaler, and a failure
    for one domain leaves the other two as they load. *)
Theorem X18_load_all_models_registry
    (Obj : Type) (joblib_load : list string -> Res Obj) (base_path : string) :
  let loader := load_all_models Obj joblib_load (loader_init Obj base_path) in
  dict_has "credit_card" (Loader.models loader)
  = loads joblib_load [base_path; "Credit_card"; "fraud_model.pkl"]
  /\ dict_has "credit_card" (Loader.scalers loader)
     = loads joblib_load [base_path; "Credit_card"; "fraud_model.pkl"]
       && loads joblib_load [base_path; "Credit_card"; "scaler.pkl"]
  /\ dict_has "spam" (Loader.models loader)
     = loads joblib_load [base_path; "Emails_Spam"; "spam_model.pkl"]
  /\ dict_has "spam" (Loader.vectorizers loader)
     = loads joblib_load [base_path; "Emails_Spam"; "spam_model.pkl"]
       && loads joblib_load [base_path; "Emails_Spam"; "vectorizer.pkl"]
  /\ dict_has "url" (Loader.models loader)
     = loads joblib_load [base_path; "URL_fraud"; "url_spam_model.pkl"]
  /\ dict_has "url" (Loader.scalers loader)
     = loads joblib_load [base_path; "URL_fraud"; "url_spam_model.pkl"]
       && loads joblib_load [base_path; "URL_fraud"; "url_scaler.pkl"].
Proof.
  cbv zeta.
  unfold load_all_models, load_url_model, load_spam_model,
    load_credit_card_model, loader_init, loads.
  cbn [Loader.base_path].
  destruct (joblib_load [base_path; "Credit_card"; "fraud_model.pkl"]);
    [destruct (joblib_load [base_path; "Credit_card"; "scaler.pkl"])|];
    cbn [Loader.base_path Loader.models Loader.scalers Loader.vectorizers];
    (destruct (joblib_load [base_path; "Emails_Spam"; "spam_model.pkl"]);
     [destruct (joblib_load [base_path; "Emails_Spam"; "vectorizer.pkl"])|]);
    cbn [Loader.base_path Loader.models Loader.scalers Loader.vectorizers];
    (destruct (joblib_load [base_path; "URL_fraud"; "url_spam_model.pkl"]);
     [destruct (joblib_load [base_path; "URL_fraud"; "url_scaler.pkl"])|]);
    cbn; repeat split; reflexivity.
Qed.

(** ** The QR detector *)

Lemma ge_075_of_ge_09 (c : float) : Py.ge c 0.9 = true -> Py.ge c 0.75 = true.
Proof.
  intros H9.
  destruct (PrimFloat.eqb c c) eqn:Enum.
  - destruct (Py.lt c 0.75) eqn:Elt.
    + rewrite (lt_le_not_ge c 0.75 0.9 Elt eq_refl) in H9. discriminate H9.
    + apply number_not_lt_ge; [exact Enum | reflexivity | exact Elt].
  - destruct (nan_compares_false c 0.9 Enum) as (_ & _ & Hge).
    unfold Py.ge in H9. rewrite Hge in H9. discriminate H9.
Qed.

Section QRProperties.

Context (W : World).
Variable Image : Type.
Variable decode_image : string -> Res (option Image).
Variable extract_qr_features : Image -> Res QRFeatures.
Variable predict_proba : Image -> Res (float * float).

(** X19: [detect_fraud_from_base64] never raises, and what it returns is
    fixed by the outcome of its steps on the payload (the text after the
    first comma, if there is one). When the payload or the image cannot be
    decoded, or the features or the model raise, it is the error verdict for
    that exception: not fraud, confidence 0.0, risk level [N/A], method
    [ERROR], the exception text in the reasoning and the details. Otherwise
    the method is [ML_MODEL]; the verdict is fraud exactly when the fraud
    probability is above 0.5, and its confidence is then that probability,
    else the probability of legitimate; the risk level is the tier of that
    confidence; the details carry both probabilities; and the advice is to
    not scan exactly for a fraud verdict of confidence 0.75 or more, caution
    for the other fraud verdicts, and the safe notice otherwise. *)
Theorem X19_qr_verdict_shape (image_base64 : string) :
  let v := detect_fraud_from_base64 Image decode_image extract_qr_features
             predict_proba image_base64 in
  let error_verdict (message : string) :=
    QRVerdict.is_fraud v = false
    /\ QRVerdict.confidence v = 0.0%float
    /\ QRVerdict.risk_level v = "N/A"
    /\ QRVerdict.detection_method v = "ERROR"
    /\ QRVerdict.reasoning v = "Error processing QR code: " +++ message
    /\ QRVerdict.details v = QRError message in
  match decode_image (qr_payload image_base64) with
  | Raise e => error_verdict (str_of_exception e)
  | Ok None => error_verdict "Failed to decode image"
  | Ok (Some image) =>
      match extract_qr_features image with
      | Raise e => error_verdict (str_of_exception e)
      | Ok features =>
          match predict_proba image with
          | Raise e =>
              error_verdict
                ("Error during QR fraud prediction: " +++ str_of_exception e)
          | Ok (legit_probability, fraud_probability) =>
              QRVerdict.detection_method v = "ML_MODEL"
              /\ QRVerdict.is_fraud v = Py.gt fraud_probability 0.5
              /\ QRVerdict.confidence v
                 = (if QRVerdict.is_fraud v
                    then fraud_probability else legit_probability)
              /\ QRVerdict.risk_level v
                 = qr_risk_level (QRVerdict.is_fraud v) (QRVerdict.confidence v)
              /\ QRVerdict.recommendation v
                 = (if QRVerdict.is_fraud v
                    then if Py.ge (QRVerdict.confidence v) 0.75
                         then qr_block_advice else qr_caution_advice
                    else qr_safe_advice)
              /\ QRVerdict.details v
                 = QRPrediction fraud_probability legit_probability
                     (qr_decoded_data features)
                     (negb (qr_contains_url features =? 0)%Z)
                     (qr_data_length features)
          end
      end
  end.
Proof.
  cbv zeta. unfold detect_fraud_from_base64.
  fold (qr_payload image_base64).
  destruct (decode_image (qr_payload image_base64)) as [[image|]|e];
    [|repeat split; reflexivity..].
  unfold predict_fraud.
  destruct (extract_qr_features image) as [features|e];
    [|repeat split; reflexivity].
  destruct (predict_proba image) as [[legit fraud]|e];
    [|repeat split; reflexivity].
  cbn [fst snd QRVerdict.details QRVerdict.detection_method QRVerdict.is_fraud
       QRVerdict.confidence QRVerdict.risk_level QRVerdict.recommendation].
  split; [reflexivity|]. split; [reflexivity|]. split; [reflexivity|].
  split; [reflexivity|]. split; [|reflexivity].
  destruct (Py.gt fraud 0.5); [|reflexivity].
  unfold qr_risk_level.
  destruct (Py.ge fraud 0.9) eqn:E9.
  - rewrite (ge_075_of_ge_09 _ E9). reflexivity.
  - destruct (Py.ge fraud 0.75); [reflexivity|].
    destruct (Py.ge fraud 0.6); reflexivity.
Qed.

End QRProperties.

(** ** The cleaned text *)

Lemma rstrip_tail (c : ascii) (r : string) :
  Py.rstrip (String c r) = String c r -> Py.rstrip r = r.
Proof.
  cbn [Py.rstrip]. destruct (Py.rstrip r) as [|d r'] eqn:E.
  - destruct (Py.isspace c); intros H; [discriminate H|].
    injection H as <-. reflexivity.
  - intros H. injection H as <-. reflexivity.
Qed.

Lemma rstrip_drop (n : nat) (s : string) :
  Py.rstrip s = s -> Py.rstrip (Py.drop n s) = Py.drop n s.
Proof.
  revert s. induction n as [|n IH]; intros s H; [destruct s; exact H|].
  destruct s as [|c r]; [exact H|]. cbn [Py.drop].
  apply IH. exact (rstrip_tail _ _ H).
Qed.

Lemma rstrip_drop_while (p : ascii -> bool) (s : string) :
  Py.rstrip s = s -> Py.rstrip (Py.drop_while p s) = Py.drop_while p s.
Proof.
  induction s as [|c r IH]; intros H; [exact H|]. cbn [Py.drop_while].
  destruct (p c); [|exact H]. apply IH. exact (rstrip_tail _ _ H).
Qed.

Lemma rstrip_idem (s : string) : Py.rstrip (Py.rstrip s) = Py.rstrip s.
Proof.
  induction s as [|c r IH]; [reflexivity|]. cbn [Py.rstrip].
  destruct (Py.rstrip r) as [|d r'] eqn:E.
  - destruct (Py.isspace c) eqn:Ec; [reflexivity|].
    cbn [Py.rstrip]. rewrite Ec. reflexivity.
  - change (Py.rstrip (String c (String d r')))
      with (match Py.rstrip (String d r') with
            | EmptyString =>
                if Py.isspace c then EmptyString else String c EmptyString
            | String _ _ as t => String c t
            end).
    rewrite IH. reflexivity.
Qed.

Lemma lstrip_head (s : string) :
  match Py.lstrip s with
  | EmptyString => True
  | String c _ => Py.isspace c = false
  end.
Proof.
  induction s as [|c r IH]; [exact I|]. cbn [Py.lstrip].
  destruct (Py.isspace c) eqn:E; [exact IH | exact E].
Qed.

Lemma lstrip_rstrip_head (s : string) :
  match s with
  | EmptyString => True
  | String c _ => Py.isspace c = false
  end ->
  Py.lstrip (Py.rstrip s) = Py.rstrip s.
Proof.
  destruct s as [|c r]; [reflexivity|]. intros Hc. cbn [Py.rstrip].
  destruct (Py.rstrip r); cbn [Py.lstrip]; rewrite Hc; cbn [Py.lstrip];
    rewrite ?Hc; reflexivity.
Qed.

(** A text without whitespace at either end. *)
Lemma strip_trimmed (s : string) :
  Py.lstrip (Py.strip s) = Py.strip s /\ Py.rstrip (Py.strip s) = Py.strip s.
Proof.
  unfold Py.strip. split.
  - apply lstrip_rstrip_head, lstrip_head.
  - apply rstrip_idem.
Qed.

Lemma lstrip_drop_while_separator (s : string) :
  Py.lstrip (Py.drop_while label_separator s) = Py.drop_while label_separator s.
Proof.
  induction s as [|c r IH]; [reflexivity|]. cbn [Py.drop_while].
  destruct (label_separator c) eqn:E; [exact IH|].
  cbn [Py.lstrip]. unfold label_separator in E.
  apply orb_false_elim in E as [_ E]. rewrite E. reflexivity.
Qed.

Lemma remove_leading_label_trimmed (s : string) :
  Py.lstrip s = s -> Py.rstrip s = s ->
  Py.lstrip (remove_leading_label s) = remove_leading_label s
  /\ Py.rstrip (remove_leading_label s) = remove_leading_label s.
Proof.
  intros Hl Hr. unfold remove_leading_label. rewrite Hl.
  assert (Hafter : forall label : string,
             match
               (if Py.startswith s label then
                  match Py.drop (Py.len label) s with
                  | String c r =>
                      if label_separator c
                      then Some (Py.drop_while label_separator r)
                      else None
                  | EmptyString => None
                  end
                else None)
             with
             | Some t => Py.lstrip t = t /\ Py.rstrip t = t
             | None => True
             end).
  { intros label. destruct (Py.startswith s label); [|exact I].
    pose proof (rstrip_drop (Py.len label) s Hr) as Hd.
    destruct (Py.drop (Py.len label) s) as [|c r]; [exact I|].
    destruct (label_separator c); [|exact I]. split.
    - apply lstrip_drop_while_separator.
    - apply rstrip_drop_while. exact (rstrip_tail _ _ Hd). }
  pose proof (Hafter "AI") as H1.
  pose proof (Hafter "Assistant") as H2.
  pose proof (Hafter "K") as H3.
  cbv zeta beta.
  destruct (if Py.startswith s "AI" then _ else None); [exact H1|].
  destruct (if Py.startswith s "Assistant" then _ else None); [exact H2|].
  destruct (if Py.startswith s "K" then _ else None); [exact H3|].
  split; assumption.
Qed.

(** X20: what [_clean_response_text] returns has no whitespace at either
    end: stripping it again changes nothing, also after a leading label
    such as [AI:] was removed. *)
Theorem X20_cleaned_text_is_trimmed (s : string) :
  Py.strip (_clean_response_text s) = _clean_response_text s.
Proof.
  unfold _clean_response_text.
  destruct (Py.len s =? 0) eqn:Elen.
  - destruct s; [reflexivity | discriminate Elen].
  - cbv zeta.
    match goal with
    | |- Py.strip (remove_leading_label (Py.strip ?t))
         = remove_leading_label (Py.strip ?t) =>
        destruct (strip_trimmed t) as (Hl & Hr);
        destruct (remove_leading_label_trimmed _ Hl Hr) as (Hl' & Hr')
    end.
    unfold Py.strip at 1. rewrite Hl'. exact Hr'.
Qed.

(** ** The trail of a full run *)

Section Trail.

Context (W : World).

Lemma validate_input_keeps_input (state state' : State.t) (log log' : Log) :
  validate_input state log = (Ok state', log') ->
  State.user_input state' = State.user_input state
  /\ log' = log ++ [ValidationPrompt (State.user_input state)].
Proof.
  unfold validate_input, bind, invoke, ret.
  destruct (llm_invoke (ValidationPrompt (State.user_input state))); [|discriminate].
  intros H. injection H as <- <-. split; [|reflexivity].
  destruct (loads_validation _) as [answer|]; [|reflexivity].
  destruct (negb _); reflexivity.
Qed.

Lemma classified_domain_valid (answer user_input : string) :
  In (if negb (mem (Py.lower (Py.strip answer)) valid_types) then
        if Py.any_in ["transaction"; "amount"; "v1"; "v2"; "credit card"] user_input
        then "credit_card"
        else if Py.any_in ["message"; "sms"; "email"; "text"; "spam"] user_input
        then "email_spam"
        else if Py.any_in ["url"; "link"; "website"; "http"; "https"] user_input
        then "url_fraud"
        else "upi_fraud"
      else Py.lower (Py.strip answer))
     valid_types.
Proof.
  destruct (mem (Py.lower (Py.strip answer)) valid_types) eqn:Emem; cbn [negb].
  - apply mem_spec in Emem. exact Emem.
  - destruct (Py.any_in _ _); [simpl; tauto|].
    destruct (Py.any_in _ _); [simpl; tauto|].
    destruct (Py.any_in _ _); simpl; tauto.
Qed.

Lemma classify_fraud_type_returns (state state' : State.t) (log log' : Log) :
  classify_fraud_type state log = (Ok state', log') ->
  State.user_input state' = State.user_input state
  /\ In (State.fraud_type state') valid_types
  /\ State.messages state' = [MsgDetected (State.fraud_type state')]
  /\ log' = log ++ [ClassificationPrompt (State.user_input state)].
Proof.
  unfold classify_fraud_type, bind, invoke, ret.
  destruct (llm_invoke (ClassificationPrompt (State.user_input state)))
    as [answer|]; [|discriminate].
  intros H. injection H as <- <-.
  split; [reflexivity|]. split; [|split; reflexivity].
  exact (classified_domain_valid answer (Py.lower (State.user_input state))).
Qed.

Lemma parse_input_data_returns (state state' : State.t) (log log' : Log) :
  parse_input_data state log = (Ok state', log') ->
  State.user_input state' = State.user_input state
  /\ State.fraud_type state' = State.fraud_type state
  /\ State.messages state'
     = State.messages state ++ [MsgParsed (State.parsed_data state')]
  /\ log' = log ++ [ParsingPrompt (State.fraud_type state) (State.user_input state)].
Proof.
  unfold parse_input_data, bind, invoke, ret.
  destruct (llm_invoke (ParsingPrompt (State.fraud_type state)
                          (State.user_input state))); [|discriminate].
  intros H. injection H as <- <-. repeat split; reflexivity.
Qed.

Lemma run_ml_model_returns (state : State.t) :
  exists ml,
    State.ml_prediction (run_ml_model state) = Some ml
    /\ State.messages (run_ml_model state) = State.messages state ++ [MsgML ml]
    /\ State.fraud_type (run_ml_model state) = State.fraud_type state
    /\ State.parsed_data (run_ml_model state) = State.parsed_data state.
Proof. unfold run_ml_model. eexists. repeat split; reflexivity. Qed.

Lemma llm_analysis_returns (state state' : State.t) (ml : ML.t) (log log' : Log) :
  State.ml_prediction state = Some ml ->
  llm_analysis state log = (Ok state', log') ->
  State.ml_prediction state' = Some ml
  /\ State.fraud_type state' = State.fraud_type state
  /\ State.parsed_data state' = State.parsed_data state
  /\ State.messages state'
     = State.messages state ++ [MsgLLM (State.llm_analysis state')]
  /\ log' = log ++ (if use_llm ml
                    then [AnalysisPrompt (State.fraud_type state)
                            (State.parsed_data state) ml]
                    else []).
Proof.
  intros Hml. unfold llm_analysis. rewrite Hml. unfold bind, ret.
  destruct (use_llm ml).
  - unfold invoke. destruct (llm_invoke _); [|discriminate].
    intros H. injection H as <- <-. repeat split; reflexivity.
  - intros H. injection H as <- <-. rewrite app_nil_r. repeat split; reflexivity.
Qed.

Lemma generate_final_result_details (state final : State.t) (ml : ML.t)
    (log log' : Log) :
  State.ml_prediction state = Some ml ->
  generate_final_result state log = (Ok final, log') ->
  exists v red_flags,
    State.final_result final = Some v
    /\ Verdict.fraud_type v = State.fraud_type state
    /\ Verdict.details v
       = FusionDetails (State.parsed_data state)
           (if ML.model_available ml then Some ml else None)
           (if present (LLM.is_fraud (State.llm_analysis state))
            then Some (sanitize (State.llm_analysis state)) else None)
           (State.messages state) red_flags
    /\ log' = log.
Proof.
  intros Hml. unfold generate_final_result. rewrite Hml.
  destruct (final_verdict ml (sanitize (State.llm_analysis state)))
    as [[[is_fraud confidence] method] reasoning].
  cbv beta iota zeta.
  destruct (risk_and_recommendation is_fraud confidence)
    as [risk_level recommendation].
  unfold ret. intros H. injection H as <- <-.
  eexists _, _. split; [reflexivity|].
  cbn [Verdict.fraud_type Verdict.details].
  repeat split; reflexivity.
Qed.

(** X21: a verdict of [detect_fraud] that is not the gate's own went through
    the whole workflow, and says so: its domain is one of the four tags,
    its details carry the parsed data and the four steps in order (domain,
    parsed data, model opinion, reasoning opinion as it was before
    sanitizing), and the reasoning service was called three times
    (validation, classification, parsing), and once more for the analysis
    exactly when the model opinion asks for it. *)
Theorem X21_full_run_leaves_its_trail
    (query : string) (v : Verdict.t) (log log' : Log) :
  detect_fraud query log = (Ok (Some v), log') ->
  Verdict.detection_method v <> "CONVERSATIONAL_AI" ->
  exists data ml llm red_flags,
    In (Verdict.fraud_type v) valid_types
    /\ Verdict.details v
       = FusionDetails data
           (if ML.model_available ml then Some ml else None)
           (if present (LLM.is_fraud llm) then Some (sanitize llm) else None)
           [MsgDetected (Verdict.fraud_type v); MsgParsed data; MsgML ml;
            MsgLLM llm]
           red_flags
    /\ log'
       = log
         ++ [ValidationPrompt query; ClassificationPrompt query;
             ParsingPrompt (Verdict.fraud_type v) query]
         ++ (if use_llm ml
             then [AnalysisPrompt (Verdict.fraud_type v) data ml] else []).
Proof.
  unfold detect_fraud. unfold bind at 1.
  destruct (graph_invoke (initial_state query) log) as [[final|e] log1] eqn:E;
    [|discriminate].
  unfold ret. intros H Hmethod. injection H as Hres <-.
  unfold graph_invoke in E. unfold bind at 1 in E.
  destruct (validate_input (initial_state query) log) as [[state1|e] l1] eqn:E1;
    [|discriminate].
  destruct (validate_input_keeps_input _ _ _ _ E1) as (Hin1 & ->).
  cbn [initial_state State.user_input] in Hin1.
  destruct (String.eqb (should_continue_to_fraud_detection state1) "end") eqn:Eend.
  { exfalso. unfold ret in E. injection E as <-.
    destruct (validate_input_outcome W _ _ _ _ E1)
      as [(v' & Hres' & Hm & _) | (Hft & _)].
    - rewrite Hres in Hres'. injection Hres' as <-. contradiction.
    - unfold should_continue_to_fraud_detection in Eend. rewrite Hft in Eend.
      discriminate Eend. }
  unfold bind at 1 in E.
  destruct (classify_fraud_type state1 _) as [[state2|e] l2] eqn:E2;
    [|discriminate].
  destruct (classify_fraud_type_returns _ _ _ _ E2) as (Hin2 & Hft2 & Hmsg2 & ->).
  unfold bind at 1 in E.
  destruct (parse_input_data state2 _) as [[state3|e] l3] eqn:E3; [|discriminate].
  destruct (parse_input_data_returns _ _ _ _ E3) as (Hin3 & Hft3 & Hmsg3 & ->).
  unfold bind at 1 in E. unfold ret at 1 in E. unfold bind at 1 in E.
  destruct (run_ml_model_returns state3) as (ml & Hml & Hmsg4 & Hft4 & Hdata4).
  destruct (llm_analysis (run_ml_model state3) _) as [[state5|e] l5] eqn:E5;
    [|discriminate].
  destruct (llm_analysis_returns _ _ _ _ _ Hml E5)
    as (Hml5 & Hft5 & Hdata5 & Hmsg5 & ->).
  destruct (generate_final_result_details _ _ _ _ _ Hml5 E)
    as (v' & red_flags & Hres' & Hft6 & Hdetails & ->).
  rewrite Hres in Hres'. injection Hres' as <-.
  assert (Hft : Verdict.fraud_type v = State.fraud_type state2)
    by congruence.
  exists (State.parsed_data state3), ml, (State.llm_analysis state5), red_flags.
  split; [rewrite Hft; exact Hft2|]. split.
  - rewrite Hdetails, Hdata5, Hdata4, Hmsg5, Hmsg4, Hmsg3, Hmsg2, Hft.
    reflexivity.
  - rewrite Hft4, Hdata4, Hft3, Hin2, Hin1, Hft.
    rewrite <- !app_assoc. reflexivity.
Qed.

End Trail.

(** A run of X21: no classifier, a prose analysis. *)
Lemma X21_witness :
  exists v log',
    detect_fraud (W := prize_world) prize_query [] = (Ok (Some v), log')
    /\ Verdict.detection_method v <> "CONVERSATIONAL_AI"
    /\ In (Verdict.fraud_type v) valid_types.
Proof.
  destruct (detect_fraud (W := prize_world) prize_query [])
    as [[[v|]|e] log'] eqn:E; try (vm_compute in E; discriminate E).
  exists v, log'. split; [reflexivity|].
  assert (Hne : Verdict.detection_method v <> "CONVERSATIONAL_AI").
  { assert (Hm : Verdict.detection_method v = "LLM_REASONING").
    { vm_compute in E. injection E as <- _. reflexivity. }
    rewrite Hm. discriminate. }
  split; [exact Hne|].
  destruct (X21_full_run_leaves_its_trail prize_world prize_query v [] log' E Hne)
    as (data & ml & llm & red_flags & Hin & _).
  exact Hin.
Defined.

(** ** The calls of the advisor *)

Section AdvisorCalls.

Context (W : World) {U : Unicode}.

Lemma get_advice_outcome (query : string) (log : Log) :
  match get_advice query log with
  | (Ok advice, log') =>
      In (advice_query_type advice) query_types
      /\ if fst (InputValidator.validate query)
         then exists template context,
             topic_context (advice_topic advice) = Some context
             /\ In template ["greeting"; "simple"; "detailed"]
             /\ log' = log ++ [CategorizationPrompt query;
                               GenerationPrompt query template context]
         else advice_query_type advice = "invalid" /\ log' = log
  | (Raise e, log') =>
      fst (InputValidator.validate query) = true
      /\ (log' = log ++ [CategorizationPrompt query]
          \/ exists template context,
              log' = log ++ [CategorizationPrompt query;
                             GenerationPrompt query template context])
  end.
Proof.
  destruct (InputValidator.validate query) as [[|] reason] eqn:Hval; cbn [fst].
  2:{ rewrite (get_advice_invalid W _ _ _ Hval).
      cbn [advice_query_type]. split; [simpl; tauto|]. split; reflexivity. }
  rewrite (get_advice_valid W _ _ _ Hval).
  unfold bind at 1. unfold bind at 1. unfold categorize_query.
  cbn [AdvisorState.is_valid negb AdvisorState.user_query
       AdvisorState.response_text AdvisorState.formatted_response].
  unfold bind at 1. unfold invoke.
  destruct (llm_invoke (CategorizationPrompt query)) as [answer|e].
  2:{ split; [reflexivity|]. left. reflexivity. }
  set (category := match loads_categorization _ with
                   | Some (query_type, topic) =>
                       (default "simple" query_type, default "general" topic)
                   | None => ("simple", "general")
                   end).
  destruct category as [query_type topic]. unfold ret at 1.
  unfold bind at 1. unfold generate_response.
  cbn [AdvisorState.is_valid negb AdvisorState.query_type AdvisorState.topic
       AdvisorState.user_query AdvisorState.formatted_response].
  change (mem query_type ["greeting"; "simple"; "detailed"; "invalid"])
    with (mem query_type query_types).
  destruct (mem query_type query_types) eqn:Eqt; cbn [negb].
  2:{ split; [reflexivity|]. left. reflexivity. }
  apply mem_spec in Eqt.
  destruct (topic_context topic) as [context|] eqn:Etopic.
  2:{ split; [reflexivity|]. left. reflexivity. }
  set (template := if mem query_type ["greeting"; "simple"; "detailed"]
                   then query_type else "simple").
  assert (Htemplate : In template ["greeting"; "simple"; "detailed"]).
  { subst template.
    destruct (mem query_type ["greeting"; "simple"; "detailed"]) eqn:E.
    - apply mem_spec in E. exact E.
    - simpl. tauto. }
  unfold bind at 1. unfold invoke.
  destruct (llm_invoke (GenerationPrompt query template context)) as [response|e].
  - unfold ret. cbn [advice_query_type advice_topic format_output
                     AdvisorState.is_valid negb AdvisorState.query_type
                     AdvisorState.topic].
    split; [exact Eqt|]. exists template, context.
    split; [exact Etopic|]. split; [exact Htemplate|].
    rewrite <- app_assoc. reflexivity.
  - split; [reflexivity|]. right. exists template, context.
    rewrite <- app_assoc. reflexivity.
Qed.

(** X22: [get_advice] calls the reasoning service at most twice.  A query
    the validator rejects is answered without any call, with query type
    [invalid].  An accepted query costs the categorization call, then the
    generation call with one of the three templates and the context of a
    known topic; advice that is returned always names a query type of
    [QueryType] and, for an accepted query, a topic of [Topic]; and the
    advisor raises only on an accepted query, after one or two calls. *)
Theorem X22_get_advice_calls (query : string) (log : Log) :
  match get_advice query log with
  | (Ok advice, log') =>
      In (advice_query_type advice) query_types
      /\ if fst (InputValidator.validate query)
         then exists template context,
             topic_context (advice_topic advice) = Some context
             /\ In template ["greeting"; "simple"; "detailed"]
             /\ log' = log ++ [CategorizationPrompt query;
                               GenerationPrompt query template context]
         else advice_query_type advice = "invalid" /\ log' = log
  | (Raise e, log') =>
      fst (InputValidator.validate query) = true
      /\ (log' = log ++ [CategorizationPrompt query]
          \/ exists template context,
              log' = log ++ [CategorizationPrompt query;
                             GenerationPrompt query template context])
  end.
Proof. exact (get_advice_outcome query log). Qed.

(** X8: [/api/advisor/chat] refuses a key shorter than 20 characters with
    status 400, and gives status 500 when the advisor cannot be constructed
    for the key, both before any call. Once the advisor is constructed it
    always answers with a result, never with an error status: for a query
    the validator rejects, the canned message for the reason, without any
    call; for an accepted query, after one or two calls, the advice when
    [get_advice] returns and the fixed apology when it raises. *)
Theorem X8_advisor_chat_always_answers
    (FraudAdvisorGraph_new : string -> Res unit)
    (google_api_key query : string) (log : Log) :
  if bad_api_key google_api_key
  then advisor_chat FraudAdvisorGraph_new google_api_key query log
       = (Ok (HTTPException 400), log)
  else
    match FraudAdvisorGraph_new google_api_key with
    | Raise _ =>
        advisor_chat FraudAdvisorGraph_new google_api_key query log
        = (Ok (HTTPException 500), log)
    | Ok _ =>
        match InputValidator.validate query with
        | (false, reason) =>
            advisor_chat FraudAdvisorGraph_new google_api_key query log
            = (Ok (Response
                     (AdviceGiven
                        {| advice_query_type := "invalid";
                           advice_topic := "";
                           advice_formatted_response :=
                             ResponseTemplates.get_invalid_input_message reason |})),
               log)
        | (true, _) =>
            exists calls,
              advisor_chat FraudAdvisorGraph_new google_api_key query log
              = (Ok (Response match fst (get_advice query log) with
                              | Ok advice => AdviceGiven advice
                              | Raise _ => advisor_fallback
                              end),
                 log ++ calls)
              /\ hd_error calls = Some (CategorizationPrompt query)
              /\ length calls <= 2
        end
    end.
Proof.
  unfold advisor_chat, create_advisor.
  destruct (bad_api_key google_api_key); [reflexivity|].
  destruct (FraudAdvisorGraph_new google_api_key); [|reflexivity].
  pose proof (get_advice_outcome query log) as Hout.
  destruct (InputValidator.validate query) as [[|] reason] eqn:Hval.
  - cbn [fst] in Hout.
    destruct (get_advice query log) as [[advice|e] log'].
    + destruct Hout as (_ & template & context & _ & _ & ->).
      eexists. split; [reflexivity|]. split; [reflexivity | simpl; lia].
    + destruct Hout as (_ & [-> | (template & context & ->)]);
        eexists; (split; [reflexivity|]); (split; [reflexivity | simpl; lia]).
  - rewrite (get_advice_invalid W _ _ _ Hval). reflexivity.
Qed.

End AdvisorCalls.
